(** * Sales dashboard: the data module (app/data.py)

    A shallow embedding of the generator and the aggregations of
    [app/data.py].

    - Python integers are [Z].  Python floats are IEEE 754 binary64 values,
      taken from the Standard Library's [SpecFloat] with precision 53 and
      maximal exponent 1024; the operations round to nearest, ties to even.
    - Lists are lists; dictionaries are association lists in insertion
      order, as Python iterates them; [sorted] and [list.sort] are a stable
      insertion sort that compares with [<] only.
    - The module-level state (the generator of [random] and [_DATA_CACHE])
      is passed explicitly, and Python exceptions are values of [PyResult].
    - The [random] module is a parameter: a state with the draws the data
      module makes, each within its documented range.  The properties hold
      for every such source, the one seeded with 42 included. *)

From Stdlib Require Import ZArith List Bool Lia String Ascii.
From Stdlib Require Import Sorting.Sorted Sorting.Permutation.
From Stdlib Require Import Floats.SpecFloat.
From Stdlib Require Import DecimalString.
Import ListNotations.

Open Scope string_scope.
Open Scope list_scope.
Open Scope Z_scope.

(* ================================================================= *)
(** ** Exceptions *)

Inductive PyExn : Type :=
| OverflowError
| ValueError
| ZeroDivisionError.

Inductive PyResult (A : Type) : Type :=
| Ok (a : A)
| Raise (e : PyExn).

Arguments Ok {A} a.
Arguments Raise {A} e.

Definition bind {A B : Type} (c : PyResult A) (k : A -> PyResult B) : PyResult B :=
  match c with
  | Ok a => k a
  | Raise e => Raise e
  end.

Notation "x <- c ;; k" := (bind c (fun x => k))
  (at level 61, c at next level, right associativity).
Notation "' pat <- c ;; k" := (bind c (fun x => match x with pat => k end))
  (at level 61, pat pattern, c at next level, right associativity).

(* ================================================================= *)
(** ** Floats: binary64 *)

Definition prec : Z := 53.
Definition emax : Z := 1024.

Definition float : Type := spec_float.

Definition fmul : float -> float -> float := SFmul prec emax.
Definition fadd : float -> float -> float := SFadd prec emax.
Definition fsub : float -> float -> float := SFsub prec emax.
Definition fdiv : float -> float -> float := SFdiv prec emax.
Definition flt : float -> float -> bool := SFltb.
Definition is_float (x : float) : bool := valid_binary prec emax x.

(** The value of an integer, before rounding: mantissa [|n|], exponent 0. *)
Definition exact (n : Z) : float :=
  match n with
  | Z0 => S754_zero false
  | Zpos p => S754_finite false p 0
  | Zneg p => S754_finite true p 0
  end.

(** The nearest float to an integer (ties to even). *)
Definition float_of_Z (n : Z) : float := binary_normalize prec emax n 0 false.

(** [float(n)], the conversion Python applies to the integer operand of a
    mixed operation; it raises when the integer is out of range. *)
Definition py_float (n : Z) : PyResult float :=
  match float_of_Z n with
  | S754_infinity _ => Raise OverflowError
  | f => Ok f
  end.

(** A decimal literal [num/den] of the source text: the nearest float. *)
Definition decimal (num den : Z) : float := fdiv (float_of_Z num) (float_of_Z den).

(** [int(x)]: truncation towards zero. *)
Definition py_int (x : float) : PyResult Z :=
  match x with
  | S754_zero _ => Ok 0
  | S754_infinity _ => Raise OverflowError
  | S754_nan => Raise ValueError
  | S754_finite s m e => Ok (cond_Zopp s (Z.shiftl (Zpos m) e))
  end.

(** [a / b] on integers: the correctly rounded quotient. *)
Definition py_truediv (a b : Z) : PyResult float :=
  if b =? 0 then Raise ZeroDivisionError
  else match fdiv (exact a) (exact b) with
       | S754_infinity _ => Raise OverflowError
       | q => Ok q
       end.

(** [n * x] and [n + x] with an integer [n] and a float [x]. *)
Definition int_mul_float (n : Z) (x : float) : PyResult float :=
  f <- py_float n ;; Ok (fmul f x).

Definition int_add_float (n : Z) (x : float) : PyResult float :=
  f <- py_float n ;; Ok (fadd f x).

Definition float_mul_int (x : float) (n : Z) : PyResult float :=
  f <- py_float n ;; Ok (fmul x f).

(** [min(a, b)] and [max(a, b)] keep the first argument unless the second
    is strictly smaller, respectively strictly greater. *)
Definition py_min (a b : float) : float := if flt b a then b else a.
Definition py_max (a b : float) : float := if flt a b then b else a.

(** The integer nearest to [a / b], ties to even ([0 <= a], [0 < b]). *)
Definition round_half_even (a b : Z) : Z :=
  let q := a / b in
  let r := a mod b in
  match 2 * r ?= b with
  | Lt => q
  | Gt => q + 1
  | Eq => if Z.even q then q else q + 1
  end.

(** [round(x, ndigits)] on a float, [0 <= ndigits]: the exact value of [x]
    is rounded to [ndigits] decimals (ties to even), and the decimal
    result is converted back to the nearest float. *)
Definition float_round (x : float) (ndigits : Z) : float :=
  match x with
  | S754_finite s m e =>
      let n := if 0 <=? e then Zpos m * 2 ^ e * 10 ^ ndigits
               else round_half_even (Zpos m * 10 ^ ndigits) (2 ^ (- e)) in
      match n with
      | Zpos p => fdiv (S754_finite s p 0) (exact (10 ^ ndigits))
      | _ => S754_zero s
      end
  | _ => x
  end.

(** [in_binade lo hi x]: [x] is a positive normal float with
    [2 ^ (lo - 1) <= x < 2 ^ hi]. *)
Definition in_binade (lo hi : Z) (x : float) : bool :=
  match x with
  | S754_finite false m e => (Z.log2 (Zpos m) =? 52) && (lo <=? 53 + e) && (53 + e <=? hi)
  | _ => false
  end.

(** Zero or a positive finite float. *)
Definition nonneg_finite (x : float) : bool :=
  match x with
  | S754_zero _ => true
  | S754_finite false _ _ => true
  | _ => false
  end.

(** Numbers: the attainment of a summary is the integer [0] or a float. *)
Inductive PyNum : Type :=
| PInt (n : Z)
| PFloat (f : float).

(** [round(v, ndigits)], [0 <= ndigits]: an integer is returned as it is. *)
Definition py_round (v : PyNum) (ndigits : Z) : PyNum :=
  match v with
  | PInt n => PInt n
  | PFloat f => PFloat (float_round f ndigits)
  end.

(** Exact comparison of an integer with a float. *)
Definition compare_int_float (n : Z) (x : float) : option comparison :=
  match x with
  | S754_nan => None
  | S754_infinity s => Some (if s then Gt else Lt)
  | S754_zero _ => Some (n ?= 0)
  | S754_finite s m e =>
      let v := cond_Zopp s (Zpos m) in
      Some (if 0 <=? e then n ?= v * 2 ^ e else n * 2 ^ (- e) ?= v)
  end.

(** [a < b] on numbers. *)
Definition py_lt (a b : PyNum) : bool :=
  match a, b with
  | PInt x, PInt y => x <? y
  | PFloat x, PFloat y => flt x y
  | PInt x, PFloat y =>
      match compare_int_float x y with Some Lt => true | _ => false end
  | PFloat x, PInt y =>
      match compare_int_float y x with Some Gt => true | _ => false end
  end.

(* ================================================================= *)
(** ** Built-ins on sequences and dictionaries *)

(** [sum(xs)] *)
Definition py_sum (xs : list Z) : Z := fold_left Z.add xs 0.

(** [range(a, b)] *)
Definition py_range (a b : Z) : list Z :=
  map (fun i => a + Z.of_nat i) (seq 0 (Z.to_nat (b - a))).

(** [sorted(l)] and [list.sort]: a stable sort that compares with [<]
    only. *)
Fixpoint insert_sorted {A : Type} (lt : A -> A -> bool) (x : A) (l : list A) : list A :=
  match l with
  | [] => [x]
  | y :: l' => if lt x y then x :: l else y :: insert_sorted lt x l'
  end.

Definition py_sorted {A : Type} (lt : A -> A -> bool) (l : list A) : list A :=
  fold_left (fun acc x => insert_sorted lt x acc) l [].

(** [l.sort(key=key, reverse=True)]: the list is reversed, sorted and
    reversed again, so that equal keys keep their order. *)
Definition sort_by_key_reverse {A K : Type} (lt : K -> K -> bool) (key : A -> K)
    (l : list A) : list A :=
  rev (py_sorted (fun a b => lt (key a) (key b)) (rev l)).

(** [set(xs)] of integers, as the list of its elements. *)
Definition py_set (xs : list Z) : list Z := nodup Z.eq_dec xs.

(** Dictionaries with string keys, in insertion order. *)
Definition dict (V : Type) : Type := list (string * V).

Fixpoint dict_get {V : Type} (d : dict V) (k : string) : option V :=
  match d with
  | [] => None
  | (k', v) :: d' => if String.eqb k' k then Some v else dict_get d' k
  end.

Definition dict_contains {V : Type} (d : dict V) (k : string) : bool :=
  match dict_get d k with Some _ => true | None => false end.

(** [d.get(k, default)] *)
Definition dict_get_default {V : Type} (d : dict V) (k : string) (default : V) : V :=
  match dict_get d k with Some v => v | None => default end.

(** [d[k] = v]: a new key goes last, an old key keeps its place. *)
Fixpoint dict_set {V : Type} (d : dict V) (k : string) (v : V) : dict V :=
  match d with
  | [] => [(k, v)]
  | (k', v') :: d' =>
      if String.eqb k' k then (k', v) :: d' else (k', v') :: dict_set d' k v
  end.

(** [d[k] = f(d[k])] for a key that is present. *)
Fixpoint dict_update {V : Type} (d : dict V) (k : string) (f : V -> V) : dict V :=
  match d with
  | [] => []
  | (k', v') :: d' =>
      if String.eqb k' k then (k', f v') :: d' else (k', v') :: dict_update d' k f
  end.

(** [x in xs] on a list of strings. *)
Definition str_in (x : string) (xs : list string) : bool :=
  existsb (String.eqb x) xs.

(** [a < b] on strings, and on pairs of a string and an integer. *)
Definition str_lt (a b : string) : bool :=
  match String.compare a b with Lt => true | _ => false end.

Definition item_lt (a b : string * Z) : bool :=
  if String.eqb (fst a) (fst b) then snd a <? snd b else str_lt (fst a) (fst b).

(* ================================================================= *)
(** ** Dates: [datetime], [timedelta(days=n)] and [strftime] *)

Record datetime : Type := { year : Z; month : Z; day : Z }.

Definition is_leap (y : Z) : bool :=
  ((y mod 4 =? 0) && negb (y mod 100 =? 0)) || (y mod 400 =? 0).

Definition days_in_month (y m : Z) : Z :=
  if m =? 2 then (if is_leap y then 29 else 28)
  else if (m =? 4) || (m =? 6) || (m =? 9) || (m =? 11) then 30
  else 31.

Definition next_day (d : datetime) : datetime :=
  if day d <? days_in_month (year d) (month d)
  then {| year := year d; month := month d; day := day d + 1 |}
  else if month d <? 12
  then {| year := year d; month := month d + 1; day := 1 |}
  else {| year := year d + 1; month := 1; day := 1 |}.

Definition prev_day (d : datetime) : datetime :=
  if 1 <? day d
  then {| year := year d; month := month d; day := day d - 1 |}
  else if 1 <? month d
  then {| year := year d; month := month d - 1;
          day := days_in_month (year d) (month d - 1) |}
  else {| year := year d - 1; month := 12; day := 31 |}.

(** [d + timedelta(days=n)] *)
Definition add_days (d : datetime) (n : Z) : datetime :=
  if 0 <=? n then Nat.iter (Z.to_nat n) next_day d
  else Nat.iter (Z.to_nat (- n)) prev_day d.

Definition digit (n : Z) : ascii := ascii_of_nat (48 + Z.to_nat (n mod 10)).

Definition pad2 (n : Z) : string :=
  String (digit (n / 10)) (String (digit n) EmptyString).

Definition pad4 (n : Z) : string :=
  String (digit (n / 1000)) (String (digit (n / 100)) (pad2 n)).

(** [d.strftime("%Y-%m-%d")] *)
Definition strftime_ymd (d : datetime) : string :=
  String.append (pad4 (year d))
    (String.append "-" (String.append (pad2 (month d))
       (String.append "-" (pad2 (day d))))).

(* ================================================================= *)
(** ** The [random] module

    The generator of the [random] module is not part of the repository.
    It is a state with the four draws the data module makes; each draw
    comes with the range its documentation gives.  [choice_index n] is
    the index [random.choice] picks in a sequence of length [n]. *)

Record RandomSource : Type := {
  rng_state : Type;
  randint : Z -> Z -> rng_state -> Z * rng_state;
  gauss : float -> float -> rng_state -> float * rng_state;
  uniform : float -> float -> rng_state -> float * rng_state;
  choice_index : Z -> rng_state -> Z * rng_state;
  randint_range : forall a b s, a <= b -> a <= fst (randint a b s) <= b;
  gauss_float : forall mu sigma s, is_float (fst (gauss mu sigma s)) = true;
  uniform_range : forall a b s,
      is_float a = true -> is_float b = true -> SFleb a b = true ->
      is_float (fst (uniform a b s)) = true
      /\ SFleb a (fst (uniform a b s)) = true
      /\ SFleb (fst (uniform a b s)) b = true;
  choice_index_range : forall n s, 0 < n -> 0 <= fst (choice_index n s) < n
}.

(* ================================================================= *)
(** ** The data module *)

(** *** Configuration *)

Definition MARKETS : list string :=
  ["Austin"; "Dallas"; "Houston"; "San Antonio"; "Fort Worth"].
Definition ACCOUNTS : list string :=
  ["Tom Thumb"; "Kroger"; "Central Market"; "Whole Foods"; "Market Street"].
Definition BRANDS : list string :=
  ["Moët & Chandon"; "Hennessy"; "Veuve Clicquot"; "Dom Pérignon"; "Belvedere"].
Definition REPS : list string :=
  ["Martinez, J"; "Thompson, K"; "Williams, R"; "Garcia, M"; "Johnson, T"].

(** *** Records *)

Record SalesRecord : Type := {
  date : string;
  week : Z;
  market : string;
  account : string;
  brand : string;
  rep : string;
  goal : Z;
  sales_volume : Z;
  displays : Z;
  pods : Z;
  voids : Z
}.

Record Summary : Type := {
  total_sales : Z;
  total_goal : Z;
  gap_to_goal : Z;
  attainment : PyNum
}.

(** The running totals of a market, and an entry of the territory list. *)
Record Totals : Type := { t_sales : Z; t_goal : Z }.

Record Territory : Type := {
  tr_market : string;
  tr_sales : Z;
  tr_goal : Z;
  tr_attainment : PyNum
}.

Record TrendPoint : Type := { tp_date : string; tp_sales : Z }.

Section DataModule.

Variable R : RandomSource.

(** The state of the process: the generator of [random] and
    [_DATA_CACHE]. *)
Record ProcState : Type := {
  rng : rng_state R;
  _DATA_CACHE : option (list SalesRecord)
}.

(** A computation that draws from the generator and may raise. *)
Definition Gen (A : Type) : Type := rng_state R -> PyResult (A * rng_state R).

Definition gret {A : Type} (a : A) : Gen A := fun s => Ok (a, s).

Definition gbind {A B : Type} (c : Gen A) (k : A -> Gen B) : Gen B :=
  fun s => match c s with
           | Ok (a, s') => k a s'
           | Raise e => Raise e
           end.

Definition draw {A : Type} (f : rng_state R -> A * rng_state R) : Gen A :=
  fun s => Ok (f s).

Definition lift {A : Type} (c : PyResult A) : Gen A :=
  fun s => match c with
           | Ok a => Ok (a, s)
           | Raise e => Raise e
           end.

(** [random.choice(seq)] *)
Definition choice (xs : list string) : Gen string :=
  draw (fun s => let (i, s') := choice_index R (Z.of_nat (List.length xs)) s in
                 (nth (Z.to_nat i) xs EmptyString, s')).

(** A [for] loop that appends to [data]. *)
Fixpoint for_each {A : Type} (xs : list A)
    (body : A -> list SalesRecord -> Gen (list SalesRecord))
    (data : list SalesRecord) : Gen (list SalesRecord) :=
  match xs with
  | [] => gret data
  | x :: xs' => gbind (body x data) (for_each xs' body)
  end.

Definition market_multiplier (market : string) : float :=
  dict_get_default
    [("Dallas", decimal 12 10);
     ("Houston", decimal 11 10);
     ("Austin", decimal 95 100);
     ("San Antonio", decimal 85 100);
     ("Fort Worth", decimal 9 10)]
    market (decimal 10 10).

(** The body of the innermost loop up to the record it appends. *)
Definition make_record (week : Z) (week_start : datetime) (market : string)
    (multiplier : float) (account : string) (day_offset : Z) : Gen SalesRecord :=
  let current_date := add_days week_start day_offset in
  gbind (draw (randint R 800 1500)) (fun r =>
  gbind (lift (x <- int_mul_float r multiplier ;; py_int x)) (fun base_goal =>
  gbind (draw (gauss R (decimal 10 10) (decimal 15 100))) (fun attainment =>
  gbind (lift (x <- int_mul_float base_goal
                      (py_max (decimal 5 10) (py_min (decimal 15 10) attainment)) ;;
               py_int x)) (fun sales =>
  gbind (draw (randint R 0 4)) (fun displays =>
  gbind (if 0 <? displays
         then gbind (draw (uniform R (decimal 5 100) (decimal 10 100))) (fun u =>
              lift (t <- int_mul_float displays u ;;
                    display_lift <- int_add_float 1 t ;;
                    x <- int_mul_float sales display_lift ;;
                    py_int x))
         else gret sales) (fun sales =>
  gbind (choice BRANDS) (fun brand =>
  gbind (choice REPS) (fun rep =>
  gbind (draw (randint R 0 3)) (fun pods =>
  gbind (draw (randint R 0 2)) (fun voids =>
  gret {| date := strftime_ymd current_date;
          week := week;
          market := market;
          account := account;
          brand := brand;
          rep := rep;
          goal := base_goal;
          sales_volume := sales;
          displays := displays;
          pods := pods;
          voids := voids |})))))))))).

Definition base_date : datetime := {| year := 2026; month := 1; day := 1 |}.

(** The four nested loops of [_generate_sample_data]. *)
Definition generate_loops : Gen (list SalesRecord) :=
  for_each (py_range 1 9) (fun week =>
    let week_start := add_days base_date (7 * (week - 1)) in
    for_each MARKETS (fun market =>
      let multiplier := market_multiplier market in
      for_each ACCOUNTS (fun account =>
        for_each (py_range 0 7) (fun day_offset data =>
          gbind (make_record week week_start market multiplier account day_offset)
                (fun record => gret (data ++ [record]))))))
    [].

Definition _generate_sample_data (st : ProcState)
  : PyResult (list SalesRecord * ProcState) :=
  match _DATA_CACHE st with
  | Some data => Ok (data, st)
  | None =>
      '(data, s') <- generate_loops (rng st) ;;
      Ok (data, {| rng := s'; _DATA_CACHE := Some data |})
  end.

(** *** Filters *)

Definition filter_week (week_filter : option Z) (data : list SalesRecord) : list SalesRecord :=
  match week_filter with
  | Some w => filter (fun d => d.(week) =? w) data
  | None => data
  end.

Definition filter_market (market_filter : option string) (data : list SalesRecord)
  : list SalesRecord :=
  match market_filter with
  | Some m => filter (fun d => String.eqb d.(market) m) data
  | None => data
  end.

(** [if markets:] holds for a list that is given and not empty. *)
Definition filter_markets (markets : option (list string)) (data : list SalesRecord)
  : list SalesRecord :=
  match markets with
  | Some (m :: ms) => filter (fun d => str_in d.(market) (m :: ms)) data
  | _ => data
  end.

Definition get_sales_data (week_filter : option Z) (market_filter : option string) (st : ProcState)
  : PyResult (list SalesRecord * ProcState) :=
  '(data, st') <- _generate_sample_data st ;;
  let data := filter_week week_filter data in
  let data := filter_market market_filter data in
  Ok (data, st').

(** *** Summary *)

Definition zero_summary : Summary :=
  {| total_sales := 0; total_goal := 0; gap_to_goal := 0; attainment := PInt 0 |}.

(** [(sales / goal * 100) if goal > 0 else 0] *)
Definition attainment_of (sales goal : Z) : PyResult PyNum :=
  if 0 <? goal
  then q <- py_truediv sales goal ;;
       p <- float_mul_int q 100 ;;
       Ok (PFloat p)
  else Ok (PInt 0).

Definition summarize (data : list SalesRecord) : PyResult Summary :=
  match data with
  | [] => Ok zero_summary
  | _ :: _ =>
      let total_sales := py_sum (map sales_volume data) in
      let total_goal := py_sum (map goal data) in
      let gap_to_goal := total_goal - total_sales in
      attainment <- attainment_of total_sales total_goal ;;
      Ok {| total_sales := total_sales;
            total_goal := total_goal;
            gap_to_goal := gap_to_goal;
            attainment := py_round attainment 1 |}
  end.

Definition get_summary_metrics (week_filter : option Z) (markets : option (list string))
    (st : ProcState) : PyResult (Summary * ProcState) :=
  '(data, st') <- _generate_sample_data st ;;
  let data := filter_week week_filter data in
  let data := filter_markets markets data in
  summary <- summarize data ;;
  Ok (summary, st').

(** *** Territory summary *)

(** One turn of the loop that aggregates by market. *)
Definition add_to_market (market_totals : dict Totals) (record : SalesRecord)
  : dict Totals :=
  let market := record.(market) in
  let market_totals :=
    if dict_contains market_totals market then market_totals
    else dict_set market_totals market {| t_sales := 0; t_goal := 0 |} in
  let market_totals :=
    dict_update market_totals market
      (fun t => {| t_sales := t_sales t + record.(sales_volume); t_goal := t_goal t |}) in
  dict_update market_totals market
    (fun t => {| t_sales := t_sales t; t_goal := t_goal t + record.(goal) |}).

Definition territory_entry (item : string * Totals) : PyResult Territory :=
  let (market, totals) := item in
  attainment <- attainment_of (t_sales totals) (t_goal totals) ;;
  Ok {| tr_market := market;
        tr_sales := t_sales totals;
        tr_goal := t_goal totals;
        tr_attainment := py_round attainment 1 |}.

Fixpoint territory_entries (items : dict Totals) (result : list Territory)
  : PyResult (list Territory) :=
  match items with
  | [] => Ok result
  | item :: items' =>
      entry <- territory_entry item ;;
      territory_entries items' (result ++ [entry])
  end.

Definition territory_of (data : list SalesRecord) : PyResult (list Territory) :=
  let market_totals := fold_left add_to_market data [] in
  result <- territory_entries market_totals [] ;;
  Ok (sort_by_key_reverse py_lt tr_attainment result).

Definition get_territory_summary (week_filter : option Z) (st : ProcState)
  : PyResult (list Territory * ProcState) :=
  '(data, st') <- _generate_sample_data st ;;
  let data := filter_week week_filter data in
  result <- territory_of data ;;
  Ok (result, st').

(** *** Daily trend *)

Definition add_to_date (daily_totals : dict Z) (record : SalesRecord) : dict Z :=
  let date := record.(date) in
  let daily_totals :=
    if dict_contains daily_totals date then daily_totals
    else dict_set daily_totals date 0 in
  dict_update daily_totals date (fun total => total + record.(sales_volume)).

Definition trend_of (data : list SalesRecord) : list TrendPoint :=
  let daily_totals := fold_left add_to_date data [] in
  map (fun item => {| tp_date := fst item; tp_sales := snd item |})
      (py_sorted item_lt daily_totals).

Definition get_daily_trend (week_filter : option Z) (markets : option (list string))
    (st : ProcState) : PyResult (list TrendPoint * ProcState) :=
  '(data, st') <- _generate_sample_data st ;;
  let data := filter_week week_filter data in
  let data := filter_markets markets data in
  Ok (trend_of data, st').

(** *** Available weeks *)

Definition weeks_of (data : list SalesRecord) : list Z :=
  py_sorted Z.ltb (py_set (map week data)).

Definition get_available_weeks (st : ProcState) : PyResult (list Z * ProcState) :=
  '(data, st') <- _generate_sample_data st ;;
  Ok (weeks_of data, st').

(** The state of a process that has not generated its data yet. *)
Definition fresh (s : rng_state R) : ProcState :=
  {| rng := s; _DATA_CACHE := None |}.

End DataModule.

Arguments rng {R} p.
Arguments _DATA_CACHE {R} p.

(* ================================================================= *)
(** ** Vocabulary of the properties *)

(** The data a process generates from the generator state [s], and its
    state once they are cached. *)
Definition generated (R : RandomSource) (s : rng_state R)
  : list SalesRecord * rng_state R :=
  match generate_loops R s with
  | Ok p => p
  | Raise _ => ([], s)
  end.

Definition dataset (R : RandomSource) (s : rng_state R) : list SalesRecord :=
  fst (generated R s).

Definition loaded (R : RandomSource) (s : rng_state R) : ProcState R :=
  {| rng := snd (generated R s); _DATA_CACHE := Some (dataset R s) |}.

(** A process started with generator state [s], before ([warm = false])
    or after ([warm = true]) its data were generated. *)
Definition proc_state (R : RandomSource) (s : rng_state R) (warm : bool) : ProcState R :=
  if warm then loaded R s else fresh R s.

(** The combination a record stands for. *)
Definition Key : Type := (Z * string * string * string)%type.

Definition record_key (r : SalesRecord) : Key :=
  (r.(week), r.(market), r.(account), r.(date)).

Definition key_eqb (a b : Key) : bool :=
  let '(w1, m1, a1, d1) := a in
  let '(w2, m2, a2, d2) := b in
  if w1 =? w2
  then if String.eqb m1 m2
       then if String.eqb a1 a2 then String.eqb d1 d2 else false
       else false
  else false.

(** The date string of day [day_offset] of week [w]. *)
Definition day_string (w day_offset : Z) : string :=
  strftime_ymd (add_days (add_days base_date (7 * (w - 1))) day_offset).

Definition expected_keys : list Key :=
  flat_map (fun w =>
    flat_map (fun m =>
      flat_map (fun a =>
        flat_map (fun d => [(w, m, a, day_string w d)]) (py_range 0 7))
      ACCOUNTS)
    MARKETS)
  (py_range 1 9).

(** The number of records of [data] that stand for the combination [k]. *)
Definition count_key (k : Key) (data : list SalesRecord) : nat :=
  List.length (filter (fun r => key_eqb k (record_key r)) data).

(** The ranges the generator keeps [goal] and [sales_volume] in. *)
Definition record_bounds (r : SalesRecord) : Prop :=
  2 ^ 8 <= r.(goal) < 2 ^ 14 /\ 2 ^ 7 <= r.(sales_volume) < 2 ^ 23.

(** The records a summary or a trend is about: those of the given week, if
    a week is given, in one of the given markets, if markets are given. *)
Definition chosen (week_filter : option Z) (markets : option (list string))
    (d : SalesRecord) : bool :=
  match week_filter with Some w => d.(week) =? w | None => true end
  && match markets with Some (m :: ms) => str_in d.(market) (m :: ms) | _ => true end.

Definition selected (R : RandomSource) (s : rng_state R)
    (week_filter : option Z) (markets : option (list string)) : list SalesRecord :=
  filter (chosen week_filter markets) (dataset R s).

(** The records [get_sales_data] is asked for. *)
Definition matches (week_filter : option Z) (market_filter : option string)
    (d : SalesRecord) : bool :=
  match week_filter with Some w => d.(week) =? w | None => true end
  && match market_filter with Some m => String.eqb d.(market) m | None => true end.

(** The week and the market of a combination. *)
Definition key_week (k : Key) : Z := let '(w, _, _, _) := k in w.
Definition key_market (k : Key) : string := let '(_, m, _, _) := k in m.

(** A record with the given week, market, goal and sales volume, for
    examples on lists of records. *)
Definition sample_record (w : Z) (m : string) (g v : Z) : SalesRecord :=
  {| date := day_string w 0; week := w; market := m; account := "Kroger";
     brand := "Hennessy"; rep := "Garcia, M"; goal := g; sales_volume := v;
     displays := 0; pods := 0; voids := 0 |}.

(** A key of the table names a week, a market, an account and a day. *)
Definition key_in_table (k : Key) : bool :=
  let '(w, m, a, ds) := k in
  (1 <=? w) && (w <=? 8) && str_in m MARKETS && str_in a ACCOUNTS
  && existsb (fun d => String.eqb ds (day_string w d)) (py_range 0 7).

(** Ascending: no element is followed by a smaller one. *)
Definition not_after {A : Type} (lt : A -> A -> bool) (a b : A) : Prop := lt b a = false.

(** The lists the aggregations work on: records within the generator's
    ranges, at most as many as the generator makes. *)
Definition small (l : list SalesRecord) : Prop :=
  Forall record_bounds l /\ (List.length l <= 1400)%nat.

(** The records of a market, and their totals. *)
Definition of_market (m : string) (l : list SalesRecord) : list SalesRecord :=
  filter (fun r => String.eqb r.(market) m) l.

Definition totals_of (l : list SalesRecord) (m : string) : Totals :=
  {| t_sales := py_sum (map sales_volume (of_market m l));
     t_goal := py_sum (map goal (of_market m l)) |}.

(** What the dictionary of the aggregation holds once the records [l]
    have been added: a key for each market of [l], with its totals. *)
Definition totals_inv (d : dict Totals) (l : list SalesRecord) : Prop :=
  NoDup (map fst d)
  /\ forall m, dict_get d m
               = if str_in m (map market l) then Some (totals_of l m) else None.

(** What an entry of the territory list says about the records [data]. *)
Definition entry_of (data : list SalesRecord) (e : Territory) : Prop :=
  e.(tr_sales) = py_sum (map sales_volume (of_market e.(tr_market) data))
  /\ e.(tr_goal) = py_sum (map goal (of_market e.(tr_market) data))
  /\ 0 < e.(tr_goal)
  /\ exists q, py_truediv e.(tr_sales) e.(tr_goal) = Ok q
       /\ e.(tr_attainment) = PFloat (float_round (fmul q (float_of_Z 100)) 1).

(** The attainment of an entry whose goal is positive: a float, zero or
    positive. *)
Definition float_attainment (e : Territory) : Prop :=
  exists f, e.(tr_attainment) = PFloat f /\ nonneg_finite f = true.

(** [Subsequence l1 l2]: [l1] is [l2] with some elements left out. *)
Inductive Subsequence {A : Type} : list A -> list A -> Prop :=
| sub_nil : Subsequence [] []
| sub_skip : forall x l1 l2, Subsequence l1 l2 -> Subsequence l1 (x :: l2)
| sub_keep : forall x l1 l2, Subsequence l1 l2 -> Subsequence (x :: l1) (x :: l2).

(* ================================================================= *)
(** ** The request handlers (app/main.py)

    The handlers are modelled on what they pass to the data module and on
    what they return; logging and the transport are left out.  Query
    strings are taken as ASCII text: [str.strip] below removes the ASCII
    white space. *)

(** [c.isspace()] on an ASCII character. *)
Definition py_isspace (c : ascii) : bool :=
  let n := N_of_ascii c in
  (((9 <=? n) && (n <=? 13)) || ((28 <=? n) && (n <=? 31)) || (n =? 32))%N.

(** [s.lstrip()], [s.rstrip()] and [s.strip()] *)
Fixpoint lstrip (s : string) : string :=
  match s with
  | EmptyString => EmptyString
  | String c s' => if py_isspace c then lstrip s' else s
  end.

Fixpoint rstrip (s : string) : string :=
  match s with
  | EmptyString => EmptyString
  | String c s' =>
      match rstrip s' with
      | EmptyString => if py_isspace c then EmptyString else String c EmptyString
      | r => String c r
      end
  end.

Definition strip (s : string) : string := rstrip (lstrip s).

(** [s.split(sep)] for a separator of one character. *)
Fixpoint split_on (sep : ascii) (s : string) : list string :=
  match s with
  | EmptyString => [EmptyString]
  | String c s' =>
      if Ascii.eqb c sep then EmptyString :: split_on sep s'
      else match split_on sep s' with
           | w :: ws => String c w :: ws
           | [] => [String c EmptyString]
           end
  end.

(** [sep.join(xs)], the inverse the properties speak of. *)
Fixpoint join_with (sep : ascii) (xs : list string) : string :=
  match xs with
  | [] => EmptyString
  | [x] => x
  | x :: xs' => String.append x (String sep (join_with sep xs'))
  end.

Definition ascii_text (s : string) : bool :=
  forallb (fun c => (N_of_ascii c <? 128)%N) (list_ascii_of_string s).

(** [str(n)] on an integer. *)
Definition py_str (n : Z) : string := NilZero.string_of_int (Z.to_int n).

(** The writer of the [csv] module with its default dialect: fields are
    separated by commas; a field with a comma, a quote, a carriage return
    or a line feed is put in quotes, with its quotes doubled; a row ends
    with a carriage return and a line feed. *)
Definition QUOTE : ascii := ascii_of_nat 34.
Definition CR : ascii := ascii_of_nat 13.
Definition LF : ascii := ascii_of_nat 10.

Definition csv_special (c : ascii) : bool :=
  Ascii.eqb c "," || Ascii.eqb c QUOTE || Ascii.eqb c CR || Ascii.eqb c LF.

Definition csv_needs_quotes (s : string) : bool :=
  existsb csv_special (list_ascii_of_string s).

Fixpoint csv_escape (s : string) : string :=
  match s with
  | EmptyString => EmptyString
  | String c s' =>
      if Ascii.eqb c QUOTE then String c (String c (csv_escape s'))
      else String c (csv_escape s')
  end.

Definition csv_quoted (s : string) : string :=
  String QUOTE (String.append (csv_escape s) (String QUOTE EmptyString)).

Definition csv_field (s : string) : string :=
  if csv_needs_quotes s then csv_quoted s else s.

Definition CRLF : string := String CR (String LF EmptyString).

(** [writer.writerow(fields)]: a row of one empty field is written as a
    pair of quotes. *)
Definition csv_row (fields : list string) : string :=
  String.append
    match fields with
    | [EmptyString] => String QUOTE (String QUOTE EmptyString)
    | _ => join_with "," (map csv_field fields)
    end
    CRLF.

(** The keys of a record, in the order of the dictionary, and its values
    as the writer sees them. *)
Definition fieldnames : list string :=
  ["date"; "week"; "market"; "account"; "brand"; "rep"; "goal"; "sales_volume";
   "displays"; "pods"; "voids"].

Definition csv_cells (r : SalesRecord) : list string :=
  [r.(date); py_str r.(week); r.(market); r.(account); r.(brand); r.(rep);
   py_str r.(goal); py_str r.(sales_volume); py_str r.(displays); py_str r.(pods);
   py_str r.(voids)].

Module Main.

(** The body of [get_sales]: the records and their number. *)
Record SalesResponse : Type := {
  sr_data : list SalesRecord;
  sr_count : Z
}.

(** The response of [download_sales]: the text of the body, and whether
    the response carries the attachment header. *)
Record Download : Type := {
  dl_body : string;
  dl_attachment : bool
}.

Section Handlers.

Variable R : RandomSource.

(** [[m.strip() for m in markets.split(",")] if markets else None] *)
Definition market_list (markets : option string) : option (list string) :=
  match markets with
  | Some (String c s) => Some (map strip (split_on "," (String c s)))
  | _ => None
  end.

Definition get_sales (week_filter : option Z) (market_filter : option string)
    (st : ProcState R) : PyResult (SalesResponse * ProcState R) :=
  '(data, st') <- get_sales_data R week_filter market_filter st ;;
  Ok ({| sr_data := data; sr_count := Z.of_nat (List.length data) |}, st').

Definition get_summary (week_filter : option Z) (markets : option string)
    (st : ProcState R) : PyResult (Summary * ProcState R) :=
  get_summary_metrics R week_filter (market_list markets) st.

Definition get_trend (week_filter : option Z) (markets : option string)
    (st : ProcState R) : PyResult (list TrendPoint * ProcState R) :=
  get_daily_trend R week_filter (market_list markets) st.

Definition download_sales (week_filter : option Z) (markets : option string)
    (st : ProcState R) : PyResult (Download * ProcState R) :=
  let market_list := market_list markets in
  '(data, st') <- get_sales_data R week_filter None st ;;
  let data :=
    match market_list with
    | Some (m :: ms) => filter (fun d => str_in d.(market) (m :: ms)) data
    | _ => data
    end in
  match data with
  | [] => Ok ({| dl_body := EmptyString; dl_attachment := false |}, st')
  | _ :: _ =>
      let output := csv_row fieldnames in
      let output := fold_left (fun out row => String.append out (csv_row (csv_cells row)))
                              data output in
      Ok ({| dl_body := output; dl_attachment := true |}, st')
  end.

End Handlers.

End Main.

(* ================================================================= *)
(** ** Vocabulary of the further properties *)

(** The goal drawn for a market: [int(n * multiplier)]. *)
Definition goal_of_draw (n : Z) (m : string) : PyResult Z :=
  x <- int_mul_float n (market_multiplier m) ;; py_int x.

(** The least and the greatest goal of a market. *)
Definition goal_range (m : string) : Z * Z :=
  dict_get_default
    [("Dallas", (960, 1800));
     ("Houston", (880, 1650));
     ("Austin", (760, 1425));
     ("San Antonio", (680, 1275));
     ("Fort Worth", (720, 1350))]
    m (800, 1500).

Definition goal_in_range (n : Z) (m : string) : bool :=
  match goal_of_draw n m with
  | Ok g => (fst (goal_range m) <=? g) && (g <=? snd (goal_range m))
            && (680 <=? g) && (g <=? 1800)
  | Raise _ => false
  end.

(** What the draws of one record are. *)
Definition record_draws (r : SalesRecord) : Prop :=
  (exists n, 800 <= n <= 1500 /\ goal_of_draw n r.(market) = Ok r.(goal))
  /\ 0 <= r.(displays) <= 4 /\ 0 <= r.(pods) <= 3 /\ 0 <= r.(voids) <= 2
  /\ In r.(brand) BRANDS /\ In r.(rep) REPS.

(** The filters of [get_sales_data], on the combination of a record. *)
Definition key_matches (week_filter : option Z) (market_filter : option string)
    (k : Key) : bool :=
  match week_filter with Some w => key_week k =? w | None => true end
  && match market_filter with Some m => String.eqb (key_market k) m | None => true end.

(** The summary [get_summary_metrics] returns for a week and markets. *)
Definition summary_at (R : RandomSource) (s : rng_state R)
    (week_filter : option Z) (markets : option (list string)) : Summary :=
  match summarize (selected R s week_filter markets) with
  | Ok summary => summary
  | Raise _ => zero_summary
  end.

(** The records of a date. *)
Definition on_date (k : string) (l : list SalesRecord) : list SalesRecord :=
  filter (fun r => String.eqb r.(date) k) l.

(** What the dictionary of the daily totals holds once the records [l]
    have been added: a key for each date of [l], with its total. *)
Definition daily_inv (d : dict Z) (l : list SalesRecord) : Prop :=
  NoDup (map fst d)
  /\ forall k, dict_get d k
               = if str_in k (map date l)
                 then Some (py_sum (map sales_volume (on_date k l)))
                 else None.

(** The date strings of the days of a week, or of all eight weeks, in the
    order of the calendar. *)
Definition day_strings (week_filter : option Z) : list string :=
  match week_filter with
  | Some w => map (day_string w) (py_range 0 7)
  | None => map (fun i => strftime_ymd (add_days base_date i)) (py_range 0 56)
  end.

(** A week filter that names a week of the data; markets that name a
    market of the data, if they are a filter at all. *)
Definition week_known (week_filter : option Z) : Prop :=
  match week_filter with Some w => 1 <= w <= 8 | None => True end.

Definition market_known (markets : option (list string)) : Prop :=
  match markets with
  | Some (m :: ms) => exists x, In x (m :: ms) /\ In x MARKETS
  | _ => True
  end.

(** Adjacent elements increase. *)
Fixpoint increasing (l : list string) : bool :=
  match l with
  | a :: (b :: _) as t => str_lt a b && increasing t
  | _ => true
  end.

(** White space only. *)
Definition blank (s : string) : bool := forallb py_isspace (list_ascii_of_string s).

Definition has_char (c : ascii) (s : string) : bool :=
  existsb (Ascii.eqb c) (list_ascii_of_string s).

(** A name as a client writes it between commas: not empty, no comma, no
    white space at either end. *)
Definition clean_name (n : string) : bool :=
  match n with
  | EmptyString => false
  | String c _ => negb (py_isspace c) && String.eqb (rstrip n) n && negb (has_char "," n)
  end.

(** A name with white space around it. *)
Definition padded (f : string * string * string) : string :=
  let '(l, n, r) := f in String.append l (String.append n r).

Definition padded_name (f : string * string * string) : string :=
  let '(_, n, _) := f in n.

Definition well_padded (f : string * string * string) : bool :=
  let '(l, n, r) := f in blank l && clean_name n && blank r.





(** Weeks that do not decrease along a list of combinations. *)
Fixpoint weeks_ascend (l : list Key) : bool :=
  match l with
  | a :: (b :: _) as t => (key_week a <=? key_week b) && weeks_ascend t
  | _ => true
  end.

(** Exact comparisons of floats are made on integers: [fval x] is the
    value of a positive finite float [x] times [2 ^ SCALE], an integer for
    every binary64 float since no exponent is below [- SCALE]. *)
Definition SCALE : Z := 1100.

Definition fval (x : float) : Z :=
  match x with
  | S754_finite false m e => Zpos m * 2 ^ (e + SCALE)
  | _ => 0
  end.

(** A positive float with a 53-bit mantissa, well inside the exponent
    range. *)
Definition normal (x : float) : bool := in_binade (-1000) 1000 x.

(** The sales volume of a record against its goal. *)
Definition record_sales (r : SalesRecord) : Prop :=
  r.(goal) <= 2 * r.(sales_volume) + 1
  /\ 10 * r.(sales_volume) <= 21 * r.(goal)
  /\ (r.(displays) = 0 -> 2 * r.(sales_volume) <= 3 * r.(goal)).

(* ================================================================= *)
(** ** A random source to run the module with

    A small deterministic source: a linear congruential state; [gauss] and
    [uniform] compute [mu + sigma * z] and [a + (b - a) * r] from it, and
    fall back on a value within their documented range when the float
    computation leaves it. *)
Module Lcg.

Definition next (s : Z) : Z := (s * 1103515245 + 12345) mod 2147483648.

Definition randint (a b : Z) (s : Z) : Z * Z :=
  (a + s mod (b - a + 1), next s).

Definition gauss (mu sigma : float) (s : Z) : float * Z :=
  let z := decimal (s mod 41 - 20) 10 in
  let g := fadd mu (fmul sigma z) in
  (if is_float g then g else S754_nan, next s).

Definition uniform (a b : float) (s : Z) : float * Z :=
  let r := decimal (s mod 1000) 1000 in
  let u := fadd a (fmul (fsub b a) r) in
  (if is_float u && SFleb a u && SFleb u b then u else a, next s).

Definition choice_index (n : Z) (s : Z) : Z * Z := (s mod n, next s).

End Lcg.

Definition lcg : RandomSource.
Proof.
  refine {| rng_state := Z;
            randint := Lcg.randint;
            gauss := Lcg.gauss;
            uniform := Lcg.uniform;
            choice_index := Lcg.choice_index |}.
  - intros a b s H. cbn [fst Lcg.randint].
    pose proof (Z.mod_pos_bound s (b - a + 1)). lia.
  - intros mu sigma s. cbn [fst Lcg.gauss].
    destruct (is_float (fadd mu (fmul sigma (decimal (s mod 41 - 20) 10)))) eqn:E.
    + exact E.
    + reflexivity.
  - intros a b s Va Vb L. unfold Lcg.uniform. cbn [fst].
    set (u := fadd a (fmul (fsub b a) (decimal (s mod 1000) 1000))).
    destruct (is_float u && SFleb a u && SFleb u b) eqn:E.
    + apply andb_prop in E as [E E3]. apply andb_prop in E as [E1 E2]. auto.
    + split; [assumption|]. split; [|assumption].
      destruct a as [sa|sa| |sa ma ea]; try reflexivity.
      * destruct sa; reflexivity.
      * destruct b; discriminate.
      * unfold SFleb, SFcompare.
        rewrite Z.compare_refl. fold (Pos.compare ma ma). rewrite Pos.compare_refl.
        destruct sa; reflexivity.
  - intros n s H. cbn [fst Lcg.choice_index]. apply Z.mod_pos_bound. assumption.
Defined.

(* ================================================================= *)
(** * Properties *)

(** ** Binary64 arithmetic in the normal range *)

Lemma digits2_pos_size (p : positive) : digits2_pos p = Pos.size p.
Proof. induction p; simpl; congruence. Qed.

Lemma Zdigits2_log2 (m : Z) : 0 < m -> Zdigits2 m = Z.log2 m + 1.
Proof.
  destruct m as [|p|p]; try lia. intros _. simpl.
  rewrite digits2_pos_size.
  destruct p; simpl; rewrite ?Pos2Z.inj_succ; lia.
Qed.

Lemma shr_1_m (r : shr_record) : 0 <= shr_m r -> shr_m (shr_1 r) = Z.shiftr (shr_m r) 1.
Proof.
  destruct r as [m b s]. simpl. intros H.
  destruct m as [|p|p]; try lia; try reflexivity.
  destruct p; reflexivity.
Qed.

Lemma iter_shr_1_m (p : positive) : forall r, 0 <= shr_m r ->
  shr_m (iter_pos shr_1 p r) = Z.shiftr (shr_m r) (Zpos p).
Proof.
  induction p as [p IH|p IH|]; intros r H; simpl.
  - assert (H1 : 0 <= shr_m (shr_1 r)) by (rewrite shr_1_m by assumption; apply Z.shiftr_nonneg; assumption).
    assert (H2 : 0 <= shr_m (iter_pos shr_1 p (shr_1 r))) by (rewrite IH by assumption; apply Z.shiftr_nonneg; assumption).
    rewrite IH by assumption. rewrite IH by assumption. rewrite shr_1_m by assumption.
    rewrite !Z.shiftr_shiftr by lia. f_equal. lia.
  - assert (H2 : 0 <= shr_m (iter_pos shr_1 p r)) by (rewrite IH by assumption; apply Z.shiftr_nonneg; assumption).
    rewrite IH by assumption. rewrite IH by assumption.
    rewrite !Z.shiftr_shiftr by lia. f_equal. lia.
  - apply shr_1_m; assumption.
Qed.

Lemma shr_m_spec (r : shr_record) (e n : Z) : 0 <= shr_m r -> 0 <= n ->
  shr_m (fst (shr r e n)) = Z.shiftr (shr_m r) n /\ snd (shr r e n) = e + n.
Proof.
  intros Hm Hn. destruct n as [|p|p]; try lia; simpl.
  - split; [reflexivity | lia].
  - split; [apply iter_shr_1_m; assumption | reflexivity].
Qed.

Lemma shr_record_of_loc_m (m : Z) (l : location) : shr_m (shr_record_of_loc m l) = m.
Proof. destruct l as [|[ | | ]]; reflexivity. Qed.

Lemma fexp_normal (x : Z) : -1021 <= x -> fexp prec emax x = x - 53.
Proof. unfold fexp, emin, prec, emax. lia. Qed.

Lemma shr_fexp_normal (m e : Z) (l : location) :
  0 < m -> 52 <= Z.log2 m -> -1074 <= Z.log2 m - 52 + e ->
  shr_m (fst (shr_fexp prec emax m e l)) = Z.shiftr m (Z.log2 m - 52)
  /\ snd (shr_fexp prec emax m e l) = e + (Z.log2 m - 52).
Proof.
  intros Hm Hd He. unfold shr_fexp.
  rewrite Zdigits2_log2 by assumption.
  rewrite fexp_normal by lia.
  replace (Z.log2 m + 1 + e - 53 - e) with (Z.log2 m - 52) by lia.
  rewrite <- (shr_record_of_loc_m m l) at 3.
  apply shr_m_spec; [rewrite shr_record_of_loc_m|]; lia.
Qed.

Lemma round_nearest_even_cases (m : Z) (l : location) :
  round_nearest_even m l = m \/ round_nearest_even m l = m + 1.
Proof.
  destruct l as [|[ | | ]]; simpl; auto. destruct (Z.even m); auto.
Qed.

Lemma log2_52_bounds (m : Z) : 0 < m -> (Z.log2 m = 52 <-> 2 ^ 52 <= m < 2 ^ 53).
Proof.
  intros Hm. split.
  - intros H. pose proof (Z.log2_spec m Hm) as S. rewrite H in S. exact S.
  - intros H. apply Z.log2_unique; lia.
Qed.

Lemma shiftr_pos_log2 (a n : Z) : 0 < a -> 0 <= n <= Z.log2 a -> 0 < Z.shiftr a n.
Proof.
  intros Ha Hn. rewrite Z.shiftr_div_pow2 by lia.
  apply Z.div_str_pos. split; [apply Z.pow_pos_nonneg; lia|].
  apply Z.le_trans with (2 ^ Z.log2 a).
  - apply Z.pow_le_mono_r; lia.
  - apply Z.log2_spec; assumption.
Qed.

(** The rounding step on a mantissa of at least 53 bits, in the normal range. *)
Lemma binary_round_aux_normal (s : bool) (m e : Z) (l : location) :
  0 < m -> 52 <= Z.log2 m ->
  -1074 <= Z.log2 m - 52 + e -> Z.log2 m - 51 + e <= 971 ->
  exists m' e', binary_round_aux prec emax s m e l = S754_finite s m' e'
    /\ Z.log2 (Zpos m') = 52
    /\ Z.log2 m - 52 + e <= e' <= Z.log2 m - 51 + e.
Proof.
  intros Hm Hd Hlo Hhi. unfold binary_round_aux.
  pose proof (shr_fexp_normal m e l Hm Hd Hlo) as [H1 H2].
  destruct (shr_fexp prec emax m e l) as [r1 e1]. simpl in H1, H2.
  set (q := shr_m r1) in *.
  assert (Hq : Z.log2 q = 52 /\ 0 < q).
  { rewrite H1. rewrite Z.log2_shiftr by assumption.
    split; [lia|]. apply shiftr_pos_log2; lia. }  
  destruct Hq as [Hq Hq0].
  apply log2_52_bounds in Hq; [|assumption].
  set (m2 := round_nearest_even q (loc_of_shr_record r1)).
  assert (Hm2 : 2 ^ 52 <= m2 <= 2 ^ 53).
  { destruct (round_nearest_even_cases q (loc_of_shr_record r1)) as [E|E]; fold m2 in E; lia. }
  assert (Hm2pos : 0 < m2) by lia.
  assert (Hl2 : 52 <= Z.log2 m2 <= 53).
  { split.
    - change 52 with (Z.log2 (2 ^ 52)). apply Z.log2_le_mono. lia.
    - change 53 with (Z.log2 (2 ^ 53)). apply Z.log2_le_mono. lia. }
  pose proof (shr_fexp_normal m2 e1 loc_Exact Hm2pos ltac:(lia) ltac:(lia)) as [H3 H4].
  destruct (shr_fexp prec emax m2 e1 loc_Exact) as [r2 e2]. simpl in H3, H4.
  assert (Hr2 : Z.log2 (shr_m r2) = 52 /\ 0 < shr_m r2).
  { rewrite H3. rewrite Z.log2_shiftr by assumption. split; [lia|]. apply shiftr_pos_log2; lia. }
  destruct Hr2 as [Hr2 Hr2pos].
  destruct (shr_m r2) as [|p|p] eqn:Er2; try lia.
  assert (Hle : (e2 <=? emax - prec) = true) by (apply Z.leb_le; unfold emax, prec; lia).
  rewrite Hle. exists p, e2. split; [reflexivity|]. split; [assumption|lia].
Qed.

Lemma in_binade_inv (lo hi : Z) (x : spec_float) :
  in_binade lo hi x = true ->
  exists m e, x = S754_finite false m e /\ Z.log2 (Zpos m) = 52 /\ lo <= 53 + e <= hi.
Proof.
  destruct x as [| | |[|] m e]; simpl; try discriminate.
  intros H. apply andb_prop in H as [H H3]. apply andb_prop in H as [H1 H2].
  exists m, e. split; [reflexivity|]. lia.
Qed.

Lemma in_binade_intro (lo hi : Z) (m : positive) (e : Z) :
  Z.log2 (Zpos m) = 52 -> lo <= 53 + e <= hi -> in_binade lo hi (S754_finite false m e) = true.
Proof.
  intros H1 H2. unfold in_binade. rewrite H1.
  apply andb_true_intro; split; [apply andb_true_intro; split|]; lia.
Qed.

Lemma in_binade_weaken (lo hi lo' hi' : Z) (x : spec_float) :
  in_binade lo hi x = true -> lo' <= lo -> hi <= hi' -> in_binade lo' hi' x = true.
Proof.
  intros H L U. apply in_binade_inv in H as (m & e & -> & H1 & H2).
  apply in_binade_intro; lia.
Qed.

Lemma fmul_binade (la ha lb hb : Z) (x y : spec_float) :
  in_binade la ha x = true -> in_binade lb hb y = true ->
  -1020 <= la + lb -> ha + hb <= 1020 ->
  in_binade (la + lb - 1) (ha + hb + 1) (fmul x y) = true.
Proof.
  intros Hx Hy L U.
  apply in_binade_inv in Hx as (mx & ex & -> & Dx & Bx).
  apply in_binade_inv in Hy as (my & ey & -> & Dy & By).
  unfold fmul, SFmul. rewrite Pos2Z.inj_mul.
  assert (Hb : Z.log2 (Zpos mx) + Z.log2 (Zpos my) <= Z.log2 (Zpos mx * Zpos my)
               <= Z.log2 (Zpos mx) + Z.log2 (Zpos my) + 1).
  { split; [apply Z.log2_mul_below | apply Z.log2_mul_above]; lia. }
  destruct (binary_round_aux_normal (xorb false false) (Zpos mx * Zpos my) (ex + ey) loc_Exact)
    as (m' & e' & E & D & B); try lia.
  rewrite E. apply in_binade_intro; [assumption | lia].
Qed.

Lemma pos_iter_xO (p k : positive) : Zpos (Pos.iter xO p k) = Zpos p * 2 ^ Zpos k.
Proof.
  rewrite <- Z.shiftl_mul_pow2 by lia. unfold Z.shiftl.
  apply (Pos.iter_swap_gen _ _ Zpos xO (Z.mul 2)). reflexivity.
Qed.

Lemma log2_mul_pow2 (a k : Z) : 0 < a -> 0 <= k -> Z.log2 (a * 2 ^ k) = Z.log2 a + k.
Proof.
  intros Ha Hk. rewrite <- Z.shiftl_mul_pow2 by assumption. apply Z.log2_shiftl; assumption.
Qed.

Lemma binary_round_binade (p : positive) (e : Z) :
  -1020 <= Z.log2 (Zpos p) + 1 + e <= 1020 ->
  in_binade (Z.log2 (Zpos p) + 1 + e) (Z.log2 (Zpos p) + 2 + e)
            (binary_round prec emax false p e) = true.
Proof.
  intros H. unfold binary_round.
  replace (Zpos (digits2_pos p)) with (Zdigits2 (Zpos p)) by reflexivity.
  rewrite Zdigits2_log2 by lia. rewrite fexp_normal by lia.
  unfold shl_align.
  destruct (Z.log2 (Zpos p) + 1 + e - 53 - e) as [|k|k] eqn:Ek.
  - destruct (binary_round_aux_normal false (Zpos p) e loc_Exact) as (m' & e' & E & D & B); try lia.
    rewrite E. apply in_binade_intro; [assumption|lia].
  - destruct (binary_round_aux_normal false (Zpos p) e loc_Exact) as (m' & e' & E & D & B); try lia.
    rewrite E. apply in_binade_intro; [assumption|lia].
  - assert (HL : Z.log2 (Zpos (Pos.iter xO p k)) = 52).
    { rewrite pos_iter_xO, log2_mul_pow2 by lia. lia. }
    destruct (binary_round_aux_normal false (Zpos (Pos.iter xO p k))
                (Z.log2 (Zpos p) + 1 + e - 53) loc_Exact) as (m' & e' & E & D & B); try lia.
    rewrite E. apply in_binade_intro; [assumption|lia].
Qed.

Lemma float_of_Z_binade (a b n : Z) :
  1 <= a -> b <= 1000 -> 2 ^ (a - 1) <= n < 2 ^ b ->
  in_binade a (b + 1) (float_of_Z n) = true.
Proof.
  intros Ha Hb Hn.
  assert (Hpos : 0 < n) by (pose proof (Z.pow_pos_nonneg 2 (a - 1)); lia).
  assert (HL : a - 1 <= Z.log2 n < b).
  { split.
    - apply Z.log2_le_pow2; lia.
    - apply Z.log2_lt_pow2; lia. }
  destruct n as [|p|p]; try lia.
  unfold float_of_Z, binary_normalize.
  eapply in_binade_weaken; [apply binary_round_binade| |]; lia.
Qed.

Lemma shl_align_fst (m : positive) (e e' : Z) :
  e' <= e -> Zpos (fst (shl_align m e e')) = Zpos m * 2 ^ (e - e').
Proof.
  intros H. unfold shl_align. destruct (e' - e) as [|d|d] eqn:E; try lia; cbn [fst].
  - replace (e - e') with 0 by lia. rewrite Z.pow_0_r. lia.
  - rewrite pos_iter_xO. f_equal. f_equal. lia.
Qed.

Lemma scaled_bounds (m k : Z) :
  Z.log2 m = 52 -> 0 < m -> 0 <= k -> 2 ^ (52 + k) <= m * 2 ^ k < 2 ^ (53 + k).
Proof.
  intros H Hm Hk. apply log2_52_bounds in H; [|assumption].
  rewrite !Z.pow_add_r by lia.
  assert (0 < 2 ^ k) by (apply Z.pow_pos_nonneg; lia). nia.
Qed.

Lemma fadd_binade (la ha lb hb : Z) (x y : spec_float) :
  in_binade la ha x = true -> in_binade lb hb y = true ->
  -1000 <= la -> -1000 <= lb -> ha <= 1000 -> hb <= 1000 ->
  in_binade (Z.max la lb) (Z.max ha hb + 2) (fadd x y) = true.
Proof.
  intros Hx Hy La Lb Ua Ub.
  apply in_binade_inv in Hx as (mx & ex & -> & Dx & Bx).
  apply in_binade_inv in Hy as (my & ey & -> & Dy & By).
  unfold fadd, SFadd, cond_Zopp.
  set (ez := Z.min ex ey).
  pose proof (shl_align_fst mx ex ez ltac:(unfold ez; lia)) as Ex.
  pose proof (shl_align_fst my ey ez ltac:(unfold ez; lia)) as Ey.
  destruct (scaled_bounds (Zpos mx) (ex - ez) Dx ltac:(lia) ltac:(unfold ez; lia)) as [X1 X2].
  destruct (scaled_bounds (Zpos my) (ey - ez) Dy ltac:(lia) ltac:(unfold ez; lia)) as [Y1 Y2].
  set (A := fst (shl_align mx ex ez)) in *. set (B := fst (shl_align my ey ez)) in *.
  change (Zpos A + Zpos B) with (Zpos (A + B)). unfold binary_normalize.
  assert (HS : 52 + Z.max ex ey - ez <= Z.log2 (Zpos (A + B)) < 54 + Z.max ex ey - ez).
  { rewrite Pos2Z.inj_add, Ex, Ey. split.
    - apply Z.log2_le_pow2; [lia|].
      destruct (Z.max_spec ex ey) as [[_ ->]|[_ ->]];
        [replace (52 + ey - ez) with (52 + (ey - ez)) by lia
        |replace (52 + ex - ez) with (52 + (ex - ez)) by lia]; lia.
    - apply Z.log2_lt_pow2; [lia|].
      assert (2 ^ (53 + (ex - ez)) <= 2 ^ (53 + Z.max ex ey - ez)) by (apply Z.pow_le_mono_r; lia).
      assert (2 ^ (53 + (ey - ez)) <= 2 ^ (53 + Z.max ex ey - ez)) by (apply Z.pow_le_mono_r; lia).
      replace (54 + Z.max ex ey - ez) with (1 + (53 + Z.max ex ey - ez)) by lia.
      rewrite Z.pow_add_r by (unfold ez; lia). lia. }
  eapply in_binade_weaken; [apply binary_round_binade| |]; lia.
Qed.

Lemma quotient_bounds (m b x y : Z) :
  0 <= y -> y + 1 <= x -> 2 ^ x <= m < 2 ^ (x + 1) -> 2 ^ y <= b < 2 ^ (y + 1) ->
  2 ^ (x - y - 1) <= m / b < 2 ^ (x - y + 1).
Proof.
  intros Hy Hx Hm Hb.
  assert (P1 : 0 < 2 ^ y) by (apply Z.pow_pos_nonneg; lia).
  assert (P2 : 0 < 2 ^ (x - y - 1)) by (apply Z.pow_pos_nonneg; lia).
  assert (E1 : 2 ^ x = 2 ^ (y + 1) * 2 ^ (x - y - 1)) by (rewrite <- Z.pow_add_r by lia; f_equal; lia).
  assert (E2 : 2 ^ (x + 1) = 2 ^ y * 2 ^ (x - y + 1)) by (rewrite <- Z.pow_add_r by lia; f_equal; lia).
  assert (P3 : 0 < 2 ^ (x - y + 1)) by (apply Z.pow_pos_nonneg; lia).
  split.
  - apply Z.div_le_lower_bound; [lia|]. nia.
  - apply Z.div_lt_upper_bound; [lia|]. nia.
Qed.

Lemma fdiv_raw_binade (a b : positive) :
  Z.log2 (Zpos a) <= 1000 -> Z.log2 (Zpos b) <= 1000 ->
  in_binade (Z.log2 (Zpos a) - Z.log2 (Zpos b)) (Z.log2 (Zpos a) - Z.log2 (Zpos b) + 2)
            (fdiv (S754_finite false a 0) (S754_finite false b 0)) = true.
Proof.
  intros Ha Hb. unfold fdiv, SFdiv, SFdiv_core_binary.
  rewrite !Zdigits2_log2 by lia.
  set (la := Z.log2 (Zpos a)) in *. set (lb := Z.log2 (Zpos b)) in *.
  assert (Hla : 0 <= la) by apply Z.log2_nonneg.
  assert (Hlb : 0 <= lb) by apply Z.log2_nonneg.
  rewrite fexp_normal by lia.
  set (e' := Z.min (la + 1 + 0 - (lb + 1 + 0) - 53) (0 - 0)).
  set (s := 0 - 0 - e').
  assert (Hs : 0 <= s) by (unfold s, e'; lia).
  set (m' := match s with Z0 => Zpos a | Zpos _ => Z.shiftl (Zpos a) s | Zneg _ => 0 end).
  assert (Hm' : m' = Zpos a * 2 ^ s).
  { unfold m'. clearbody s. destruct s as [|p|p]; try lia.
    apply Z.shiftl_mul_pow2. lia. }
  assert (Bm : 2 ^ (la + s) <= m' < 2 ^ (la + s + 1)).
  { rewrite Hm'. pose proof (Z.log2_spec (Zpos a) ltac:(lia)) as S. fold la in S.
    replace (Z.succ la) with (la + 1) in S by lia.
    rewrite (Z.pow_add_r 2 la s), (Z.pow_add_r 2 (la + s) 1) by lia.
    rewrite (Z.pow_add_r 2 la s) by lia.
    assert (0 < 2 ^ s) by (apply Z.pow_pos_nonneg; lia).
    rewrite (Z.pow_add_r 2 la 1) in S by lia. nia. }
  assert (Bb : 2 ^ lb <= Zpos b < 2 ^ (lb + 1)).
  { pose proof (Z.log2_spec (Zpos b) ltac:(lia)) as S. fold lb in S.
    replace (Z.succ lb) with (lb + 1) in S by lia. exact S. }
  pose proof (quotient_bounds m' (Zpos b) (la + s) lb Hlb ltac:(unfold s, e'; lia) Bm Bb) as Bq.
  destruct (Z.div_eucl m' (Zpos b)) as [q r] eqn:Eq.
  assert (Hq : q = m' / Zpos b) by (unfold Z.div; rewrite Eq; reflexivity).
  rewrite <- Hq in Bq.
  assert (Pq : 0 < q) by (pose proof (Z.pow_pos_nonneg 2 (la + s - lb - 1)); lia).
  assert (Lq : la + s - lb - 1 <= Z.log2 q < la + s - lb + 1).
  { split; [apply Z.log2_le_pow2 | apply Z.log2_lt_pow2]; lia. }
  destruct (binary_round_aux_normal (xorb false false) q e' (new_location (Zpos b) r))
    as (m2 & e2 & E & D & B); try (unfold s, e' in *; lia).
  rewrite E. apply in_binade_intro; [assumption|]. unfold s, e' in *. lia.
Qed.

Lemma between_binade (x : spec_float) (ml mh : positive) (el eh : Z) :
  valid_binary prec emax x = true -> -1074 < el ->
  SFleb (S754_finite false ml el) x = true ->
  SFleb x (S754_finite false mh eh) = true ->
  in_binade (53 + el) (53 + eh) x = true.
Proof.
  intros V Hel L U.
  destruct x as [s|s| |s m e]; try discriminate.
  - destruct s; discriminate.
  - destruct s; [discriminate|].
    unfold SFleb, SFcompare in L, U.
    assert (H1 : el <= e) by (destruct (Z.compare_spec el e); try lia; discriminate).
    assert (H2 : e <= eh) by (destruct (Z.compare_spec e eh); try lia; discriminate).
    simpl in V. unfold bounded, canonical_mantissa in V.
    apply andb_prop in V as [V _]. apply Z.eqb_eq in V.
    change (Zpos (digits2_pos m)) with (Zdigits2 (Zpos m)) in V.
    rewrite Zdigits2_log2 in V by lia. unfold fexp, emin, prec, emax in V.
    apply in_binade_intro; lia.
Qed.

Lemma SFltb_leb (x y : spec_float) : SFltb x y = true -> SFleb x y = true.
Proof. unfold SFltb, SFleb. destruct (SFcompare x y) as [[ | | ]|]; congruence. Qed.

Lemma shiftl_binade (m : positive) (e : Z) :
  Z.log2 (Zpos m) = 52 -> 0 <= 52 + e ->
  2 ^ (52 + e) <= Z.shiftl (Zpos m) e < 2 ^ (53 + e).
Proof.
  intros D He.
  assert (H : 0 < Z.shiftl (Zpos m) e /\ Z.log2 (Z.shiftl (Zpos m) e) = 52 + e).
  { destruct (Z.le_gt_cases 0 e) as [P|N].
    - rewrite Z.log2_shiftl by lia. split; [|lia].
      rewrite Z.shiftl_mul_pow2 by lia.
      pose proof (Z.pow_pos_nonneg 2 e). nia.
    - replace e with (- (- e)) by lia. rewrite Z.shiftl_opp_r.
      rewrite Z.log2_shiftr by lia. split; [|lia].
      apply shiftr_pos_log2; lia. }
  destruct H as [P L]. pose proof (Z.log2_spec _ P) as S. rewrite L in S.
  replace (Z.succ (52 + e)) with (53 + e) in S by lia. exact S.
Qed.

(** ** Conversions between integers and floats *)

Lemma pow2_le (a b : Z) : 0 <= a <= b -> 2 ^ a <= 2 ^ b.
Proof. intros H. apply Z.pow_le_mono_r; lia. Qed.

Lemma py_float_binade (a b n : Z) :
  1 <= a -> b <= 1000 -> 2 ^ (a - 1) <= n < 2 ^ b ->
  exists f, py_float n = Ok f /\ in_binade a (b + 1) f = true.
Proof.
  intros Ha Hb Hn. pose proof (float_of_Z_binade a b n Ha Hb Hn) as H.
  exists (float_of_Z n). split; [|assumption].
  unfold py_float. apply in_binade_inv in H as (m & e & -> & _). reflexivity.
Qed.

Lemma py_int_binade (a b : Z) (x : float) :
  in_binade a b x = true -> 1 <= a ->
  exists k, py_int x = Ok k /\ 2 ^ (a - 1) <= k < 2 ^ b.
Proof.
  intros H Ha. apply in_binade_inv in H as (m & e & -> & D & B).
  exists (Z.shiftl (Zpos m) e). split; [reflexivity|].
  pose proof (shiftl_binade m e D ltac:(lia)) as S.
  pose proof (pow2_le (a - 1) (52 + e) ltac:(lia)).
  pose proof (pow2_le (53 + e) b ltac:(lia)). lia.
Qed.

(** [int(n * x)] for an integer [n] and a float [x], both in range. *)
Lemma int_of_product (a b c d n : Z) (x : float) :
  1 <= a -> b <= 500 -> -500 <= c -> d <= 500 -> 2 <= a + c ->
  2 ^ (a - 1) <= n < 2 ^ b -> in_binade c d x = true ->
  exists k, (y <- int_mul_float n x ;; py_int y) = Ok k
            /\ 2 ^ (a + c - 2) <= k < 2 ^ (b + d + 2).
Proof.
  intros Ha Hb Hc Hd Hac Hn Hx.
  destruct (py_float_binade a b n Ha ltac:(lia) Hn) as (f & Ef & Bf).
  pose proof (fmul_binade a (b + 1) c d f x Bf Hx ltac:(lia) ltac:(lia)) as Bp.
  destruct (py_int_binade _ _ _ Bp ltac:(lia)) as (k & Ek & Bk).
  exists k. unfold int_mul_float. rewrite Ef. cbn [bind]. rewrite Ek.
  split; [reflexivity|].
  replace (a + c - 1 - 1) with (a + c - 2) in Bk by lia.
  replace (b + 1 + d + 1) with (b + d + 2) in Bk by lia. exact Bk.
Qed.

(** The attainment ratio, clamped to [0.5, 1.5]. *)
Lemma clamp_binade (x : float) :
  is_float x = true ->
  in_binade 0 1 (py_max (decimal 5 10) (py_min (decimal 15 10) x)) = true.
Proof.
  intros V.
  change (decimal 5 10) with (S754_finite false 4503599627370496 (-53)).
  change (decimal 15 10) with (S754_finite false 6755399441055744 (-52)).
  unfold py_min. destruct (flt x _) eqn:U.
  - unfold py_max. destruct (flt _ x) eqn:L.
    + apply (between_binade x 4503599627370496 6755399441055744 (-53) (-52) V);
        [lia | apply SFltb_leb; exact L | apply SFltb_leb; exact U].
    + reflexivity.
  - reflexivity.
Qed.

Lemma uniform_binade (R : RandomSource) (s : rng_state R) :
  in_binade (-4) (-3) (fst (uniform R (decimal 5 100) (decimal 10 100) s)) = true.
Proof.
  destruct (uniform_range R (decimal 5 100) (decimal 10 100) s) as (V & L & U);
    try reflexivity.
  revert L U.
  change (decimal 5 100) with (S754_finite false 7205759403792794 (-57)).
  change (decimal 10 100) with (S754_finite false 7205759403792794 (-56)).
  intros L U.
  apply (between_binade _ 7205759403792794 7205759403792794 (-57) (-56) V);
    [lia | exact L | exact U].
Qed.

Lemma market_multiplier_binade (m : string) : in_binade 0 1 (market_multiplier m) = true.
Proof.
  unfold market_multiplier, dict_get_default, dict_get.
  repeat match goal with |- context [String.eqb ?a ?b] => destruct (String.eqb a b) end;
    reflexivity.
Qed.

(** The display lift [1 + displays * u] and the sales it yields. *)
Lemma lifted_sales (displays sales : Z) (u : float) :
  1 <= displays <= 4 -> 2 ^ 7 <= sales < 2 ^ 17 -> in_binade (-4) (-3) u = true ->
  exists k, (t <- int_mul_float displays u ;;
             display_lift <- int_add_float 1 t ;;
             x <- int_mul_float sales display_lift ;;
             py_int x) = Ok k
            /\ 2 ^ 7 <= k < 2 ^ 23.
Proof.
  intros Hd Hs Hu.
  destruct (py_float_binade 1 3 displays) as (fd & Ed & Bd); try lia.
  pose proof (fmul_binade _ _ _ _ fd u Bd Hu ltac:(lia) ltac:(lia)) as Bt.
  assert (B1 : in_binade 1 1 (float_of_Z 1) = true) by reflexivity.
  pose proof (fadd_binade _ _ _ _ _ _ B1 Bt ltac:(lia) ltac:(lia) ltac:(lia) ltac:(lia)) as Bl.
  destruct (int_of_product 8 17 1 4 sales (fadd (float_of_Z 1) (fmul fd u)))
    as (k & Ek & Bk); try lia.
  { eapply in_binade_weaken; [exact Bl| |]; lia. }
  exists k. unfold int_mul_float at 1. rewrite Ed. cbn [bind].
  unfold int_add_float. change (py_float 1) with (Ok (float_of_Z 1)). cbn [bind].
  split; [exact Ek|]. change (8 + 1 - 2) with 7 in Bk. change (17 + 4 + 2) with 23 in Bk.
  exact Bk.
Qed.

(** ** The generator *)

Section Generator.

Variable R : RandomSource.

Lemma gbind_draw {A B : Type} (f : rng_state R -> A * rng_state R)
    (k : A -> Gen R B) (s : rng_state R) :
  gbind R (draw R f) k s = k (fst (f s)) (snd (f s)).
Proof. unfold gbind, draw. destruct (f s); reflexivity. Qed.

Lemma gbind_lift {A B : Type} (c : PyResult A) (a : A)
    (k : A -> Gen R B) (s : rng_state R) :
  c = Ok a -> gbind R (lift R c) k s = k a s.
Proof. intros ->. reflexivity. Qed.

Lemma gbind_gret {A B : Type} (a : A) (k : A -> Gen R B) (s : rng_state R) :
  gbind R (gret R a) k s = k a s.
Proof. reflexivity. Qed.

Lemma gbind_assoc {A B C : Type} (c : Gen R A) (f : A -> Gen R B)
    (k : B -> Gen R C) (s : rng_state R) :
  gbind R (gbind R c f) k s = gbind R c (fun a => gbind R (f a) k) s.
Proof. unfold gbind. destruct (c s) as [[a s']|e]; reflexivity. Qed.

(** One turn of the innermost loop succeeds, and yields a record of the
    combination it was called for, with [goal] and [sales_volume] in
    range. *)
Lemma make_record_ok (w : Z) (week_start : datetime) (m : string)
    (multiplier : float) (a : string) (day_offset : Z) (s : rng_state R) :
  in_binade 0 1 multiplier = true ->
  exists r s', make_record R w week_start m multiplier a day_offset s = Ok (r, s')
    /\ record_key r = (w, m, a, strftime_ymd (add_days week_start day_offset))
    /\ record_bounds r.
Proof.
  intros Hm. unfold make_record.
  rewrite gbind_draw.
  pose proof (randint_range R 800 1500 s ltac:(lia)) as B1.
  set (r1 := fst (randint R 800 1500 s)) in *.
  set (s1 := snd (randint R 800 1500 s)).
  destruct (int_of_product 10 11 0 1 r1 multiplier) as (g & Eg & Bg); try lia;
    [exact Hm|].
  rewrite (gbind_lift _ g) by exact Eg.
  rewrite gbind_draw.
  set (att := fst (gauss R (decimal 10 10) (decimal 15 100) s1)).
  set (s2 := snd (gauss R (decimal 10 10) (decimal 15 100) s1)).
  pose proof (clamp_binade att (gauss_float R _ _ s1)) as Bc.
  destruct (int_of_product 9 14 0 1 g _ ltac:(lia) ltac:(lia) ltac:(lia) ltac:(lia)
              ltac:(lia) ltac:(lia) Bc) as (sales & Es & Bs).
  rewrite (gbind_lift _ sales) by exact Es.
  rewrite gbind_draw.
  pose proof (randint_range R 0 4 s2 ltac:(lia)) as B2.
  set (d := fst (randint R 0 4 s2)) in *.
  set (s3 := snd (randint R 0 4 s2)).
  assert (Hsales : exists sales' s4,
    (if 0 <? d
     then gbind R (draw R (uniform R (decimal 5 100) (decimal 10 100))) (fun u =>
          lift R (t <- int_mul_float d u ;;
                  display_lift <- int_add_float 1 t ;;
                  x <- int_mul_float sales display_lift ;;
                  py_int x))
     else gret R sales) s3 = Ok (sales', s4)
    /\ 2 ^ 7 <= sales' < 2 ^ 23).
  { destruct (0 <? d) eqn:Ed.
    - apply Z.ltb_lt in Ed.
      destruct (lifted_sales d sales _ ltac:(lia) ltac:(lia) (uniform_binade R s3))
        as (k & Ek & Bk).
      exists k. eexists. rewrite gbind_draw. unfold lift. rewrite Ek.
      split; [reflexivity | exact Bk].
    - exists sales, s3. split; [reflexivity | lia]. }
  destruct Hsales as (sales' & s4 & E4 & B4).
  unfold gbind at 1. rewrite E4.
  unfold choice. rewrite !gbind_draw. unfold gret.
  eexists. eexists. split; [reflexivity|].
  split; [reflexivity|]. unfold record_bounds. cbn [goal sales_volume]. lia.
Qed.

(** A loop whose turns each append records appends their concatenation. *)
Lemma for_each_keys {A : Type} (keys_for : A -> list Key)
    (body : A -> list SalesRecord -> Gen R (list SalesRecord)) :
  (forall x data s, exists rs s', body x data s = Ok (data ++ rs, s')
      /\ map record_key rs = keys_for x /\ Forall record_bounds rs) ->
  forall xs data s, exists rs s', for_each R xs body data s = Ok (data ++ rs, s')
      /\ map record_key rs = flat_map keys_for xs /\ Forall record_bounds rs.
Proof.
  intros Hbody xs. induction xs as [|x xs IH]; intros data s.
  - exists [], s. rewrite app_nil_r. repeat split. constructor.
  - destruct (Hbody x data s) as (rs1 & s1 & E1 & K1 & F1).
    destruct (IH (data ++ rs1) s1) as (rs2 & s2 & E2 & K2 & F2).
    exists (rs1 ++ rs2), s2. cbn [for_each flat_map]. unfold gbind. rewrite E1, E2.
    rewrite app_assoc, map_app, K1, K2. repeat split.
    apply Forall_app; split; assumption.
Qed.

Lemma generate_loops_ok (s : rng_state R) :
  exists data s', generate_loops R s = Ok (data, s')
    /\ map record_key data = expected_keys /\ Forall record_bounds data.
Proof.
  unfold generate_loops, expected_keys.
  apply (for_each_keys
           (fun w => flat_map (fun m => flat_map (fun a =>
              flat_map (fun d => [(w, m, a, day_string w d)]) (py_range 0 7))
              ACCOUNTS) MARKETS)).
  intros w. apply for_each_keys.
  intros m. apply for_each_keys.
  intros a. apply for_each_keys.
  intros d data s0.
  destruct (make_record_ok w (add_days base_date (7 * (w - 1))) m
              (market_multiplier m) a d s0 (market_multiplier_binade m))
    as (r & s1 & E & K & B).
  exists [r], s1. unfold gbind. rewrite E. cbn [map]. rewrite K.
  repeat split. constructor; [assumption | constructor].
Qed.

Lemma generated_spec (s : rng_state R) :
  generate_loops R s = Ok (dataset R s, snd (generated R s))
  /\ map record_key (dataset R s) = expected_keys
  /\ Forall record_bounds (dataset R s).
Proof.
  destruct (generate_loops_ok s) as (data & s' & E & K & B).
  unfold dataset, generated. rewrite E. auto.
Qed.

(** Every call of [_generate_sample_data], the first or a later one,
    returns the data set and leaves the process with the data cached. *)
Lemma generate_proc_state (s : rng_state R) (warm : bool) :
  _generate_sample_data R (proc_state R s warm) = Ok (dataset R s, loaded R s).
Proof.
  destruct warm; unfold proc_state.
  - reflexivity.
  - unfold _generate_sample_data, fresh. cbn [_DATA_CACHE rng].
    destruct (generated_spec s) as (E & _). rewrite E. reflexivity.
Qed.

End Generator.

(** ** The shape of the generated data *)

Lemma in_py_range (a b x : Z) : a <= x < b -> In x (py_range a b).
Proof.
  intros H. unfold py_range. apply in_map_iff.
  exists (Z.to_nat (x - a)). split; [lia|]. apply in_seq. lia.
Qed.

Lemma str_in_In (x : string) (xs : list string) : str_in x xs = true <-> In x xs.
Proof.
  unfold str_in. rewrite existsb_exists. split.
  - intros (y & Hy & E). apply String.eqb_eq in E. subst. assumption.
  - intros H. exists x. split; [assumption | apply String.eqb_refl].
Qed.

Lemma count_key_map (k : Key) (data : list SalesRecord) :
  count_key k data = List.length (filter (key_eqb k) (map record_key data)).
Proof.
  unfold count_key. induction data as [|r data IH]; [reflexivity|].
  cbn [filter map]. destruct (key_eqb k (record_key r)); cbn [List.length]; congruence.
Qed.

Lemma in_expected_keys (w d : Z) (m a : string) :
  1 <= w <= 8 -> In m MARKETS -> In a ACCOUNTS -> 0 <= d < 7 ->
  In (w, m, a, day_string w d) expected_keys.
Proof.
  intros Hw Hm Ha Hd. unfold expected_keys.
  apply in_flat_map. exists w. split; [apply in_py_range; lia|].
  apply in_flat_map. exists m. split; [assumption|].
  apply in_flat_map. exists a. split; [assumption|].
  apply in_flat_map. exists d. split; [apply in_py_range; lia|].
  left. reflexivity.
Qed.

Lemma expected_keys_length : List.length expected_keys = 1400%nat.
Proof. vm_compute. reflexivity. Qed.

Lemma expected_keys_once :
  forallb (fun k => Nat.eqb (List.length (filter (key_eqb k) expected_keys)) 1)
          expected_keys = true.
Proof. vm_compute. reflexivity. Qed.

Lemma expected_keys_in_table : forallb key_in_table expected_keys = true.
Proof. vm_compute. reflexivity. Qed.

Lemma in_py_range_inv (a b x : Z) : In x (py_range a b) -> a <= x < b.
Proof.
  unfold py_range. intros H. apply in_map_iff in H as (i & E & Hi).
  apply in_seq in Hi. lia.
Qed.

Section Shape.

Variable R : RandomSource.
Variable s : rng_state R.

Lemma dataset_count_key (w d : Z) (m a : string) :
  1 <= w <= 8 -> In m MARKETS -> In a ACCOUNTS -> 0 <= d < 7 ->
  count_key (w, m, a, day_string w d) (dataset R s) = 1%nat.
Proof.
  intros Hw Hm Ha Hd. destruct (generated_spec R s) as (_ & K & _).
  rewrite count_key_map, K.
  pose proof (proj1 (forallb_forall _ _) expected_keys_once _
                (in_expected_keys w d m a Hw Hm Ha Hd)) as H.
  apply Nat.eqb_eq in H. exact H.
Qed.

Lemma dataset_in_table :
  Forall (fun r =>
      1 <= r.(week) <= 8 /\ In r.(market) MARKETS /\ In r.(account) ACCOUNTS
      /\ exists d, 0 <= d < 7 /\ r.(date) = day_string r.(week) d)
    (dataset R s).
Proof.
  destruct (generated_spec R s) as (_ & K & _).
  apply Forall_forall. intros r Hr.
  assert (Hk : In (record_key r) expected_keys)
    by (rewrite <- K; apply in_map; exact Hr).
  pose proof (proj1 (forallb_forall _ _) expected_keys_in_table _ Hk) as H.
  unfold key_in_table, record_key in H.
  apply andb_prop in H as [H H5]. apply andb_prop in H as [H H4].
  apply andb_prop in H as [H H3]. apply andb_prop in H as [H1 H2].
  apply existsb_exists in H5 as (d & Hd & E). apply String.eqb_eq in E.
  apply in_py_range_inv in Hd. apply str_in_In in H3. apply str_in_In in H4.
  repeat split; try lia; try assumption. exists d. split; [lia | exact E].
Qed.

Lemma dataset_length : List.length (dataset R s) = 1400%nat.
Proof.
  destruct (generated_spec R s) as (_ & K & _).
  rewrite <- (length_map record_key), K. exact expected_keys_length.
Qed.

End Shape.

(** C1. For every state of the random generator, the first call of
    [_generate_sample_data] returns 1400 records: for each week 1..8, each
    of the five markets, each of the five accounts and each of the seven
    days of the week, exactly one record stands for that combination, and
    every record stands for such a combination. *)
Theorem generate_one_record_per_combination (R : RandomSource) (s : rng_state R) :
  _generate_sample_data R (fresh R s) = Ok (dataset R s, loaded R s)
  /\ List.length (dataset R s) = 1400%nat
  /\ (forall w m a d,
        1 <= w <= 8 -> In m MARKETS -> In a ACCOUNTS -> 0 <= d < 7 ->
        count_key (w, m, a, day_string w d) (dataset R s) = 1%nat)
  /\ Forall (fun r =>
        1 <= r.(week) <= 8 /\ In r.(market) MARKETS /\ In r.(account) ACCOUNTS
        /\ exists d, 0 <= d < 7 /\ r.(date) = day_string r.(week) d)
       (dataset R s).
Proof.
  split; [exact (generate_proc_state R s false)|].
  split; [apply dataset_length|].
  split; [|apply dataset_in_table].
  intros w m a d. apply dataset_count_key.
Qed.

Lemma generate_one_record_per_combination_witness :
  count_key (3, "Dallas", "Kroger", day_string 3 4) (dataset lcg 42) = 1%nat.
Proof.
  apply (proj1 (proj2 (proj2 (generate_one_record_per_combination lcg 42)))).
  - lia.
  - simpl. auto.
  - simpl. auto.
  - lia.
Defined.

(** C9. Every record of the generated data has a strictly positive goal
    and a strictly positive sales volume. *)
Theorem generated_goal_and_sales_positive (R : RandomSource) (s : rng_state R) :
  exists data st',
    _generate_sample_data R (fresh R s) = Ok (data, st')
    /\ Forall (fun r => 0 < r.(goal) /\ 0 < r.(sales_volume)) data.
Proof.
  exists (dataset R s), (loaded R s).
  split; [exact (generate_proc_state R s false)|].
  destruct (generated_spec R s) as (_ & _ & B).
  eapply Forall_impl; [|exact B].
  intros r [[G _] [S _]]. split.
  - apply Z.lt_le_trans with (2 ^ 8); [reflexivity | exact G].
  - apply Z.lt_le_trans with (2 ^ 7); [reflexivity | exact S].
Qed.

(** C3. The first call of [_generate_sample_data] generates the data and
    caches them; the second call returns the same data and leaves the state
    of the process, the random generator included, as it was; so does every
    call in a state whose cache is filled.  Hence the data of two successive
    calls are equal, and so are their sums of sales volumes. *)
Theorem generate_idempotent (R : RandomSource) (s : rng_state R) :
  _generate_sample_data R (fresh R s) = Ok (dataset R s, loaded R s)
  /\ _generate_sample_data R (loaded R s) = Ok (dataset R s, loaded R s)
  /\ (forall st cached, _DATA_CACHE st = Some cached ->
        _generate_sample_data R st = Ok (cached, st))
  /\ (forall data1 st1 data2 st2,
        _generate_sample_data R (fresh R s) = Ok (data1, st1) ->
        _generate_sample_data R st1 = Ok (data2, st2) ->
        data2 = data1 /\ st2 = st1
        /\ py_sum (map sales_volume data2) = py_sum (map sales_volume data1)).
Proof.
  pose proof (generate_proc_state R s false) as H1. unfold proc_state in H1.
  split; [exact H1|].
  split; [reflexivity|].
  split; [intros st cached H; unfold _generate_sample_data; rewrite H; reflexivity|].
  intros data1 st1 data2 st2 E1 E2. rewrite H1 in E1. injection E1 as <- <-.
  cbv [_generate_sample_data loaded _DATA_CACHE] in E2.
  injection E2 as <- <-. repeat split.
Qed.

Lemma generate_idempotent_witness :
  _generate_sample_data lcg (loaded lcg 42) = Ok (dataset lcg 42, loaded lcg 42).
Proof.
  apply (proj1 (proj2 (proj2 (generate_idempotent lcg 42)))). reflexivity.
Defined.

(** ** Sums, filters and sorting *)

Lemma fold_left_add (l : list Z) (a : Z) : fold_left Z.add l a = a + py_sum l.
Proof.
  unfold py_sum. revert a. induction l as [|x l IH]; intros a; cbn [fold_left].
  - lia.
  - rewrite (IH (a + x)), (IH (0 + x)). lia.
Qed.

Lemma py_sum_cons (x : Z) (l : list Z) : py_sum (x :: l) = x + py_sum l.
Proof. unfold py_sum at 1. cbn [fold_left]. rewrite fold_left_add. lia. Qed.

Lemma py_sum_app (l1 l2 : list Z) : py_sum (l1 ++ l2) = py_sum l1 + py_sum l2.
Proof.
  induction l1 as [|x l1 IH]; [reflexivity|].
  cbn [app]. rewrite !py_sum_cons, IH. lia.
Qed.

Lemma py_sum_perm (l1 l2 : list Z) : Permutation l1 l2 -> py_sum l1 = py_sum l2.
Proof.
  induction 1; rewrite ?py_sum_cons in *; lia.
Qed.

Lemma filter_and {A : Type} (f g : A -> bool) (l : list A) :
  filter g (filter f l) = filter (fun x => f x && g x) l.
Proof.
  induction l as [|x l IH]; [reflexivity|]. cbn [filter].
  destruct (f x); cbn [filter andb]; rewrite IH; reflexivity.
Qed.

Lemma filter_all {A : Type} (l : list A) : filter (fun _ => true) l = l.
Proof. induction l as [|x l IH]; [reflexivity|]. cbn [filter]. congruence. Qed.

Lemma filter_subsequence {A : Type} (f : A -> bool) (l : list A) :
  Subsequence (filter f l) l.
Proof.
  induction l as [|x l IH]; cbn [filter]; [constructor|].
  destruct (f x); constructor; assumption.
Qed.

Lemma insert_sorted_perm {A : Type} (lt : A -> A -> bool) (x : A) (l : list A) :
  Permutation (insert_sorted lt x l) (x :: l).
Proof.
  induction l as [|y l IH]; cbn [insert_sorted]; [reflexivity|].
  destruct (lt x y); [reflexivity|].
  rewrite IH. apply perm_swap.
Qed.

Lemma py_sorted_perm {A : Type} (lt : A -> A -> bool) (l : list A) :
  Permutation (py_sorted lt l) l.
Proof.
  unfold py_sorted.
  assert (H : forall acc, Permutation (fold_left (fun acc x => insert_sorted lt x acc) l acc)
                                      (acc ++ l)).
  { induction l as [|x l IH]; intros acc; cbn [fold_left].
    - rewrite app_nil_r. reflexivity.
    - rewrite IH, insert_sorted_perm. apply Permutation_middle. }
  apply (H []).
Qed.

Section Sorting.

Context {A : Type} (lt : A -> A -> bool).
Hypothesis lt_asym : forall a b, lt a b = true -> lt b a = false.

Lemma insert_sorted_hd (x y : A) (l : list A) :
  lt x y = false -> HdRel (not_after lt) y l -> HdRel (not_after lt) y (insert_sorted lt x l).
Proof.
  intros Hxy H. destruct l as [|z l]; cbn [insert_sorted].
  - constructor. exact Hxy.
  - destruct (lt x z); constructor; [exact Hxy|].
    inversion H; assumption.
Qed.

Lemma insert_sorted_sorted (x : A) (l : list A) :
  Sorted (not_after lt) l -> Sorted (not_after lt) (insert_sorted lt x l).
Proof.
  induction 1 as [|y l Hs IH Hh]; cbn [insert_sorted].
  - repeat constructor.
  - destruct (lt x y) eqn:E.
    + constructor; [constructor; assumption|]. constructor.
      apply lt_asym. exact E.
    + constructor; [exact IH|]. apply insert_sorted_hd; assumption.
Qed.

Lemma py_sorted_sorted (l : list A) : Sorted (not_after lt) (py_sorted lt l).
Proof.
  unfold py_sorted.
  assert (H : forall acc, Sorted (not_after lt) acc ->
            Sorted (not_after lt) (fold_left (fun acc x => insert_sorted lt x acc) l acc)).
  { induction l as [|x l IH]; intros acc Hacc; cbn [fold_left]; [assumption|].
    apply IH. apply insert_sorted_sorted. assumption. }
  apply H. constructor.
Qed.

End Sorting.

Lemma Sorted_snoc {A : Type} (P : A -> A -> Prop) (l : list A) (x : A) :
  Sorted P l -> (forall y, hd_error (rev l) = Some y -> P y x) -> Sorted P (l ++ [x]).
Proof.
  induction 1 as [|y l Hs IH Hh]; intros Hlast; cbn [app].
  - repeat constructor.
  - constructor.
    + apply IH. intros z Hz. apply Hlast. cbn [rev].
      destruct (rev l) as [|u t]; [discriminate|]. exact Hz.
    + destruct l as [|z l]; cbn [app]; constructor.
      * apply Hlast. reflexivity.
      * inversion Hh; assumption.
Qed.

Lemma Sorted_rev {A : Type} (P : A -> A -> Prop) (l : list A) :
  Sorted P l -> Sorted (fun a b => P b a) (rev l).
Proof.
  induction 1 as [|y l Hs IH Hh]; cbn [rev]; [constructor|].
  apply Sorted_snoc; [exact IH|].
  intros z Hz. rewrite rev_involutive in Hz.
  destruct l as [|u t]; [discriminate|]. injection Hz as <-.
  inversion Hh; assumption.
Qed.

Lemma Sorted_map {A B : Type} (P : B -> B -> Prop) (f : A -> B) (l : list A) :
  Sorted (fun a b => P (f a) (f b)) l -> Sorted P (map f l).
Proof.
  induction 1 as [|y l Hs IH Hh]; cbn [map]; constructor; [exact IH|].
  destruct Hh; cbn [map]; constructor; assumption.
Qed.

Lemma sort_by_key_reverse_perm {A K : Type} (lt : K -> K -> bool) (key : A -> K)
    (l : list A) :
  Permutation (sort_by_key_reverse lt key l) l.
Proof.
  unfold sort_by_key_reverse.
  rewrite <- Permutation_rev, py_sorted_perm, <- Permutation_rev. reflexivity.
Qed.

(** Descending by key: no element is followed by one with a greater key. *)
Lemma sort_by_key_reverse_sorted {A K : Type} (lt : K -> K -> bool) (key : A -> K)
    (l : list A) :
  (forall a b, lt a b = true -> lt b a = false) ->
  Sorted (fun a b => lt (key a) (key b) = false) (sort_by_key_reverse lt key l).
Proof.
  intros Hasym. unfold sort_by_key_reverse.
  apply (Sorted_rev (fun a b => lt (key b) (key a) = false)).
  apply (py_sorted_sorted (fun a b => lt (key a) (key b))).
  intros a b. apply Hasym.
Qed.

(** ** Comparisons *)

Lemma compare_cont_flip (p q : positive) :
  Pos.compare_cont Eq q p = CompOpp (Pos.compare_cont Eq p q).
Proof. symmetry. apply (Pos.compare_cont_antisym p q Eq). Qed.

Lemma SFltb_asym (x y : float) : SFltb x y = true -> SFltb y x = false.
Proof.
  unfold SFltb, SFcompare.
  destruct x as [[|]|[|]| |[|] mx ex], y as [[|]|[|]| |[|] my ey];
    try reflexivity; try discriminate;
    rewrite (Z.compare_antisym ex ey), (compare_cont_flip mx my);
    destruct (ex ?= ey); cbn [CompOpp]; try reflexivity; try discriminate;
    destruct (Pos.compare_cont Eq mx my); cbn [CompOpp]; try reflexivity; discriminate.
Qed.

Lemma py_lt_asym (a b : PyNum) : py_lt a b = true -> py_lt b a = false.
Proof.
  destruct a as [x|x], b as [y|y]; cbn [py_lt].
  - intros H. apply Z.ltb_lt in H. apply Z.ltb_ge. lia.
  - destruct (compare_int_float x y) as [[ | | ]|]; congruence.
  - destruct (compare_int_float y x) as [[ | | ]|]; congruence.
  - apply SFltb_asym.
Qed.

Lemma str_lt_asym (a b : string) : str_lt a b = true -> str_lt b a = false.
Proof.
  unfold str_lt. rewrite (String.compare_antisym a b).
  destruct (String.compare b a); cbn [CompOpp]; congruence.
Qed.

Lemma item_lt_asym (a b : string * Z) : item_lt a b = true -> item_lt b a = false.
Proof.
  unfold item_lt. rewrite (String.eqb_sym (fst b) (fst a)).
  destruct (String.eqb (fst a) (fst b)).
  - intros H. apply Z.ltb_lt in H. apply Z.ltb_ge. lia.
  - apply str_lt_asym.
Qed.

(** Of two different strings, the one that is not smaller is greater. *)
Lemma str_lt_total (a b : string) : a <> b -> str_lt b a = false -> str_lt a b = true.
Proof.
  unfold str_lt. intros N. rewrite (String.compare_antisym a b).
  destruct (String.compare b a) eqn:E; cbn [CompOpp]; try congruence.
  apply String.compare_eq_iff in E. congruence.
Qed.

(** ** Dictionaries *)

Section Dict.

Context {V : Type}.

Lemma dict_contains_In (d : dict V) (k : string) :
  dict_contains d k = true <-> In k (map fst d).
Proof.
  unfold dict_contains. induction d as [|[k' v] d IH]; cbn [dict_get map fst In].
  - split; [discriminate | contradiction].
  - destruct (String.eqb k' k) eqn:E.
    + apply String.eqb_eq in E. split; auto.
    + apply String.eqb_neq in E. rewrite IH. split; [auto | intros [H|H]; congruence].
Qed.

Lemma dict_set_keys (d : dict V) (k : string) (v : V) :
  map fst (dict_set d k v) = if dict_contains d k then map fst d else map fst d ++ [k].
Proof.
  unfold dict_contains. induction d as [|[k' v'] d IH]; cbn [dict_set dict_get map fst app].
  - reflexivity.
  - destruct (String.eqb k' k) eqn:E; cbn [map fst]; [reflexivity|].
    rewrite IH. destruct (dict_get d k); reflexivity.
Qed.

Lemma dict_set_absent (d : dict V) (k : string) (v : V) :
  dict_contains d k = false -> dict_set d k v = d ++ [(k, v)].
Proof.
  unfold dict_contains. induction d as [|[k' v'] d IH]; cbn [dict_set dict_get app].
  - reflexivity.
  - destruct (String.eqb k' k); [discriminate|]. intros H. rewrite IH by exact H.
    reflexivity.
Qed.

Lemma dict_update_keys (d : dict V) (k : string) (f : V -> V) :
  map fst (dict_update d k f) = map fst d.
Proof.
  induction d as [|[k' v'] d IH]; cbn [dict_update map fst]; [reflexivity|].
  destruct (String.eqb k' k); cbn [map fst]; congruence.
Qed.

Lemma dict_get_set (d : dict V) (k m : string) (v : V) :
  dict_get (dict_set d k v) m = if String.eqb k m then Some v else dict_get d m.
Proof.
  induction d as [|[k' v'] d IH]; cbn [dict_set dict_get].
  - destruct (String.eqb k m); reflexivity.
  - destruct (String.eqb k' k) eqn:E; cbn [dict_get].
    + apply String.eqb_eq in E. subst k'. destruct (String.eqb k m); reflexivity.
    + rewrite IH. destruct (String.eqb k' m) eqn:E'; [|reflexivity].
      apply String.eqb_eq in E'. subst k'. rewrite String.eqb_sym, E. reflexivity.
Qed.

Lemma dict_get_update (d : dict V) (k m : string) (f : V -> V) :
  dict_get (dict_update d k f) m
  = if String.eqb k m then option_map f (dict_get d m) else dict_get d m.
Proof.
  induction d as [|[k' v'] d IH]; cbn [dict_update dict_get].
  - destruct (String.eqb k m); reflexivity.
  - destruct (String.eqb k' k) eqn:E; cbn [dict_get].
    + apply String.eqb_eq in E. subst k'. destruct (String.eqb k m); reflexivity.
    + rewrite IH. destruct (String.eqb k' m) eqn:E'; [|reflexivity].
      apply String.eqb_eq in E'. subst k'. rewrite String.eqb_sym, E. reflexivity.
Qed.

Lemma dict_get_In (d : dict V) (k : string) (v : V) :
  NoDup (map fst d) -> In (k, v) d -> dict_get d k = Some v.
Proof.
  induction d as [|[k' v'] d IH]; cbn [map fst dict_get]; [contradiction|].
  intros N [H|H].
  - injection H as -> ->. rewrite String.eqb_refl. reflexivity.
  - inversion N as [|? ? Hn N']; subst.
    destruct (String.eqb k' k) eqn:E.
    + apply String.eqb_eq in E. subst k'. exfalso. apply Hn.
      apply (in_map fst) in H. exact H.
    + apply IH; assumption.
Qed.

End Dict.

Lemma dict_update_sum (d : dict Z) (k : string) (v : Z) :
  dict_contains d k = true ->
  py_sum (map snd (dict_update d k (fun total => total + v))) = py_sum (map snd d) + v.
Proof.
  unfold dict_contains. induction d as [|[k' v'] d IH]; cbn [dict_get dict_update map snd].
  - discriminate.
  - destruct (String.eqb k' k); cbn [map snd]; rewrite !py_sum_cons.
    + lia.
    + intros H. rewrite IH by exact H. lia.
Qed.

(** ** Totals and attainment *)

Lemma sums_bounds (l : list SalesRecord) :
  Forall record_bounds l ->
  2 ^ 7 * Z.of_nat (List.length l) <= py_sum (map sales_volume l)
    <= 2 ^ 23 * Z.of_nat (List.length l)
  /\ 2 ^ 8 * Z.of_nat (List.length l) <= py_sum (map goal l)
    <= 2 ^ 14 * Z.of_nat (List.length l).
Proof.
  induction 1 as [|r l [G S] _ IH]; [cbn; lia|].
  cbn [map List.length]. rewrite !py_sum_cons, Nat2Z.inj_succ. lia.
Qed.

Lemma small_filter (f : SalesRecord -> bool) (l : list SalesRecord) :
  small l -> small (filter f l).
Proof.
  intros [F L]. split.
  - apply Forall_forall. intros r Hr. apply filter_In in Hr as [Hr _].
    revert r Hr. apply Forall_forall. exact F.
  - pose proof (filter_length_le f l). lia.
Qed.

Lemma small_sums (l : list SalesRecord) :
  small l -> l <> [] ->
  0 < py_sum (map sales_volume l) < 2 ^ 34 /\ 0 < py_sum (map goal l) < 2 ^ 34.
Proof.
  intros [F L] N. pose proof (sums_bounds l F) as [S G].
  assert (1 <= Z.of_nat (List.length l) <= 1400).
  { destruct l; [contradiction|]. cbn [List.length] in *. lia. }
  lia.
Qed.

Lemma py_truediv_ok (a b : Z) :
  0 < a < 2 ^ 34 -> 0 < b < 2 ^ 34 ->
  exists q, py_truediv a b = Ok q /\ in_binade (-34) 36 q = true.
Proof.
  intros Ha Hb.
  assert (La : 0 <= Z.log2 a < 34) by (split; [apply Z.log2_nonneg | apply Z.log2_lt_pow2; lia]).
  assert (Lb : 0 <= Z.log2 b < 34) by (split; [apply Z.log2_nonneg | apply Z.log2_lt_pow2; lia]).
  destruct a as [|pa|pa]; try lia. destruct b as [|pb|pb]; try lia.
  pose proof (fdiv_raw_binade pa pb ltac:(lia) ltac:(lia)) as B.
  unfold py_truediv. cbn [Z.eqb exact].
  exists (fdiv (S754_finite false pa 0) (S754_finite false pb 0)). split.
  - apply in_binade_inv in B as (m & e & -> & _). reflexivity.
  - eapply in_binade_weaken; [exact B| |]; lia.
Qed.

Lemma attainment_of_positive (sales goal : Z) :
  0 < goal ->
  attainment_of sales goal
  = (q <- py_truediv sales goal ;; Ok (PFloat (fmul q (float_of_Z 100)))).
Proof.
  intros H. unfold attainment_of. apply Z.ltb_lt in H. rewrite H.
  destruct (py_truediv sales goal); reflexivity.
Qed.

Lemma attainment_of_no_goal (sales goal : Z) :
  goal <= 0 -> attainment_of sales goal = Ok (PInt 0).
Proof.
  intros H. unfold attainment_of. apply Z.ltb_ge in H. rewrite H. reflexivity.
Qed.

Lemma attainment_of_ok (sales goal : Z) :
  0 < sales < 2 ^ 34 -> 0 < goal < 2 ^ 34 ->
  exists q, py_truediv sales goal = Ok q
    /\ in_binade (-34) 36 q = true
    /\ attainment_of sales goal = Ok (PFloat (fmul q (float_of_Z 100))).
Proof.
  intros Hs Hg. destruct (py_truediv_ok sales goal Hs Hg) as (q & E & B).
  exists q. split; [exact E|]. split; [exact B|].
  rewrite attainment_of_positive by lia.
  rewrite E. reflexivity.
Qed.

Lemma summarize_small (l : list SalesRecord) :
  small l -> l <> [] ->
  exists q,
    py_truediv (py_sum (map sales_volume l)) (py_sum (map goal l)) = Ok q
    /\ summarize l
       = Ok {| total_sales := py_sum (map sales_volume l);
               total_goal := py_sum (map goal l);
               gap_to_goal := py_sum (map goal l) - py_sum (map sales_volume l);
               attainment := PFloat (float_round (fmul q (float_of_Z 100)) 1) |}.
Proof.
  intros S N. destruct (small_sums l S N) as [Hs Hg].
  destruct (attainment_of_ok _ _ Hs Hg) as (q & E & _ & A).
  exists q. split; [exact E|].
  destruct l as [|r l]; [contradiction|]. unfold summarize. rewrite A. reflexivity.
Qed.

Section Calls.

Variable R : RandomSource.
Variable s : rng_state R.
Variable warm : bool.

Lemma dataset_small : small (dataset R s).
Proof.
  destruct (generated_spec R s) as (_ & K & B). split; [exact B|].
  rewrite <- (length_map record_key), K, expected_keys_length. lia.
Qed.

Lemma filter_week_small (w : option Z) (l : list SalesRecord) :
  small l -> small (filter_week w l).
Proof. destruct w; [apply small_filter | auto]. Qed.

Lemma filter_markets_small (ms : option (list string)) (l : list SalesRecord) :
  small l -> small (filter_markets ms l).
Proof. destruct ms as [[|m ms]|]; [auto | apply small_filter | auto]. Qed.

Lemma filters_selected (w : option Z) (ms : option (list string)) :
  filter_markets ms (filter_week w (dataset R s)) = selected R s w ms.
Proof.
  unfold selected, chosen, filter_markets, filter_week.
  destruct w as [w|], ms as [[|m ms]|]; rewrite ?filter_and;
    try (apply filter_ext; intros d; rewrite ?andb_true_r; reflexivity);
    symmetry; apply filter_all.
Qed.

Lemma selected_small (w : option Z) (ms : option (list string)) :
  small (selected R s w ms).
Proof. apply small_filter, dataset_small. Qed.

Lemma get_sales_data_call (w : option Z) (m : option string) :
  get_sales_data R w m (proc_state R s warm)
  = Ok (filter_market m (filter_week w (dataset R s)), loaded R s).
Proof. unfold get_sales_data. rewrite generate_proc_state. reflexivity. Qed.

Lemma get_summary_metrics_call (w : option Z) (ms : option (list string)) :
  get_summary_metrics R w ms (proc_state R s warm)
  = (summary <- summarize (selected R s w ms) ;; Ok (summary, loaded R s)).
Proof.
  unfold get_summary_metrics. rewrite generate_proc_state. cbn [bind].
  rewrite filters_selected. reflexivity.
Qed.

Lemma get_territory_summary_call (w : option Z) :
  get_territory_summary R w (proc_state R s warm)
  = (result <- territory_of (filter_week w (dataset R s)) ;; Ok (result, loaded R s)).
Proof. unfold get_territory_summary. rewrite generate_proc_state. reflexivity. Qed.

Lemma get_daily_trend_call (w : option Z) (ms : option (list string)) :
  get_daily_trend R w ms (proc_state R s warm)
  = Ok (trend_of (selected R s w ms), loaded R s).
Proof.
  unfold get_daily_trend. rewrite generate_proc_state. cbn [bind].
  rewrite filters_selected. reflexivity.
Qed.

Lemma get_available_weeks_call :
  get_available_weeks R (proc_state R s warm) = Ok (weeks_of (dataset R s), loaded R s).
Proof. unfold get_available_weeks. rewrite generate_proc_state. reflexivity. Qed.

End Calls.

(** ** Filters that match some records, or none *)

Lemma filter_none {A : Type} (f : A -> bool) (l : list A) :
  Forall (fun x => f x = false) l -> filter f l = [].
Proof.
  induction 1 as [|x l H _ IH]; [reflexivity|]. cbn [filter]. rewrite H. exact IH.
Qed.

Section Selected.

Variable R : RandomSource.
Variable s : rng_state R.

Lemma record_of_combination (w : Z) (m : string) :
  1 <= w <= 8 -> In m MARKETS ->
  exists r, In r (dataset R s) /\ r.(week) = w /\ r.(market) = m.
Proof.
  intros Hw Hm.
  pose proof (dataset_count_key R s w 0 m "Kroger" Hw Hm ltac:(cbn; auto) ltac:(lia)) as C.
  unfold count_key in C.
  destruct (filter (fun r => key_eqb (w, m, "Kroger", day_string w 0) (record_key r))
              (dataset R s)) as [|r l] eqn:E; [discriminate|].
  assert (Hr : In r (r :: l)) by (left; reflexivity).
  rewrite <- E in Hr. apply filter_In in Hr as [Hr Hk].
  unfold key_eqb, record_key in Hk.
  destruct (w =? week r) eqn:E1; [|discriminate].
  destruct (String.eqb m (market r)) eqn:E2; [|discriminate].
  apply Z.eqb_eq in E1. apply String.eqb_eq in E2.
  exists r. auto.
Qed.

Lemma selected_nonempty (w : Z) (m : string) (ms : list string) :
  1 <= w <= 8 -> In m MARKETS -> In m ms -> selected R s (Some w) (Some ms) <> [].
Proof.
  intros Hw Hm Hms. destruct (record_of_combination w m Hw Hm) as (r & Hr & E1 & E2).
  intros N. assert (Hin : In r (selected R s (Some w) (Some ms))).
  { apply filter_In. split; [exact Hr|]. unfold chosen.
    apply andb_true_intro. split; [apply Z.eqb_eq; exact E1|].
    destruct ms as [|m0 ms]; [contradiction|].
    apply str_in_In. rewrite E2. exact Hms. }
  rewrite N in Hin. contradiction.
Qed.

Lemma week_market_present (w : Z) (m : string) :
  1 <= w <= 8 -> In m MARKETS ->
  In m (map market (filter_week (Some w) (dataset R s))).
Proof.
  intros Hw Hm. destruct (record_of_combination w m Hw Hm) as (r & Hr & E1 & E2).
  apply in_map_iff. exists r. split; [exact E2|].
  apply filter_In. split; [exact Hr | apply Z.eqb_eq; exact E1].
Qed.

Lemma selected_week_absent (w : Z) (ms : option (list string)) :
  ~ 1 <= w <= 8 -> selected R s (Some w) ms = [].
Proof.
  intros Hw. apply filter_none.
  eapply Forall_impl; [|apply (dataset_in_table R s)].
  intros r (Hr & _). unfold chosen.
  assert (E : (week r =? w) = false) by (apply Z.eqb_neq; lia).
  rewrite E. reflexivity.
Qed.

Lemma selected_markets_absent (w : option Z) (m : string) (ms : list string) :
  (forall x, In x (m :: ms) -> ~ In x MARKETS) -> selected R s w (Some (m :: ms)) = [].
Proof.
  intros H. apply filter_none.
  eapply Forall_impl; [|apply (dataset_in_table R s)].
  intros r (_ & Hm & _). unfold chosen.
  destruct (str_in (market r) (m :: ms)) eqn:E.
  - apply str_in_In in E. exfalso. exact (H _ E Hm).
  - apply andb_false_r.
Qed.

End Selected.

(** ** Filtered records and the summary *)

(** C6. [get_sales_data] returns the records that match the week and the
    market when both are given, all the records when none is given, and in
    every case the records that match the given filters, in the order of
    the generated data. *)
Theorem get_sales_data_filters (R : RandomSource) (s : rng_state R) (warm : bool) :
  (forall w m,
     get_sales_data R (Some w) (Some m) (proc_state R s warm)
     = Ok (filter (fun d => (d.(week) =? w) && String.eqb d.(market) m) (dataset R s),
           loaded R s))
  /\ get_sales_data R None None (proc_state R s warm) = Ok (dataset R s, loaded R s)
  /\ (forall wf mf, exists result,
        get_sales_data R wf mf (proc_state R s warm) = Ok (result, loaded R s)
        /\ result = filter (matches wf mf) (dataset R s)
        /\ Subsequence result (dataset R s)).
Proof.
  split; [|split].
  - intros w m. rewrite get_sales_data_call. cbn [filter_week filter_market].
    rewrite filter_and. reflexivity.
  - apply get_sales_data_call.
  - intros wf mf. exists (filter (matches wf mf) (dataset R s)).
    split; [|split; [reflexivity | apply filter_subsequence]].
    rewrite get_sales_data_call. f_equal. f_equal.
    unfold matches, filter_market, filter_week.
    destruct wf as [w|], mf as [m|]; rewrite ?filter_and;
      try (apply filter_ext; intros d; rewrite ?andb_true_r; reflexivity).
    symmetry. apply filter_all.
Qed.

(** C2. When the filtered records are not empty, [get_summary_metrics]
    returns the sum of their sales volumes, the sum of their goals, the
    difference goal minus sales, and, the total goal being positive, the
    quotient sales / goal times 100 rounded to one decimal.  On any list of
    records that is not empty and has a total goal of 0, the attainment of
    the summary is 0. *)
Theorem summary_totals_and_attainment (R : RandomSource) (s : rng_state R) (warm : bool)
    (w : option Z) (ms : option (list string)) :
  (selected R s w ms <> [] ->
   0 < py_sum (map goal (selected R s w ms))
   /\ exists q,
       py_truediv (py_sum (map sales_volume (selected R s w ms)))
                  (py_sum (map goal (selected R s w ms))) = Ok q
       /\ get_summary_metrics R w ms (proc_state R s warm)
          = Ok ({| total_sales := py_sum (map sales_volume (selected R s w ms));
                   total_goal := py_sum (map goal (selected R s w ms));
                   gap_to_goal := py_sum (map goal (selected R s w ms))
                                  - py_sum (map sales_volume (selected R s w ms));
                   attainment := PFloat (float_round (fmul q (float_of_Z 100)) 1) |},
                loaded R s))
  /\ (forall data, data <> [] -> py_sum (map goal data) = 0 ->
        summarize data
        = Ok {| total_sales := py_sum (map sales_volume data);
                total_goal := 0;
                gap_to_goal := 0 - py_sum (map sales_volume data);
                attainment := PInt 0 |}).
Proof.
  split.
  - intros N. pose proof (selected_small R s w ms) as S.
    destruct (small_sums _ S N) as [_ Hg]. split; [lia|].
    destruct (summarize_small _ S N) as (q & E & H).
    exists q. split; [exact E|].
    rewrite get_summary_metrics_call, H. reflexivity.
  - intros data N G. destruct data as [|r data]; [contradiction|].
    unfold summarize. rewrite G. reflexivity.
Qed.

Lemma summary_totals_and_attainment_witness :
  0 < py_sum (map goal (selected lcg 42 (Some 1) (Some ["Dallas"])))
  /\ exists q,
      py_truediv (py_sum (map sales_volume (selected lcg 42 (Some 1) (Some ["Dallas"]))))
                 (py_sum (map goal (selected lcg 42 (Some 1) (Some ["Dallas"])))) = Ok q
      /\ get_summary_metrics lcg (Some 1) (Some ["Dallas"]) (proc_state lcg 42 false)
         = Ok ({| total_sales :=
                    py_sum (map sales_volume (selected lcg 42 (Some 1) (Some ["Dallas"])));
                  total_goal := py_sum (map goal (selected lcg 42 (Some 1) (Some ["Dallas"])));
                  gap_to_goal :=
                    py_sum (map goal (selected lcg 42 (Some 1) (Some ["Dallas"])))
                    - py_sum (map sales_volume (selected lcg 42 (Some 1) (Some ["Dallas"])));
                  attainment := PFloat (float_round (fmul q (float_of_Z 100)) 1) |},
               loaded lcg 42).
Proof.
  apply (proj1 (summary_totals_and_attainment lcg 42 false (Some 1) (Some ["Dallas"]))).
  apply (selected_nonempty lcg 42 1 "Dallas"); [lia | simpl; auto | simpl; auto].
Defined.

(** C7. [get_summary_metrics] returns a summary for every week and every
    list of markets; when no record matches, the four fields are 0.  No
    record matches a week outside 1..8, nor a list of names none of which
    is a market. *)
Theorem summary_never_raises (R : RandomSource) (s : rng_state R) (warm : bool)
    (w : option Z) (ms : option (list string)) :
  (exists summary,
     get_summary_metrics R w ms (proc_state R s warm) = Ok (summary, loaded R s))
  /\ (selected R s w ms = [] ->
      get_summary_metrics R w ms (proc_state R s warm)
      = Ok ({| total_sales := 0; total_goal := 0; gap_to_goal := 0;
               attainment := PInt 0 |}, loaded R s))
  /\ (forall w', w = Some w' -> ~ 1 <= w' <= 8 -> selected R s w ms = [])
  /\ (forall m l, ms = Some (m :: l) ->
        (forall x, In x (m :: l) -> ~ In x MARKETS) -> selected R s w ms = []).
Proof.
  rewrite get_summary_metrics_call. split; [|split; [|split]].
  - destruct (selected R s w ms) as [|r l] eqn:E.
    + eexists. reflexivity.
    + destruct (summarize_small (r :: l)) as (q & _ & H).
      * rewrite <- E. apply selected_small.
      * discriminate.
      * rewrite H. eexists. reflexivity.
  - intros ->. reflexivity.
  - intros w' -> H. apply selected_week_absent. exact H.
  - intros m l -> H. apply selected_markets_absent. exact H.
Qed.

Lemma summary_never_raises_witness :
  get_summary_metrics lcg (Some 9) (Some ["Paris"]) (proc_state lcg 42 false)
  = Ok ({| total_sales := 0; total_goal := 0; gap_to_goal := 0; attainment := PInt 0 |},
        loaded lcg 42).
Proof.
  pose proof (summary_never_raises lcg 42 false (Some 9) (Some ["Paris"]))
    as (_ & Zero & Week & _).
  apply Zero. apply (Week 9); [reflexivity | lia].
Defined.

(** C8. An empty list of markets is no filter: with it, the summary and the
    daily trend are those of a call without markets. *)
Theorem empty_markets_is_no_filter (R : RandomSource) (st : ProcState R) (w : option Z) :
  get_summary_metrics R w (Some []) st = get_summary_metrics R w None st
  /\ get_daily_trend R w (Some []) st = get_daily_trend R w None st.
Proof. split; reflexivity. Qed.

(** ** The daily trend *)

Lemma NoDup_snoc {A : Type} (l : list A) (x : A) : NoDup l -> ~ In x l -> NoDup (l ++ [x]).
Proof.
  intros N H. apply (Permutation_NoDup (l := x :: l)).
  - apply Permutation_cons_append.
  - constructor; assumption.
Qed.

Lemma dict_contains_false {V : Type} (d : dict V) (k : string) :
  dict_contains d k = false -> ~ In k (map fst d).
Proof. intros H I. apply dict_contains_In in I. congruence. Qed.

Lemma add_to_date_inv (d : dict Z) (r : SalesRecord) :
  NoDup (map fst d) ->
  NoDup (map fst (add_to_date d r))
  /\ py_sum (map snd (add_to_date d r)) = py_sum (map snd d) + r.(sales_volume).
Proof.
  intros N. unfold add_to_date. destruct (dict_contains d (date r)) eqn:C.
  - rewrite dict_update_keys, dict_update_sum by exact C. auto.
  - rewrite dict_update_keys. rewrite (dict_set_absent d _ 0 C). split.
    + rewrite map_app. apply NoDup_snoc; [exact N | apply dict_contains_false; exact C].
    + rewrite dict_update_sum.
      * rewrite map_app, py_sum_app. cbn. lia.
      * apply dict_contains_In. rewrite map_app. apply in_or_app. right. left. reflexivity.
Qed.

Lemma daily_totals_inv (l : list SalesRecord) (d : dict Z) :
  NoDup (map fst d) ->
  NoDup (map fst (fold_left add_to_date l d))
  /\ py_sum (map snd (fold_left add_to_date l d))
     = py_sum (map snd d) + py_sum (map sales_volume l).
Proof.
  revert d. induction l as [|r l IH]; intros d N; cbn [fold_left map].
  - split; [exact N | cbn; lia].
  - destruct (add_to_date_inv d r N) as [N' S'].
    destruct (IH _ N') as [N'' S'']. split; [exact N''|].
    rewrite S'', S', py_sum_cons. lia.
Qed.

Lemma strictly_increasing_items (l : list (string * Z)) :
  Sorted (not_after item_lt) l -> NoDup (map fst l) ->
  Sorted (fun a b => str_lt (fst a) (fst b) = true) l.
Proof.
  induction 1 as [|a l Hs IH Hh]; intros N; [constructor|].
  cbn [map] in N. inversion N as [|? ? Hn N']; subst.
  constructor; [apply IH; exact N'|].
  destruct Hh as [|b l Hab]; constructor.
  unfold not_after, item_lt in Hab.
  assert (Hne : fst a <> fst b) by (intros E; apply Hn; left; congruence).
  destruct (String.eqb (fst b) (fst a)) eqn:E.
  - apply String.eqb_eq in E. congruence.
  - apply str_lt_total; assumption.
Qed.

Lemma trend_of_spec (data : list SalesRecord) :
  Sorted (fun a b => str_lt (tp_date a) (tp_date b) = true) (trend_of data)
  /\ py_sum (map tp_sales (trend_of data)) = py_sum (map sales_volume data).
Proof.
  unfold trend_of.
  destruct (daily_totals_inv data [] (NoDup_nil _)) as [N S].
  set (d := fold_left add_to_date data []) in *.
  pose proof (py_sorted_perm item_lt d) as P. split.
  - apply Sorted_map. cbn [tp_date]. apply strictly_increasing_items.
    + apply py_sorted_sorted. exact item_lt_asym.
    + apply (Permutation_NoDup (l := map fst d)); [|exact N].
      apply Permutation_map. symmetry. exact P.
  - rewrite map_map. cbn [tp_sales].
    rewrite (py_sum_perm _ (map snd d)) by (apply Permutation_map; exact P).
    rewrite S. cbn. lia.
Qed.

(** C5. The dates of the daily trend are strictly increasing, and its
    sales add up to the total sales of the summary of the same week and
    markets. *)
Theorem daily_trend_increasing_and_total (R : RandomSource) (s : rng_state R)
    (warm : bool) (w : option Z) (ms : option (list string)) :
  exists trend summary,
    get_daily_trend R w ms (proc_state R s warm) = Ok (trend, loaded R s)
    /\ get_summary_metrics R w ms (proc_state R s warm) = Ok (summary, loaded R s)
    /\ Sorted (fun a b => str_lt (tp_date a) (tp_date b) = true) trend
    /\ py_sum (map tp_sales trend) = total_sales summary.
Proof.
  destruct (trend_of_spec (selected R s w ms)) as [Hs Ht].
  exists (trend_of (selected R s w ms)).
  rewrite get_daily_trend_call, get_summary_metrics_call.
  destruct (selected R s w ms) as [|r l] eqn:E.
  - exists zero_summary. repeat split. constructor.
  - destruct (summarize_small (r :: l)) as (q & _ & H).
    + rewrite <- E. apply selected_small.
    + discriminate.
    + rewrite H. eexists. split; [reflexivity|]. split; [reflexivity|].
      split; [exact Hs | exact Ht].
Qed.

(** ** The available weeks *)

Lemma strictly_increasing_Z (l : list Z) :
  Sorted (not_after Z.ltb) l -> NoDup l -> Sorted Z.lt l.
Proof.
  induction 1 as [|a l Hs IH Hh]; intros N; [constructor|].
  inversion N as [|? ? Hn N']; subst.
  constructor; [apply IH; exact N'|].
  destruct Hh as [|b l Hab]; constructor.
  unfold not_after in Hab. apply Z.ltb_ge in Hab.
  assert (a <> b) by (intros E; apply Hn; left; congruence). lia.
Qed.

Lemma weeks_of_spec (data : list SalesRecord) :
  Sorted Z.lt (weeks_of data) /\ (forall w, In w (weeks_of data) <-> In w (map week data)).
Proof.
  unfold weeks_of, py_set.
  pose proof (py_sorted_perm Z.ltb (nodup Z.eq_dec (map week data))) as P. split.
  - apply strictly_increasing_Z.
    + apply py_sorted_sorted. intros a b H. apply Z.ltb_lt in H. apply Z.ltb_ge. lia.
    + apply (Permutation_NoDup (l := nodup Z.eq_dec (map week data)));
        [symmetry; exact P | apply NoDup_nodup].
  - intros w. split; intros H.
    + apply (Permutation_in _ P) in H. apply nodup_In in H. exact H.
    + apply (Permutation_in _ (Permutation_sym P)). apply nodup_In. exact H.
Qed.

Lemma expected_weeks :
  py_sorted Z.ltb (py_set (map key_week expected_keys)) = [1; 2; 3; 4; 5; 6; 7; 8].
Proof. vm_compute. reflexivity. Qed.

Lemma dataset_weeks (R : RandomSource) (s : rng_state R) :
  weeks_of (dataset R s) = [1; 2; 3; 4; 5; 6; 7; 8].
Proof.
  destruct (generated_spec R s) as (_ & K & _).
  unfold weeks_of.
  replace (map week (dataset R s)) with (map key_week expected_keys);
    [exact expected_weeks|].
  rewrite <- K, map_map. reflexivity.
Qed.

(** C10. [get_available_weeks] returns the weeks of the generated data,
    each once, in increasing order: the list is computed from whatever
    records there are, and for the generated data it is 1, ..., 8. *)
Theorem available_weeks_sorted_distinct (R : RandomSource) (s : rng_state R)
    (warm : bool) :
  (exists weeks,
     get_available_weeks R (proc_state R s warm) = Ok (weeks, loaded R s)
     /\ weeks = weeks_of (dataset R s)
     /\ weeks = [1; 2; 3; 4; 5; 6; 7; 8])
  /\ (forall data,
        Sorted Z.lt (weeks_of data)
        /\ (forall w, In w (weeks_of data) <-> In w (map week data))).
Proof.
  split; [|exact weeks_of_spec].
  exists (weeks_of (dataset R s)). split; [apply get_available_weeks_call|].
  split; [reflexivity | apply dataset_weeks].
Qed.

Lemma available_weeks_sorted_distinct_witness :
  In 3 (weeks_of [sample_record 3 "Austin" 900 950; sample_record 1 "Dallas" 1000 800]).
Proof.
  apply (proj2 (proj2 (available_weeks_sorted_distinct lcg 42 false) _) 3).
  simpl. auto.
Defined.

(** ** The order of the attainments *)

Lemma SFltb_positive (m1 m2 : positive) (e1 e2 : Z) :
  SFltb (S754_finite false m1 e1) (S754_finite false m2 e2) = true
  <-> e1 < e2 \/ (e1 = e2 /\ (m1 < m2)%positive).
Proof.
  unfold SFltb, SFcompare. fold (Pos.compare m1 m2).
  destruct (Z.compare_spec e1 e2) as [E|E|E].
  - destruct (Pos.compare_spec m1 m2) as [M|M|M]; split;
      try discriminate; try (intros _; right; split; assumption);
      try reflexivity; intros [H|[_ H]]; lia.
  - split; [intros _; left; exact E | reflexivity].
  - split; [discriminate | intros [H|[H _]]; lia].
Qed.

Lemma SFltb_nonneg_trans (x y z : float) :
  nonneg_finite x = true -> nonneg_finite y = true -> nonneg_finite z = true ->
  SFltb x y = false -> SFltb y z = false -> SFltb x z = false.
Proof.
  destruct x as [sx|sx| |[|] mx ex]; try discriminate;
    destruct y as [sy|sy| |[|] my ey]; try discriminate;
    destruct z as [sz|sz| |[|] mz ez]; try discriminate;
    intros _ _ _ Hxy Hyz; try reflexivity; try discriminate.
  destruct (SFltb (S754_finite false mx ex) (S754_finite false mz ez)) eqn:Hxz;
    [|reflexivity].
  apply SFltb_positive in Hxz.
  assert (Nxy : ~ (ex < ey \/ (ex = ey /\ (mx < my)%positive)))
    by (intros H; apply SFltb_positive in H; congruence).
  assert (Nyz : ~ (ey < ez \/ (ey = ez /\ (my < mz)%positive)))
    by (intros H; apply SFltb_positive in H; congruence).
  exfalso. lia.
Qed.

Lemma round_half_even_bounds (a b : Z) :
  0 <= a -> 0 < b -> 0 <= round_half_even a b <= a + 1.
Proof.
  intros Ha Hb. unfold round_half_even.
  assert (0 <= a / b <= a).
  { split; [apply Z.div_pos; lia|]. apply Z.div_le_upper_bound; [lia|]. nia. }
  destruct (2 * (a mod b) ?= b); [destruct (Z.even (a / b))| |]; lia.
Qed.

(** Rounding a positive float below [2 ^ 52] to one decimal gives zero or
    a positive float. *)
Lemma float_round_nonneg (lo hi : Z) (x : float) :
  in_binade lo hi x = true -> hi <= 52 -> nonneg_finite (float_round x 1) = true.
Proof.
  intros B H. apply in_binade_inv in B as (m & e & -> & D & Be).
  unfold float_round.
  assert (E : (0 <=? e) = false) by (apply Z.leb_gt; lia). rewrite E.
  pose proof (round_half_even_bounds (Zpos m * 10 ^ 1) (2 ^ (- e)) ltac:(lia)
                ltac:(apply Z.pow_pos_nonneg; lia)) as Bn.
  destruct (round_half_even (Zpos m * 10 ^ 1) (2 ^ (- e))) as [|p|p]; try lia.
  - reflexivity.
  - apply log2_52_bounds in D; [|lia].
    assert (Lp : Z.log2 (Zpos p) < 57) by (apply Z.log2_lt_pow2; lia).
    pose proof (fdiv_raw_binade p 10 ltac:(lia) ltac:(cbn; lia)) as Bq.
    change (exact (10 ^ 1)) with (S754_finite false 10 0).
    apply in_binade_inv in Bq as (m' & e' & -> & _). reflexivity.
Qed.

Lemma attainment_nonneg (q : float) :
  in_binade (-34) 36 q = true ->
  nonneg_finite (float_round (fmul q (float_of_Z 100)) 1) = true.
Proof.
  intros B.
  assert (B100 : in_binade 7 7 (float_of_Z 100) = true) by reflexivity.
  pose proof (fmul_binade _ _ _ _ q _ B B100 ltac:(lia) ltac:(lia)) as Bp.
  apply (float_round_nonneg _ _ _ Bp). lia.
Qed.

Lemma Sorted_strongly {A : Type} (P : A -> A -> Prop) (good : A -> Prop) (l : list A) :
  (forall a b c, good a -> good b -> good c -> P a b -> P b c -> P a c) ->
  Forall good l -> Sorted P l -> StronglySorted P l.
Proof.
  intros T F S. induction S as [|a l S IH Hh]; [constructor|].
  inversion F as [|? ? Ga Fl]; subst. specialize (IH Fl).
  constructor; [exact IH|].
  destruct Hh as [|b l Hab]; [constructor|].
  inversion IH as [|? ? _ Hb]; subst. inversion Fl as [|? ? Gb Fl']; subst.
  constructor; [exact Hab|].
  rewrite Forall_forall in *. intros c Ic.
  apply (T a b c); auto.
Qed.

(** ** The territory summary *)

Lemma of_market_absent (m : string) (l : list SalesRecord) :
  str_in m (map market l) = false -> of_market m l = [].
Proof.
  unfold of_market, str_in. induction l as [|r l IH]; cbn [map existsb filter]; [reflexivity|].
  intros H. apply orb_false_elim in H as [H1 H2].
  rewrite String.eqb_sym, H1. apply IH. exact H2.
Qed.

Lemma of_market_present (m : string) (l : list SalesRecord) :
  str_in m (map market l) = true -> of_market m l <> [].
Proof.
  unfold of_market, str_in. induction l as [|r l IH]; cbn [map existsb filter]; [discriminate|].
  rewrite (String.eqb_sym (market r) m).
  destruct (String.eqb m (market r)); [discriminate | exact IH].
Qed.

Lemma str_in_snoc (m k : string) (xs : list string) :
  str_in m (xs ++ [k]) = str_in m xs || String.eqb k m.
Proof.
  unfold str_in. rewrite existsb_app. cbn [existsb].
  rewrite orb_false_r, (String.eqb_sym m k). reflexivity.
Qed.

Lemma totals_of_snoc (l : list SalesRecord) (r : SalesRecord) (m : string) :
  totals_of (l ++ [r]) m
  = if String.eqb r.(market) m
    then {| t_sales := t_sales (totals_of l m) + r.(sales_volume);
            t_goal := t_goal (totals_of l m) + r.(goal) |}
    else totals_of l m.
Proof.
  unfold totals_of, of_market. rewrite filter_app. cbn [filter].
  destruct (String.eqb (market r) m).
  - rewrite !map_app, !py_sum_app. cbn [map t_sales t_goal].
    rewrite !py_sum_cons. cbn. f_equal; lia.
  - rewrite app_nil_r. reflexivity.
Qed.

Lemma add_to_market_inv (d : dict Totals) (l : list SalesRecord) (r : SalesRecord) :
  totals_inv d l -> totals_inv (add_to_market d r) (l ++ [r]).
Proof.
  intros [N G]. unfold add_to_market. split.
  - rewrite !dict_update_keys. destruct (dict_contains d (market r)) eqn:C; [exact N|].
    rewrite dict_set_keys, C. apply NoDup_snoc; [exact N | apply dict_contains_false; exact C].
  - intros m. rewrite !dict_get_update, map_app. cbn [map].
    rewrite str_in_snoc, totals_of_snoc. destruct (String.eqb (market r) m) eqn:E.
    + apply String.eqb_eq in E. subst m. rewrite orb_true_r.
      destruct (dict_contains d (market r)) eqn:C.
      * unfold dict_contains in C. rewrite G in *.
        destruct (str_in (market r) (map market l)); [reflexivity | discriminate].
      * rewrite dict_get_set, String.eqb_refl.
        unfold dict_contains in C. rewrite G in C.
        destruct (str_in (market r) (map market l)) eqn:S; [discriminate|].
        unfold totals_of. rewrite (of_market_absent _ _ S). reflexivity.
    + rewrite orb_false_r.
      destruct (dict_contains d (market r)); [apply G|].
      rewrite dict_get_set, E. apply G.
Qed.

Lemma market_totals_inv (l : list SalesRecord) :
  totals_inv (fold_left add_to_market l []) l.
Proof.
  induction l as [|r l IH] using rev_ind.
  - split; [constructor | reflexivity].
  - rewrite fold_left_app. cbn [fold_left]. apply add_to_market_inv. exact IH.
Qed.

Lemma float_attainment_trans (a b c : Territory) :
  float_attainment a -> float_attainment b -> float_attainment c ->
  py_lt (tr_attainment a) (tr_attainment b) = false ->
  py_lt (tr_attainment b) (tr_attainment c) = false ->
  py_lt (tr_attainment a) (tr_attainment c) = false.
Proof.
  intros (x & -> & Hx) (y & -> & Hy) (z & -> & Hz). cbn [py_lt].
  apply SFltb_nonneg_trans; assumption.
Qed.

Lemma territory_entries_ok (data : list SalesRecord) (items : dict Totals) :
  small data ->
  (forall m t, In (m, t) items ->
     str_in m (map market data) = true /\ t = totals_of data m) ->
  forall acc, exists es,
    territory_entries items acc = Ok (acc ++ es)
    /\ map tr_market es = map fst items
    /\ Forall (entry_of data) es
    /\ Forall float_attainment es.
Proof.
  intros S. induction items as [|[m t] items IH]; intros H acc.
  - exists []. rewrite app_nil_r. repeat split; constructor.
  - destruct (H m t (or_introl eq_refl)) as [Hm Ht].
    pose proof (small_sums (of_market m data) (small_filter _ _ S)
                  (of_market_present _ _ Hm)) as [Bs Bg].
    destruct (attainment_of_ok _ _ Bs Bg) as (q & Eq & Bq & A).
    cbn [territory_entries]. unfold territory_entry. subst t.
    unfold totals_of. cbn [t_sales t_goal].
    rewrite A. cbn [bind py_round].
    match goal with |- context [acc ++ [?e]] => set (entry := e) end.
    destruct (IH (fun m' t' I => H m' t' (or_intror I)) (acc ++ [entry]))
      as (es & E & K & F & G).
    exists (entry :: es). rewrite E, <- app_assoc. split; [reflexivity|].
    split; [cbn [map fst]; rewrite K; reflexivity|].
    split; constructor; try assumption.
    + unfold entry_of, entry. cbn [tr_sales tr_goal tr_market tr_attainment].
      split; [reflexivity|]. split; [reflexivity|]. split; [lia|].
      exists q. split; [exact Eq | reflexivity].
    + eexists. split; [reflexivity|]. apply attainment_nonneg. exact Bq.
Qed.

Lemma territory_of_spec (data : list SalesRecord) :
  small data ->
  exists result,
    territory_of data = Ok result
    /\ NoDup (map tr_market result)
    /\ (forall m, In m (map tr_market result) <-> In m (map market data))
    /\ Forall (entry_of data) result
    /\ StronglySorted (fun a b => py_lt (tr_attainment a) (tr_attainment b) = false)
         result.
Proof.
  intros S. destruct (market_totals_inv data) as [N G].
  set (d := fold_left add_to_market data []) in *.
  assert (Hd : forall m t, In (m, t) d ->
             str_in m (map market data) = true /\ t = totals_of data m).
  { intros m t I. pose proof (dict_get_In d m t N I) as E. rewrite G in E.
    destruct (str_in m (map market data)); [|discriminate].
    injection E as <-. auto. }
  destruct (territory_entries_ok data d S Hd []) as (es & E & K & F & Fa).
  exists (sort_by_key_reverse py_lt tr_attainment es).
  pose proof (sort_by_key_reverse_perm py_lt tr_attainment es) as P.
  assert (Pm : Permutation (map tr_market (sort_by_key_reverse py_lt tr_attainment es))
                           (map fst d))
    by (rewrite <- K; apply Permutation_map; exact P).
  split; [unfold territory_of; fold d; rewrite E; reflexivity|].
  split; [apply (Permutation_NoDup (l := map fst d)); [symmetry; exact Pm | exact N]|].
  split.
  - intros m. specialize (G m). split; intros I.
    + apply (Permutation_in _ Pm) in I. apply dict_contains_In in I.
      unfold dict_contains in I. rewrite G in I.
      destruct (str_in m (map market data)) eqn:Sm; [|discriminate].
      apply str_in_In. exact Sm.
    + apply str_in_In in I.
      apply (Permutation_in _ (Permutation_sym Pm)). apply dict_contains_In.
      unfold dict_contains. rewrite G, I. reflexivity.
  - split.
    + apply (Permutation_Forall (Permutation_sym P)). exact F.
    + apply (Sorted_strongly _ float_attainment).
      * exact float_attainment_trans.
      * apply (Permutation_Forall (Permutation_sym P)). exact Fa.
      * apply sort_by_key_reverse_sorted. exact py_lt_asym.
Qed.

Lemma expected_markets :
  forallb (fun m => str_in m MARKETS) (map key_market expected_keys) = true
  /\ forallb (fun m => str_in m (map key_market expected_keys)) MARKETS = true.
Proof. vm_compute. split; reflexivity. Qed.

Lemma dataset_markets (R : RandomSource) (s : rng_state R) (m : string) :
  In m (map market (dataset R s)) <-> In m MARKETS.
Proof.
  destruct (generated_spec R s) as (_ & K & _).
  replace (map market (dataset R s)) with (map key_market expected_keys)
    by (rewrite <- K, map_map; reflexivity).
  destruct expected_markets as [H1 H2]. split; intros I.
  - apply str_in_In. exact (proj1 (forallb_forall _ _) H1 m I).
  - apply str_in_In. exact (proj1 (forallb_forall _ _) H2 m I).
Qed.

(** C4. For every week filter, [get_territory_summary] returns one entry
    for each market of the filtered records; the sales and the goal of an
    entry are the sums over the filtered records of its market, and its
    attainment is sales / goal times 100 rounded to one decimal, the goal
    being positive (an entry with goal 0 would have attainment 0, as in the
    summary); no entry has a smaller attainment than a later one.  Without
    a week filter there are five entries, one for each market. *)
Theorem territory_summary_by_market (R : RandomSource) (s : rng_state R) (warm : bool) :
  (forall w, exists result,
     get_territory_summary R w (proc_state R s warm) = Ok (result, loaded R s)
     /\ NoDup (map tr_market result)
     /\ (forall m, In m (map tr_market result)
                   <-> In m (map market (filter_week w (dataset R s))))
     /\ Forall (entry_of (filter_week w (dataset R s))) result
     /\ StronglySorted (fun a b => py_lt (tr_attainment a) (tr_attainment b) = false)
          result)
  /\ (exists result,
        get_territory_summary R None (proc_state R s warm) = Ok (result, loaded R s)
        /\ List.length result = 5%nat
        /\ Permutation (map tr_market result) MARKETS)
  /\ (forall m sales,
        territory_entry (m, {| t_sales := sales; t_goal := 0 |})
        = Ok {| tr_market := m; tr_sales := sales; tr_goal := 0;
                tr_attainment := PInt 0 |}).
Proof.
  assert (H : forall w, exists result,
     get_territory_summary R w (proc_state R s warm) = Ok (result, loaded R s)
     /\ NoDup (map tr_market result)
     /\ (forall m, In m (map tr_market result)
                   <-> In m (map market (filter_week w (dataset R s))))
     /\ Forall (entry_of (filter_week w (dataset R s))) result
     /\ StronglySorted (fun a b => py_lt (tr_attainment a) (tr_attainment b) = false)
          result).
  { intros w.
    destruct (territory_of_spec (filter_week w (dataset R s))) as (result & E & P);
      [apply filter_week_small, dataset_small|].
    exists result. rewrite get_territory_summary_call, E. split; [reflexivity | exact P]. }
  split; [exact H|]. split; [|reflexivity].
  destruct (H None) as (result & E & N & M & _).
  exists result. split; [exact E|].
  assert (P : Permutation (map tr_market result) MARKETS).
  { apply NoDup_Permutation; [exact N| |].
    - repeat constructor; cbn; intuition discriminate.
    - intros m. rewrite M. cbn [filter_week]. apply dataset_markets. }
  split; [|exact P].
  rewrite <- (length_map tr_market). rewrite (Permutation_length P). reflexivity.
Qed.

Lemma territory_summary_by_market_witness :
  exists result,
    get_territory_summary lcg (Some 2) (proc_state lcg 42 true) = Ok (result, loaded lcg 42)
    /\ In "Houston" (map tr_market result).
Proof.
  destruct (proj1 (territory_summary_by_market lcg 42 true) (Some 2))
    as (result & E & _ & M & _).
  exists result. split; [exact E|]. apply (proj2 (M "Houston")).
  apply week_market_present; [lia | simpl; auto].
Defined.

(** ** Examples

    The float model on values Python prints: [int(800 * 0.85)] is [680],
    [round(7 / 3 * 100, 1)] is [233.3], [round(0.25, 1)] is [0.2]; and
    the module on the sample source. *)

Example int_of_product_example :
  (x <- int_mul_float 800 (decimal 85 100) ;; py_int x) = Ok 680.
Proof. reflexivity. Qed.

Example attainment_example :
  (a <- attainment_of 7 3 ;; Ok (py_round a 1)) = Ok (PFloat (decimal 2333 10)).
Proof. vm_compute. reflexivity. Qed.

Example round_tie_example : float_round (decimal 25 100) 1 = decimal 2 10.
Proof. vm_compute. reflexivity. Qed.

Example day_string_examples :
  day_string 1 0 = "2026-01-01" /\ day_string 5 3 = "2026-02-01"
  /\ day_string 8 6 = "2026-02-25".
Proof. vm_compute. repeat split. Qed.

Example sorted_example :
  map tr_market
    (sort_by_key_reverse py_lt tr_attainment
       [{| tr_market := "Austin"; tr_sales := 1; tr_goal := 2;
           tr_attainment := PFloat (decimal 50 1) |};
        {| tr_market := "Dallas"; tr_sales := 3; tr_goal := 2;
           tr_attainment := PFloat (decimal 150 1) |};
        {| tr_market := "Houston"; tr_sales := 1; tr_goal := 2;
           tr_attainment := PFloat (decimal 50 1) |}])
  = ["Dallas"; "Austin"; "Houston"].
Proof. vm_compute. reflexivity. Qed.

Example lcg_weeks_example :
  get_available_weeks lcg (fresh lcg 42) = Ok ([1; 2; 3; 4; 5; 6; 7; 8], loaded lcg 42).
Proof.
  rewrite <- (dataset_weeks lcg 42). exact (get_available_weeks_call lcg 42 false).
Qed.


(* ================================================================= *)
(** * Further properties *)

(** ** The fields of the generated records *)

Section Draws.

Variable R : RandomSource.

Lemma choice_In (xs : list string) (k : string -> Gen R SalesRecord)
    (s : rng_state R) :
  xs <> [] ->
  exists x s', In x xs /\ gbind R (choice R xs) k s = k x s'.
Proof.
  intros N. unfold choice. rewrite gbind_draw.
  pose proof (choice_index_range R (Z.of_nat (List.length xs)) s) as H.
  destruct (choice_index R (Z.of_nat (List.length xs)) s) as [i s'].
  cbn [fst snd] in *.
  exists (nth (Z.to_nat i) xs EmptyString), s'. split; [|reflexivity].
  apply nth_In. destruct xs; [contradiction|]. cbn [List.length] in *. lia.
Qed.

Lemma make_record_draws (w : Z) (week_start : datetime) (m : string) (a : string)
    (day_offset : Z) (s s' : rng_state R) (r : SalesRecord) :
  make_record R w week_start m (market_multiplier m) a day_offset s = Ok (r, s') ->
  record_draws r.
Proof.
  unfold make_record. rewrite gbind_draw.
  pose proof (randint_range R 800 1500 s ltac:(lia)) as B1.
  set (n := fst (randint R 800 1500 s)) in *.
  unfold gbind at 1, lift.
  destruct (x <- int_mul_float n (market_multiplier m) ;; py_int x) as [g|e] eqn:Eg;
    [|discriminate].
  rewrite gbind_draw. unfold gbind at 1, lift.
  match goal with |- context [py_max ?lo (py_min ?hi ?att)] =>
    destruct (x <- int_mul_float g (py_max lo (py_min hi att)) ;; py_int x)
      as [sales|e]; [|discriminate] end.
  rewrite gbind_draw.
  match goal with |- context [randint R 0 4 ?t] =>
    pose proof (randint_range R 0 4 t ltac:(lia)) as B2;
    set (d := fst (randint R 0 4 t)) in *; set (s3 := snd (randint R 0 4 t)) end.
  unfold gbind at 1.
  match goal with |- context [match ?c s3 with Ok _ => _ | Raise _ => _ end] =>
    destruct (c s3) as [[sales' s4]|e]; [|discriminate] end.
  destruct (choice_In BRANDS
              (fun brand => gbind R (choice R REPS) (fun rep =>
                 gbind R (draw R (randint R 0 3)) (fun pods =>
                 gbind R (draw R (randint R 0 2)) (fun voids =>
                 gret R {| date := strftime_ymd (add_days week_start day_offset);
                           week := w; market := m; account := a; brand := brand;
                           rep := rep; goal := g; sales_volume := sales';
                           displays := d; pods := pods; voids := voids |}))))
              s4 ltac:(discriminate)) as (b & s5 & Hb & Eb).
  rewrite Eb. clear Eb.
  destruct (choice_In REPS
              (fun rep =>
                 gbind R (draw R (randint R 0 3)) (fun pods =>
                 gbind R (draw R (randint R 0 2)) (fun voids =>
                 gret R {| date := strftime_ymd (add_days week_start day_offset);
                           week := w; market := m; account := a; brand := b;
                           rep := rep; goal := g; sales_volume := sales';
                           displays := d; pods := pods; voids := voids |})))
              s5 ltac:(discriminate)) as (p & s6 & Hp & Ep).
  rewrite Ep. clear Ep.
  rewrite !gbind_draw. unfold gret.
  pose proof (randint_range R 0 3 s6 ltac:(lia)) as B3.
  match goal with |- context [randint R 0 2 ?t] =>
    pose proof (randint_range R 0 2 t ltac:(lia)) as B4 end.
  intros E. injection E as <- _. unfold record_draws.
  cbn [market goal displays pods voids brand rep].
  split; [exists n; split; [lia | exact Eg]|].
  repeat split; try lia; assumption.
Qed.

(** A loop whose turns each append records with a property appends
    records with that property. *)
Lemma for_each_forall {A : Type} (Q : SalesRecord -> Prop)
    (body : A -> list SalesRecord -> Gen R (list SalesRecord)) :
  (forall x data s data' s', body x data s = Ok (data', s') ->
     exists rs, data' = data ++ rs /\ Forall Q rs) ->
  forall xs data s data' s', for_each R xs body data s = Ok (data', s') ->
     exists rs, data' = data ++ rs /\ Forall Q rs.
Proof.
  intros Hbody xs. induction xs as [|x xs IH]; intros data s data' s' E.
  - injection E as <- _. exists []. rewrite app_nil_r. split; [reflexivity | constructor].
  - cbn [for_each] in E. unfold gbind in E.
    destruct (body x data s) as [[d1 s1]|e] eqn:E1; [|discriminate].
    destruct (Hbody _ _ _ _ _ E1) as (rs1 & -> & F1).
    destruct (IH _ _ _ _ E) as (rs2 & -> & F2).
    exists (rs1 ++ rs2). rewrite app_assoc. split; [reflexivity|].
    apply Forall_app; split; assumption.
Qed.

Lemma dataset_draws (s : rng_state R) : Forall record_draws (dataset R s).
Proof.
  destruct (generated_spec R s) as (E & _ & _).
  assert (H : exists rs, dataset R s = [] ++ rs /\ Forall record_draws rs).
  { revert E. unfold generate_loops. apply for_each_forall.
    intros w. apply for_each_forall.
    intros m. apply for_each_forall.
    intros a. apply for_each_forall.
    intros d data s0 data' s' E. unfold gbind in E.
    destruct (make_record R w _ m (market_multiplier m) a d s0) as [[r s1]|e] eqn:Er;
      [|discriminate].
    injection E as <- _. exists [r]. split; [reflexivity|].
    constructor; [|constructor]. eapply make_record_draws. exact Er. }
  destruct H as (rs & -> & F). exact F.
Qed.

End Draws.

Lemma goal_table :
  forallb (fun m => forallb (fun n => goal_in_range n m) (py_range 800 1501)) MARKETS = true.
Proof. vm_compute. reflexivity. Qed.

(** X1. Every generated record has between 0 and 4 displays, between 0 and
    3 pods, between 0 and 2 voids, a brand of [BRANDS] and a rep of
    [REPS]. *)
Theorem generated_counts_and_choices (R : RandomSource) (s : rng_state R) :
  exists data st',
    _generate_sample_data R (fresh R s) = Ok (data, st')
    /\ Forall (fun r =>
          0 <= r.(displays) <= 4 /\ 0 <= r.(pods) <= 3 /\ 0 <= r.(voids) <= 2
          /\ In r.(brand) BRANDS /\ In r.(rep) REPS) data.
Proof.
  exists (dataset R s), (loaded R s).
  split; [exact (generate_proc_state R s false)|].
  eapply Forall_impl; [|apply dataset_draws].
  intros r (_ & H). exact H.
Qed.

(** X2. The goal of every generated record lies in the range of its
    market (Dallas 960..1800, Houston 880..1650, Austin 760..1425,
    San Antonio 680..1275, Fort Worth 720..1350), hence in 680..1800. *)
Theorem generated_goal_in_market_range (R : RandomSource) (s : rng_state R) :
  exists data st',
    _generate_sample_data R (fresh R s) = Ok (data, st')
    /\ Forall (fun r =>
          fst (goal_range r.(market)) <= r.(goal) <= snd (goal_range r.(market))
          /\ 680 <= r.(goal) <= 1800) data.
Proof.
  exists (dataset R s), (loaded R s).
  split; [exact (generate_proc_state R s false)|].
  pose proof (dataset_draws R s) as D. pose proof (dataset_in_table R s) as T.
  rewrite Forall_forall in *. intros r Hr.
  destruct (D r Hr) as ((n & Hn & Eg) & _). destruct (T r Hr) as (_ & Hm & _).
  pose proof (proj1 (forallb_forall _ _) goal_table _ Hm) as H1.
  pose proof (proj1 (forallb_forall _ _) H1 n (in_py_range 800 1501 n ltac:(lia))) as H2.
  unfold goal_in_range in H2. rewrite Eg in H2.
  apply andb_prop in H2 as [H2 H6]. apply andb_prop in H2 as [H2 H5].
  apply andb_prop in H2 as [H3 H4]. lia.
Qed.


(** ** How many records the filters keep *)

Lemma matches_key (wf : option Z) (mf : option string) (d : SalesRecord) :
  matches wf mf d = key_matches wf mf (record_key d).
Proof. reflexivity. Qed.

Lemma filter_key_length (g : Key -> bool) (data : list SalesRecord) :
  List.length (filter (fun d => g (record_key d)) data)
  = List.length (filter g (map record_key data)).
Proof.
  induction data as [|r data IH]; [reflexivity|].
  cbn [filter map]. destruct (g (record_key r)); cbn [List.length]; congruence.
Qed.

Lemma expected_counts :
  forallb (fun w =>
      Nat.eqb (List.length (filter (key_matches (Some w) None) expected_keys)) 175
      && forallb (fun m =>
           Nat.eqb (List.length (filter (key_matches (Some w) (Some m)) expected_keys)) 35)
           MARKETS)
    (py_range 1 9) = true
  /\ forallb (fun m =>
        Nat.eqb (List.length (filter (key_matches None (Some m)) expected_keys)) 280)
        MARKETS = true.
Proof. vm_compute. split; reflexivity. Qed.

Section Counts.

Variable R : RandomSource.
Variable s : rng_state R.
Variable warm : bool.

Lemma matches_length (wf : option Z) (mf : option string) :
  List.length (filter (matches wf mf) (dataset R s))
  = List.length (filter (key_matches wf mf) expected_keys).
Proof.
  destruct (generated_spec R s) as (_ & K & _). rewrite <- K.
  apply (filter_key_length (key_matches wf mf)).
Qed.

Lemma get_sales_call (wf : option Z) (mf : option string) :
  Main.get_sales R wf mf (proc_state R s warm)
  = Ok ({| Main.sr_data := filter (matches wf mf) (dataset R s);
           Main.sr_count := Z.of_nat (List.length (filter (matches wf mf) (dataset R s))) |},
        loaded R s).
Proof.
  unfold Main.get_sales. rewrite get_sales_data_call. cbn [bind].
  replace (filter_market mf (filter_week wf (dataset R s)))
    with (filter (matches wf mf) (dataset R s)); [reflexivity|].
  unfold matches, filter_market, filter_week.
  destruct wf as [w|], mf as [m|]; rewrite ?filter_and;
    try (apply filter_ext; intros d; rewrite ?andb_true_r; reflexivity).
  apply filter_all.
Qed.

Lemma matches_none (wf : option Z) (mf : option string) :
  (exists w, wf = Some w /\ ~ 1 <= w <= 8) \/ (exists m, mf = Some m /\ ~ In m MARKETS) ->
  filter (matches wf mf) (dataset R s) = [].
Proof.
  intros H. apply filter_none.
  eapply Forall_impl; [|apply (dataset_in_table R s)].
  intros r (Hw & Hm & _). unfold matches.
  destruct H as [(w & -> & N)|(m & -> & N)].
  - assert (E : (week r =? w) = false) by (apply Z.eqb_neq; lia). rewrite E. reflexivity.
  - assert (E : String.eqb (market r) m = false)
      by (apply String.eqb_neq; intros <-; contradiction).
    rewrite E. apply andb_false_r.
Qed.

End Counts.

(** X3. [get_sales] returns the records that match its filters and their
    number: 1400 without a filter, 175 for a week 1..8, 280 for a market,
    35 for a week and a market; a week outside 1..8 or a name that is not
    a market gives no record and the count 0. *)
Theorem get_sales_counts (R : RandomSource) (s : rng_state R) (warm : bool) :
  (forall wf mf, exists n,
     Main.get_sales R wf mf (proc_state R s warm)
     = Ok ({| Main.sr_data := filter (matches wf mf) (dataset R s);
              Main.sr_count := Z.of_nat n |}, loaded R s)
     /\ n = List.length (filter (matches wf mf) (dataset R s))
     /\ (wf = None -> mf = None -> n = 1400%nat)
     /\ (forall w, wf = Some w -> 1 <= w <= 8 -> mf = None -> n = 175%nat)
     /\ (forall m, wf = None -> mf = Some m -> In m MARKETS -> n = 280%nat)
     /\ (forall w m, wf = Some w -> 1 <= w <= 8 -> mf = Some m -> In m MARKETS ->
          n = 35%nat)
     /\ ((exists w, wf = Some w /\ ~ 1 <= w <= 8)
         \/ (exists m, mf = Some m /\ ~ In m MARKETS) ->
         n = 0%nat /\ filter (matches wf mf) (dataset R s) = [])).
Proof.
  intros wf mf. exists (List.length (filter (matches wf mf) (dataset R s))).
  split; [apply get_sales_call|]. split; [reflexivity|].
  destruct expected_counts as [Hw Hm].
  split; [|split; [|split; [|split]]].
  - intros -> ->. rewrite matches_length. vm_compute. reflexivity.
  - intros w -> Bw ->. rewrite matches_length.
    pose proof (proj1 (forallb_forall _ _) Hw w (in_py_range 1 9 w ltac:(lia))) as H.
    apply andb_prop in H as [H _]. apply Nat.eqb_eq in H. exact H.
  - intros m -> -> Im. rewrite matches_length.
    pose proof (proj1 (forallb_forall _ _) Hm m Im) as H.
    apply Nat.eqb_eq in H. exact H.
  - intros w m -> Bw -> Im. rewrite matches_length.
    pose proof (proj1 (forallb_forall _ _) Hw w (in_py_range 1 9 w ltac:(lia))) as H.
    apply andb_prop in H as [_ H].
    pose proof (proj1 (forallb_forall _ _) H m Im) as H'.
    apply Nat.eqb_eq in H'. exact H'.
  - intros H. rewrite (matches_none R s wf mf H). split; reflexivity.
Qed.

Lemma get_sales_counts_witness :
  exists n,
    Main.get_sales lcg (Some 3) (Some "Houston") (proc_state lcg 42 false)
    = Ok ({| Main.sr_data := filter (matches (Some 3) (Some "Houston")) (dataset lcg 42);
             Main.sr_count := Z.of_nat n |}, loaded lcg 42)
    /\ n = 35%nat.
Proof.
  destruct (get_sales_counts lcg 42 false (Some 3) (Some "Houston"))
    as (n & E & _ & _ & _ & _ & H & _).
  exists n. split; [exact E|].
  apply (H 3 "Houston"); [reflexivity | lia | reflexivity | simpl; auto].
Defined.

(** ** Totals across filters *)

Lemma py_sum_zeros {A : Type} (l : list A) : py_sum (map (fun _ => 0) l) = 0.
Proof. induction l as [|x l IH]; [reflexivity|]. cbn [map]. rewrite py_sum_cons, IH. lia. Qed.

Lemma py_sum_map_add {A : Type} (g h : A -> Z) (l : list A) :
  py_sum (map (fun x => g x + h x) l) = py_sum (map g l) + py_sum (map h l).
Proof.
  induction l as [|x l IH]; [reflexivity|]. cbn [map]. rewrite !py_sum_cons, IH. lia.
Qed.

Section Partition.

Context {K : Type} (key : SalesRecord -> K) (eqb : K -> K -> bool).
Hypothesis eqb_eq : forall a b, eqb a b = true <-> a = b.
Variable f : SalesRecord -> Z.

Lemma indicator_sum (x : K) (v : Z) (ks : list K) :
  NoDup ks -> In x ks -> py_sum (map (fun k => if eqb x k then v else 0) ks) = v.
Proof.
  induction 1 as [|k ks Hn N IH]; [contradiction|].
  cbn [map]. rewrite py_sum_cons. intros [->|I].
  - rewrite (proj2 (eqb_eq x x) eq_refl).
    rewrite (map_ext_in _ (fun _ => 0)), py_sum_zeros; [lia|].
    intros k Ik. destruct (eqb x k) eqn:E; [|reflexivity].
    apply eqb_eq in E. subst. contradiction.
  - rewrite IH by exact I. destruct (eqb x k) eqn:E; [|lia].
    apply eqb_eq in E. subst. contradiction.
Qed.

(** The sum over a list is the sum, over the values of a key, of the sums
    over the records with that value. *)
Lemma partition_sum (ks : list K) (l : list SalesRecord) :
  NoDup ks -> Forall (fun r => In (key r) ks) l ->
  py_sum (map f l)
  = py_sum (map (fun k => py_sum (map f (filter (fun r => eqb (key r) k) l))) ks).
Proof.
  intros N. induction 1 as [|r l Hr _ IH].
  - cbn [filter map]. rewrite py_sum_zeros. reflexivity.
  - cbn [map]. rewrite py_sum_cons, IH.
    rewrite <- (indicator_sum (key r) (f r) ks N Hr) at 1.
    rewrite <- py_sum_map_add. f_equal. apply map_ext. intros k. cbn [filter].
    destruct (eqb (key r) k); cbn [map]; rewrite ?py_sum_cons; lia.
Qed.

End Partition.

Lemma weeks_NoDup : NoDup (py_range 1 9).
Proof.
  change (py_range 1 9) with [1; 2; 3; 4; 5; 6; 7; 8].
  repeat (constructor; [cbn [In]; intuition lia|]). constructor.
Qed.

Lemma MARKETS_NoDup : NoDup MARKETS.
Proof. repeat (constructor; [cbn [In]; intuition discriminate|]). constructor. Qed.

Section Totals.

Variable R : RandomSource.
Variable s : rng_state R.

Lemma summary_at_call (warm : bool) (w : option Z) (ms : option (list string)) :
  get_summary_metrics R w ms (proc_state R s warm) = Ok (summary_at R s w ms, loaded R s).
Proof.
  rewrite get_summary_metrics_call. unfold summary_at.
  destruct (selected R s w ms) as [|r l] eqn:E; [reflexivity|].
  destruct (summarize_small (r :: l)) as (q & _ & H).
  - rewrite <- E. apply selected_small.
  - discriminate.
  - rewrite H. reflexivity.
Qed.

Lemma summary_at_totals (w : option Z) (ms : option (list string)) :
  total_sales (summary_at R s w ms) = py_sum (map sales_volume (selected R s w ms))
  /\ total_goal (summary_at R s w ms) = py_sum (map goal (selected R s w ms))
  /\ gap_to_goal (summary_at R s w ms)
     = total_goal (summary_at R s w ms) - total_sales (summary_at R s w ms).
Proof.
  unfold summary_at.
  destruct (selected R s w ms) as [|r l] eqn:E; [repeat split|].
  destruct (summarize_small (r :: l)) as (q & _ & H).
  - rewrite <- E. apply selected_small.
  - discriminate.
  - rewrite H. repeat split.
Qed.

Lemma selected_by_week (f : SalesRecord -> Z) (ms : option (list string)) :
  py_sum (map f (selected R s None ms))
  = py_sum (map (fun w => py_sum (map f (selected R s (Some w) ms))) (py_range 1 9)).
Proof.
  rewrite (partition_sum week Z.eqb Z.eqb_eq f (py_range 1 9)).
  - f_equal. apply map_ext. intros w. f_equal. f_equal.
    unfold selected. rewrite filter_and. apply filter_ext. intros d.
    unfold chosen. cbn [andb]. apply andb_comm.
  - exact weeks_NoDup.
  - apply Forall_forall. intros r Hr. apply filter_In in Hr as [Hr _].
    pose proof (proj1 (Forall_forall _ _) (dataset_in_table R s) r Hr) as (Hw & _).
    apply in_py_range. lia.
Qed.

Lemma selected_by_market (f : SalesRecord -> Z) (w : option Z) :
  py_sum (map f (selected R s w None))
  = py_sum (map (fun m => py_sum (map f (selected R s w (Some [m])))) MARKETS).
Proof.
  rewrite (partition_sum market String.eqb String.eqb_eq f MARKETS).
  - f_equal. apply map_ext. intros m. f_equal. f_equal.
    unfold selected. rewrite filter_and. apply filter_ext. intros d.
    unfold chosen, str_in. cbn [existsb]. rewrite orb_false_r, andb_true_r. reflexivity.
  - exact MARKETS_NoDup.
  - apply Forall_forall. intros r Hr. apply filter_In in Hr as [Hr _].
    pose proof (proj1 (Forall_forall _ _) (dataset_in_table R s) r Hr) as (_ & Hm & _).
    exact Hm.
Qed.

End Totals.

(** X4. The summary of one market is about the records [get_sales_data]
    returns for that market, and the summary without markets about those it
    returns without a market: same total sales, same total goal. *)
Theorem summary_matches_sales_data (R : RandomSource) (s : rng_state R) (warm : bool)
    (w : option Z) (m : option string) :
  exists summary data,
    get_summary_metrics R w (option_map (fun x => [x]) m) (proc_state R s warm)
    = Ok (summary, loaded R s)
    /\ get_sales_data R w m (proc_state R s warm) = Ok (data, loaded R s)
    /\ total_sales summary = py_sum (map sales_volume data)
    /\ total_goal summary = py_sum (map goal data).
Proof.
  exists (summary_at R s w (option_map (fun x => [x]) m)),
         (filter_market m (filter_week w (dataset R s))).
  split; [apply summary_at_call|]. split; [apply get_sales_data_call|].
  destruct (summary_at_totals R s w (option_map (fun x => [x]) m)) as (Hs & Hg & _).
  rewrite Hs, Hg.
  replace (selected R s w (option_map (fun x => [x]) m))
    with (filter_market m (filter_week w (dataset R s))); [split; reflexivity|].
  rewrite <- filters_selected. destruct m as [m|]; [|reflexivity].
  cbn [option_map filter_market filter_markets]. apply filter_ext. intros d.
  unfold str_in. cbn [existsb]. rewrite orb_false_r. reflexivity.
Qed.

(** X5. The totals of the summary of all weeks are the sums of the totals
    of the summaries of the weeks 1..8, for any markets; the totals of the
    summary of all markets are the sums of the totals of the summaries of
    the five markets, for any week. *)
Theorem summary_totals_add_up (R : RandomSource) (s : rng_state R) (warm : bool) :
  (forall w ms,
     get_summary_metrics R w ms (proc_state R s warm)
     = Ok (summary_at R s w ms, loaded R s))
  /\ (forall ms,
        total_sales (summary_at R s None ms)
        = py_sum (map (fun w => total_sales (summary_at R s (Some w) ms)) (py_range 1 9))
        /\ total_goal (summary_at R s None ms)
           = py_sum (map (fun w => total_goal (summary_at R s (Some w) ms)) (py_range 1 9)))
  /\ (forall w,
        total_sales (summary_at R s w None)
        = py_sum (map (fun m => total_sales (summary_at R s w (Some [m]))) MARKETS)
        /\ total_goal (summary_at R s w None)
           = py_sum (map (fun m => total_goal (summary_at R s w (Some [m]))) MARKETS)).
Proof.
  split; [intros w ms; apply summary_at_call|]. split.
  - intros ms. destruct (summary_at_totals R s None ms) as (Hs & Hg & _).
    rewrite Hs, Hg, !selected_by_week. split; f_equal; apply map_ext; intros w;
      destruct (summary_at_totals R s (Some w) ms) as (Hs' & Hg' & _); congruence.
  - intros w. destruct (summary_at_totals R s w None) as (Hs & Hg & _).
    rewrite Hs, Hg, !selected_by_market. split; f_equal; apply map_ext; intros m;
      destruct (summary_at_totals R s w (Some [m])) as (Hs' & Hg' & _); congruence.
Qed.

(** ** The territory summary and the summary *)

Lemma entries_sum (f : SalesRecord -> Z) (g : Territory -> Z)
    (data : list SalesRecord) (result : list Territory) :
  Forall (fun e => g e = py_sum (map f (of_market (tr_market e) data))) result ->
  NoDup (map tr_market result) ->
  (forall m, In m (map market data) -> In m (map tr_market result)) ->
  py_sum (map g result) = py_sum (map f data).
Proof.
  intros F N C.
  rewrite (partition_sum market String.eqb String.eqb_eq f (map tr_market result) data N).
  - rewrite map_map. f_equal. apply map_ext_in. intros e He.
    exact (proj1 (Forall_forall _ _) F e He).
  - apply Forall_forall. intros r Hr. apply C. apply in_map. exact Hr.
Qed.

(** X6. The sales and the goals of the entries of the territory summary
    add up to the total sales and the total goal of the summary of the same
    week without markets. *)
Theorem territory_adds_up_to_summary (R : RandomSource) (s : rng_state R) (warm : bool)
    (w : option Z) :
  exists result summary,
    get_territory_summary R w (proc_state R s warm) = Ok (result, loaded R s)
    /\ get_summary_metrics R w None (proc_state R s warm) = Ok (summary, loaded R s)
    /\ py_sum (map tr_sales result) = total_sales summary
    /\ py_sum (map tr_goal result) = total_goal summary.
Proof.
  destruct (territory_of_spec (filter_week w (dataset R s))) as (result & E & N & M & F & _);
    [apply filter_week_small, dataset_small|].
  exists result, (summary_at R s w None).
  split; [rewrite get_territory_summary_call, E; reflexivity|].
  split; [apply summary_at_call|].
  destruct (summary_at_totals R s w None) as (Hs & Hg & _). rewrite Hs, Hg.
  rewrite <- (filters_selected R s w None). cbn [filter_markets].
  split; apply entries_sum; try exact N; try (intros m; apply M);
    (eapply Forall_impl; [|exact F]); intros e (H1 & H2 & _); assumption.
Qed.

(** X7. For a week 1..8 the territory summary has five entries, one for
    each market; for any other week it is empty. *)
Theorem territory_summary_of_week (R : RandomSource) (s : rng_state R) (warm : bool)
    (w : Z) :
  (1 <= w <= 8 ->
   exists result,
     get_territory_summary R (Some w) (proc_state R s warm) = Ok (result, loaded R s)
     /\ List.length result = 5%nat
     /\ Permutation (map tr_market result) MARKETS)
  /\ (~ 1 <= w <= 8 ->
      get_territory_summary R (Some w) (proc_state R s warm) = Ok ([], loaded R s)).
Proof.
  split.
  - intros Hw.
    destruct (territory_of_spec (filter_week (Some w) (dataset R s)))
      as (result & E & N & M & _); [apply filter_week_small, dataset_small|].
    exists result. split; [rewrite get_territory_summary_call, E; reflexivity|].
    assert (P : Permutation (map tr_market result) MARKETS).
    { apply NoDup_Permutation; [exact N | exact MARKETS_NoDup|].
      intros m. rewrite M. split.
      - intros I. apply in_map_iff in I as (r & <- & Hr).
        apply filter_In in Hr as [Hr _].
        exact (proj1 (proj2 (proj1 (Forall_forall _ _) (dataset_in_table R s) r Hr))).
      - apply week_market_present. exact Hw. }
    split; [|exact P].
    rewrite <- (length_map tr_market), (Permutation_length P). reflexivity.
  - intros Hw. rewrite get_territory_summary_call.
    pose proof (selected_week_absent R s w None Hw) as E.
    rewrite <- filters_selected in E. cbn [filter_markets] in E. rewrite E. reflexivity.
Qed.

Lemma territory_summary_of_week_witness :
  get_territory_summary lcg (Some 12) (proc_state lcg 42 false) = Ok ([], loaded lcg 42)
  /\ exists result,
       get_territory_summary lcg (Some 4) (proc_state lcg 42 false)
       = Ok (result, loaded lcg 42)
       /\ List.length result = 5%nat.
Proof.
  split.
  - apply (proj2 (territory_summary_of_week lcg 42 false 12)). lia.
  - destruct (proj1 (territory_summary_of_week lcg 42 false 4)) as (result & E & L & _);
      [lia|].
    exists result. split; [exact E | exact L].
Defined.


(** ** The daily trend, day by day *)

Lemma compare_lt_trans (a b c : string) :
  String.compare a b = Lt -> String.compare b c = Lt -> String.compare a c = Lt.
Proof.
  revert b c. induction a as [|x a IH]; intros [|y b] [|z c]; cbn [String.compare];
    try discriminate; try reflexivity.
  unfold Ascii.compare.
  destruct (N.compare_spec (N_of_ascii x) (N_of_ascii y)) as [E1|E1|E1];
    destruct (N.compare_spec (N_of_ascii y) (N_of_ascii z)) as [E2|E2|E2];
    destruct (N.compare_spec (N_of_ascii x) (N_of_ascii z)) as [E3|E3|E3];
    try discriminate; try reflexivity; try (exfalso; lia).
  apply IH.
Qed.

Lemma str_lt_trans (a b c : string) :
  str_lt a b = true -> str_lt b c = true -> str_lt a c = true.
Proof.
  unfold str_lt. intros H1 H2.
  rewrite (compare_lt_trans a b c); [reflexivity| |].
  - destruct (String.compare a b); congruence.
  - destruct (String.compare b c); congruence.
Qed.

Lemma increasing_Sorted (l : list string) :
  increasing l = true -> StronglySorted (fun a b => str_lt a b = true) l.
Proof.
  intros H. apply Sorted_StronglySorted.
  - intros a b c. apply str_lt_trans.
  - induction l as [|a l IH]; [constructor|].
    destruct l as [|b l]; [repeat constructor|].
    cbn [increasing] in H. apply andb_prop in H as [H1 H2].
    constructor; [apply IH; exact H2 | constructor; exact H1].
Qed.

(** Two increasing lists with the same elements are equal. *)
Lemma increasing_unique (l1 l2 : list string) :
  StronglySorted (fun a b => str_lt a b = true) l1 ->
  StronglySorted (fun a b => str_lt a b = true) l2 ->
  (forall x, In x l1 <-> In x l2) -> l1 = l2.
Proof.
  intros S1. revert l2. induction S1 as [|a l1 S1 IH F1]; intros l2 S2 H.
  - destruct l2 as [|b l2]; [reflexivity|].
    exfalso. apply (proj2 (H b)). left. reflexivity.
  - destruct S2 as [|b l2 S2 F2].
    + exfalso. apply (proj1 (H a)). left. reflexivity.
    + rewrite Forall_forall in F1, F2.
      assert (Hab : a = b).
      { destruct (proj1 (H a) (or_introl eq_refl)) as [E|Ia]; [congruence|].
        destruct (proj2 (H b) (or_introl eq_refl)) as [E|Ib]; [congruence|].
        pose proof (F1 b Ib) as L1. pose proof (F2 a Ia) as L2.
        apply str_lt_asym in L1. congruence. }
      subst b. f_equal. apply IH; [exact S2|].
      assert (Na : forall l, (forall x, In x l -> str_lt a x = true) -> ~ In a l).
      { intros l Hl Ia. specialize (Hl a Ia).
        pose proof (str_lt_asym a a Hl). congruence. }
      intros x. split; intros I.
      * destruct (proj1 (H x) (or_intror I)) as [E|I']; [|exact I'].
        subst x. exfalso. exact (Na l1 F1 I).
      * destruct (proj2 (H x) (or_intror I)) as [E|I']; [|exact I'].
        subst x. exfalso. exact (Na l2 F2 I).
Qed.

Lemma on_date_absent (k : string) (l : list SalesRecord) :
  str_in k (map date l) = false -> on_date k l = [].
Proof.
  unfold on_date, str_in. induction l as [|r l IH]; cbn [map existsb filter]; [reflexivity|].
  intros H. apply orb_false_elim in H as [H1 H2].
  rewrite String.eqb_sym, H1. apply IH. exact H2.
Qed.

Lemma add_to_date_daily (d : dict Z) (l : list SalesRecord) (r : SalesRecord) :
  daily_inv d l -> daily_inv (add_to_date d r) (l ++ [r]).
Proof.
  intros [N G]. split; [apply (add_to_date_inv d r N)|].
  intros k. unfold add_to_date. rewrite dict_get_update, map_app. cbn [map].
  rewrite str_in_snoc. unfold on_date. rewrite filter_app. cbn [filter].
  fold (on_date k l).
  destruct (String.eqb (date r) k) eqn:E.
  - apply String.eqb_eq in E. subst k. rewrite orb_true_r.
    rewrite map_app, py_sum_app. cbn [map]. rewrite py_sum_cons.
    destruct (dict_contains d (date r)) eqn:C.
    + unfold dict_contains in C. rewrite G in *.
      destruct (str_in (date r) (map date l)); [|discriminate].
      cbn [option_map]. f_equal. cbn. lia.
    + rewrite dict_get_set, String.eqb_refl.
      unfold dict_contains in C. rewrite G in C.
      destruct (str_in (date r) (map date l)) eqn:S; [discriminate|].
      rewrite (on_date_absent _ _ S). cbn [option_map map]. f_equal. cbn. lia.
  - rewrite orb_false_r, app_nil_r.
    destruct (dict_contains d (date r)); [apply G|].
    rewrite dict_get_set, E. apply G.
Qed.

Lemma daily_totals_daily (l : list SalesRecord) : daily_inv (fold_left add_to_date l []) l.
Proof.
  induction l as [|r l IH] using rev_ind.
  - split; [constructor | reflexivity].
  - rewrite fold_left_app. cbn [fold_left]. apply add_to_date_daily. exact IH.
Qed.

Lemma trend_of_entries (data : list SalesRecord) :
  NoDup (map tp_date (trend_of data))
  /\ (forall k, In k (map tp_date (trend_of data)) <-> In k (map date data))
  /\ Forall (fun p => tp_sales p = py_sum (map sales_volume (on_date (tp_date p) data)))
       (trend_of data).
Proof.
  destruct (daily_totals_daily data) as [N G]. unfold trend_of.
  set (d := fold_left add_to_date data []) in *.
  pose proof (py_sorted_perm item_lt d) as P.
  assert (Pk : Permutation (map fst (py_sorted item_lt d)) (map fst d))
    by (apply Permutation_map; exact P).
  rewrite map_map. cbn [tp_date].
  split; [apply (Permutation_NoDup (Permutation_sym Pk)); exact N|]. split.
  - intros k. specialize (G k). split; intros I.
    + apply (Permutation_in _ Pk) in I. apply dict_contains_In in I.
      unfold dict_contains in I. rewrite G in I.
      destruct (str_in k (map date data)) eqn:Sk; [|discriminate].
      apply str_in_In. exact Sk.
    + apply str_in_In in I. apply (Permutation_in _ (Permutation_sym Pk)).
      apply dict_contains_In. unfold dict_contains. rewrite G, I. reflexivity.
  - apply Forall_forall. intros p Hp. apply in_map_iff in Hp as ([k v] & <- & Hi).
    cbn [tp_date tp_sales fst snd].
    apply (Permutation_in _ P) in Hi.
    pose proof (dict_get_In d k v N Hi) as E. rewrite G in E.
    destruct (str_in k (map date data)); [|discriminate]. congruence.
Qed.

(** X8. The daily trend has one entry for each date of the filtered
    records, and the sales of an entry are the sum of the sales volumes of
    the filtered records of its date. *)
Theorem daily_trend_day_by_day (R : RandomSource) (s : rng_state R) (warm : bool)
    (w : option Z) (ms : option (list string)) :
  exists trend,
    get_daily_trend R w ms (proc_state R s warm) = Ok (trend, loaded R s)
    /\ NoDup (map tp_date trend)
    /\ (forall k, In k (map tp_date trend) <-> In k (map date (selected R s w ms)))
    /\ Forall (fun p =>
          tp_sales p = py_sum (map sales_volume (on_date (tp_date p) (selected R s w ms))))
         trend.
Proof.
  exists (trend_of (selected R s w ms)).
  split; [apply get_daily_trend_call | apply trend_of_entries].
Qed.

(** ** The daily trend and the calendar *)

Lemma all_days :
  flat_map (fun w => map (day_string w) (py_range 0 7)) (py_range 1 9) = day_strings None.
Proof. vm_compute. reflexivity. Qed.

Lemma days_increasing :
  forallb (fun w => increasing (day_strings (Some w))) (py_range 1 9) = true
  /\ increasing (day_strings None) = true.
Proof. vm_compute. split; reflexivity. Qed.

Lemma day_strings_sorted (wf : option Z) :
  week_known wf -> StronglySorted (fun a b => str_lt a b = true) (day_strings wf).
Proof.
  intros H. apply increasing_Sorted. destruct days_increasing as [Hw Hall].
  destruct wf as [w|]; [|exact Hall].
  cbn [week_known] in H.
  exact (proj1 (forallb_forall _ _) Hw w (in_py_range 1 9 w ltac:(lia))).
Qed.

Section Calendar.

Variable R : RandomSource.
Variable s : rng_state R.

Lemma record_of_key (w d : Z) (m a : string) :
  1 <= w <= 8 -> In m MARKETS -> In a ACCOUNTS -> 0 <= d < 7 ->
  exists r, In r (dataset R s)
    /\ r.(week) = w /\ r.(market) = m /\ r.(date) = day_string w d.
Proof.
  intros Hw Hm Ha Hd.
  pose proof (dataset_count_key R s w d m a Hw Hm Ha Hd) as C.
  unfold count_key in C.
  destruct (filter (fun r => key_eqb (w, m, a, day_string w d) (record_key r))
              (dataset R s)) as [|r l] eqn:E; [discriminate|].
  assert (Hr : In r (r :: l)) by (left; reflexivity).
  rewrite <- E in Hr. apply filter_In in Hr as [Hr Hk].
  unfold key_eqb, record_key in Hk.
  destruct (w =? week r) eqn:E1; [|discriminate].
  destruct (String.eqb m (market r)) eqn:E2; [|discriminate].
  destruct (String.eqb a (account r)) eqn:E3; [|discriminate].
  apply Z.eqb_eq in E1. apply String.eqb_eq in E2. apply String.eqb_eq in Hk.
  exists r. auto.
Qed.

Lemma selected_dates (wf : option Z) (ms : option (list string)) (k : string) :
  week_known wf -> market_known ms ->
  In k (map date (selected R s wf ms)) <-> In k (day_strings wf).
Proof.
  intros Hw Hm. split.
  - intros I. apply in_map_iff in I as (r & <- & Hr).
    apply filter_In in Hr as [Hr Hc].
    pose proof (proj1 (Forall_forall _ _) (dataset_in_table R s) r Hr)
      as (Bw & _ & _ & d & Bd & ->).
    destruct wf as [w|].
    + unfold chosen in Hc. apply andb_prop in Hc as [Hc _]. apply Z.eqb_eq in Hc.
      rewrite Hc. apply in_map. apply in_py_range. exact Bd.
    + rewrite <- all_days. apply in_flat_map. exists (week r).
      split; [apply in_py_range; lia|]. apply in_map. apply in_py_range. exact Bd.
  - intros I.
    assert (Hk : exists w d, 1 <= w <= 8 /\ 0 <= d < 7 /\ k = day_string w d
                             /\ match wf with Some w' => w = w' | None => True end).
    { destruct wf as [w|].
      - apply in_map_iff in I as (d & <- & Hd). apply in_py_range_inv in Hd.
        exists w, d. auto.
      - rewrite <- all_days in I. apply in_flat_map in I as (w & Iw & I).
        apply in_map_iff in I as (d & <- & Hd).
        apply in_py_range_inv in Iw. apply in_py_range_inv in Hd.
        exists w, d. repeat split; lia. }
    destruct Hk as (w & d & Bw & Bd & -> & Hwf).
    assert (Hx : exists x, In x MARKETS
                 /\ match ms with Some (m :: l) => str_in x (m :: l) | _ => true end = true).
    { destruct ms as [[|m l]|].
      - exists "Austin". split; [left; reflexivity | reflexivity].
      - destruct Hm as (x & Ix & Mx). exists x. split; [exact Mx|].
        apply str_in_In. exact Ix.
      - exists "Austin". split; [left; reflexivity | reflexivity]. }
    destruct Hx as (x & Mx & Cx).
    destruct (record_of_key w d x "Kroger" Bw Mx ltac:(cbn; auto) Bd)
      as (r & Hr & E1 & E2 & E3).
    rewrite <- E3. apply in_map. apply filter_In. split; [exact Hr|].
    unfold chosen. apply andb_true_intro. split.
    + destruct wf as [w'|]; [|reflexivity]. apply Z.eqb_eq. congruence.
    + rewrite E2. exact Cx.
Qed.

End Calendar.

(** X9. For a week 1..8, or no week, and markets of which one is a market
    of the data, or no markets, the dates of the daily trend are the days
    of the week, respectively the 56 days from 2026-01-01 on, in the order
    of the calendar.  For any other week, or markets none of which is a
    market of the data, the trend is empty. *)
Theorem daily_trend_calendar (R : RandomSource) (s : rng_state R) (warm : bool)
    (w : option Z) (ms : option (list string)) :
  (week_known w -> market_known ms ->
   exists trend,
     get_daily_trend R w ms (proc_state R s warm) = Ok (trend, loaded R s)
     /\ map tp_date trend = day_strings w
     /\ List.length trend = match w with Some _ => 7%nat | None => 56%nat end)
  /\ (~ week_known w \/ ~ market_known ms ->
      get_daily_trend R w ms (proc_state R s warm) = Ok ([], loaded R s)).
Proof.
  rewrite get_daily_trend_call. split.
  - intros Hw Hm. exists (trend_of (selected R s w ms)). split; [reflexivity|].
    destruct (trend_of_spec (selected R s w ms)) as [Hs _].
    destruct (trend_of_entries (selected R s w ms)) as (_ & Hk & _).
    assert (E : map tp_date (trend_of (selected R s w ms)) = day_strings w).
    { apply increasing_unique.
      - apply Sorted_StronglySorted; [intros a b c; apply str_lt_trans|].
        apply Sorted_map. exact Hs.
      - apply day_strings_sorted. exact Hw.
      - intros k. rewrite Hk. apply selected_dates; assumption. }
    split; [exact E|].
    rewrite <- (length_map tp_date), E. destruct w; reflexivity.
  - intros H. replace (selected R s w ms) with (@nil SalesRecord); [reflexivity|].
    symmetry. destruct H as [H|H].
    + destruct w as [w|]; [|exfalso; apply H; exact I].
      apply selected_week_absent. exact H.
    + destruct ms as [[|m l]|]; try (exfalso; apply H; exact I).
      apply selected_markets_absent. intros x Ix Mx. apply H. exists x. auto.
Qed.

Lemma daily_trend_calendar_witness :
  exists trend,
    get_daily_trend lcg (Some 5) (Some ["Paris"; "Dallas"]) (proc_state lcg 42 false)
    = Ok (trend, loaded lcg 42)
    /\ map tp_date trend
       = ["2026-01-29"; "2026-01-30"; "2026-01-31"; "2026-02-01"; "2026-02-02";
          "2026-02-03"; "2026-02-04"].
Proof.
  destruct (proj1 (daily_trend_calendar lcg 42 false (Some 5) (Some ["Paris"; "Dallas"])))
    as (trend & E & D & _).
  - cbn. lia.
  - exists "Dallas". split; cbn; auto.
  - exists trend. split; [exact E|]. rewrite D. vm_compute. reflexivity.
Defined.


(** ** The weeks on offer *)

(** X10. A week is in the list of [get_available_weeks] exactly when
    [get_sales_data] has records for it. *)
Theorem available_week_has_records (R : RandomSource) (s : rng_state R) (warm : bool)
    (w : Z) :
  exists weeks data,
    get_available_weeks R (proc_state R s warm) = Ok (weeks, loaded R s)
    /\ get_sales_data R (Some w) None (proc_state R s warm) = Ok (data, loaded R s)
    /\ (In w weeks <-> data <> []).
Proof.
  exists (weeks_of (dataset R s)), (filter (fun d => week d =? w) (dataset R s)).
  split; [apply get_available_weeks_call|]. split; [apply get_sales_data_call|].
  rewrite (proj2 (weeks_of_spec (dataset R s)) w). split.
  - intros I N. apply in_map_iff in I as (r & E & Hr).
    assert (Hin : In r (filter (fun d => week d =? w) (dataset R s)))
      by (apply filter_In; split; [exact Hr | apply Z.eqb_eq; exact E]).
    rewrite N in Hin. contradiction.
  - intros N. destruct (filter (fun d => week d =? w) (dataset R s)) as [|r l] eqn:E;
      [contradiction|].
    assert (Hr : In r (r :: l)) by (left; reflexivity).
    rewrite <- E in Hr. apply filter_In in Hr as [Hr Hw]. apply Z.eqb_eq in Hw.
    apply in_map_iff. exists r. auto.
Qed.

(** ** The markets of a query string *)

Lemma split_on_not_nil (sep : ascii) (s : string) : split_on sep s <> [].
Proof.
  destruct s as [|c s]; cbn [split_on]; [discriminate|].
  destruct (Ascii.eqb c sep); [discriminate|].
  destruct (split_on sep s); discriminate.
Qed.

Lemma split_on_plain (sep : ascii) (x : string) :
  has_char sep x = false -> split_on sep x = [x].
Proof.
  unfold has_char. induction x as [|c x IH]; cbn [split_on list_ascii_of_string existsb];
    [reflexivity|].
  intros H. apply orb_false_elim in H as [H1 H2].
  rewrite Ascii.eqb_sym, H1, (IH H2). reflexivity.
Qed.

Lemma split_on_app (sep : ascii) (x rest : string) :
  has_char sep x = false ->
  split_on sep (String.append x (String sep rest)) = x :: split_on sep rest.
Proof.
  unfold has_char.
  induction x as [|c x IH]; cbn [split_on String.append list_ascii_of_string existsb].
  - intros _. rewrite Ascii.eqb_refl. reflexivity.
  - intros H. apply orb_false_elim in H as [H1 H2].
    rewrite Ascii.eqb_sym, H1, (IH H2). reflexivity.
Qed.

Lemma split_on_join (sep : ascii) (xs : list string) :
  xs <> [] -> Forall (fun x => has_char sep x = false) xs ->
  split_on sep (join_with sep xs) = xs.
Proof.
  intros N F. induction F as [|x xs Hx F IH]; [contradiction|].
  destruct xs as [|y xs].
  - cbn [join_with]. apply split_on_plain. exact Hx.
  - change (join_with sep (x :: y :: xs))
      with (String.append x (String sep (join_with sep (y :: xs)))).
    rewrite (split_on_app sep x _ Hx), IH by discriminate. reflexivity.
Qed.

Lemma has_char_app (c : ascii) (a b : string) :
  has_char c (String.append a b) = has_char c a || has_char c b.
Proof.
  unfold has_char. induction a as [|x a IH]; cbn [String.append list_ascii_of_string existsb];
    [reflexivity|].
  rewrite IH, orb_assoc. reflexivity.
Qed.

Lemma blank_no_comma (s : string) : blank s = true -> has_char "," s = false.
Proof.
  unfold blank, has_char.
  induction s as [|c s IH]; cbn [list_ascii_of_string forallb existsb]; [reflexivity|].
  intros H. apply andb_prop in H as [H1 H2]. rewrite (IH H2), orb_false_r.
  destruct (Ascii.eqb "," c) eqn:E; [|reflexivity].
  apply Ascii.eqb_eq in E. subst c. discriminate.
Qed.

Lemma lstrip_blank_app (l t : string) :
  blank l = true -> lstrip (String.append l t) = lstrip t.
Proof.
  unfold blank. induction l as [|c l IH]; cbn [String.append list_ascii_of_string forallb];
    [reflexivity|].
  intros H. apply andb_prop in H as [H1 H2]. cbn [lstrip]. rewrite H1. apply IH. exact H2.
Qed.

Lemma rstrip_blank (r : string) : blank r = true -> rstrip r = EmptyString.
Proof.
  unfold blank. induction r as [|c r IH]; cbn [list_ascii_of_string forallb rstrip];
    [reflexivity|].
  intros H. apply andb_prop in H as [H1 H2]. rewrite (IH H2), H1. reflexivity.
Qed.

Lemma rstrip_app_blank (x r : string) :
  blank r = true -> rstrip (String.append x r) = rstrip x.
Proof.
  intros H. induction x as [|c x IH]; cbn [String.append].
  - rewrite (rstrip_blank r H). reflexivity.
  - cbn [rstrip]. rewrite IH. reflexivity.
Qed.

Lemma strip_padded (f : string * string * string) :
  well_padded f = true ->
  strip (padded f) = padded_name f /\ has_char "," (padded f) = false.
Proof.
  destruct f as [[l n] r]. unfold well_padded, padded, padded_name.
  intros H. apply andb_prop in H as [H Hr]. apply andb_prop in H as [Hl Hn].
  destruct n as [|c n]; [discriminate|]. unfold clean_name in Hn.
  apply andb_prop in Hn as [Hn Hc]. apply andb_prop in Hn as [Hs He].
  apply String.eqb_eq in He. apply negb_true_iff in Hs. apply negb_true_iff in Hc.
  split.
  - unfold strip. rewrite (lstrip_blank_app l _ Hl).
    cbn [String.append lstrip]. rewrite Hs.
    change (String c (String.append n r)) with (String.append (String c n) r).
    rewrite (rstrip_app_blank _ r Hr). exact He.
  - rewrite !has_char_app, (blank_no_comma l Hl), (blank_no_comma r Hr), Hc. reflexivity.
Qed.

(** X11. A list of names, each with white space around it, joined by
    commas, is read back by the handlers as the list of the names. *)
Theorem market_list_round_trip (fields : list (string * string * string)) :
  fields <> [] -> forallb well_padded fields = true ->
  ascii_text (join_with "," (map padded fields)) = true ->
  Main.market_list (Some (join_with "," (map padded fields)))
  = Some (map padded_name fields).
Proof.
  intros N W _.
  assert (F : Forall (fun f => strip (padded f) = padded_name f
                               /\ has_char "," (padded f) = false) fields).
  { apply Forall_forall. intros f Hf. apply strip_padded.
    exact (proj1 (forallb_forall _ _) W f Hf). }
  assert (S : split_on "," (join_with "," (map padded fields)) = map padded fields).
  { apply split_on_join.
    - destruct fields; [contradiction | discriminate].
    - apply Forall_map. eapply Forall_impl; [|exact F]. intros f [_ H]. exact H. }
  assert (E : join_with "," (map padded fields) <> EmptyString).
  { destruct fields as [|[[l n] r] fields]; [contradiction|].
    pose proof (proj1 (forallb_forall _ _) W (l, n, r) (or_introl eq_refl)) as H.
    unfold well_padded in H. apply andb_prop in H as [H _]. apply andb_prop in H as [_ H].
    destruct n as [|c n]; [discriminate|].
    cbn [map padded join_with]. destruct (map padded fields);
      destruct l; discriminate. }
  unfold Main.market_list.
  destruct (join_with "," (map padded fields)) as [|c rest] eqn:J; [contradiction|].
  rewrite S, map_map. f_equal. apply map_ext_in. intros f Hf.
  exact (proj1 (proj1 (Forall_forall _ _) F f Hf)).
Qed.

Lemma market_list_round_trip_witness :
  Main.market_list (Some " Dallas ,San Antonio,  Fort Worth")
  = Some ["Dallas"; "San Antonio"; "Fort Worth"].
Proof.
  apply (market_list_round_trip
           [(" ", "Dallas", " "); (EmptyString, "San Antonio", EmptyString);
            ("  ", "Fort Worth", EmptyString)]);
    [discriminate | reflexivity | reflexivity].
Defined.


(** ** Query strings that name no market *)

Section Unknown.

Variable R : RandomSource.
Variable s : rng_state R.
Variable warm : bool.

Lemma download_sales_call (w : option Z) (markets : option string) :
  Main.download_sales R w markets (proc_state R s warm)
  = Ok (match selected R s w (Main.market_list markets) with
        | [] => {| Main.dl_body := EmptyString; Main.dl_attachment := false |}
        | _ :: _ =>
            {| Main.dl_body :=
                 fold_left (fun out row => String.append out (csv_row (csv_cells row)))
                   (selected R s w (Main.market_list markets)) (csv_row fieldnames);
               Main.dl_attachment := true |}
        end, loaded R s).
Proof.
  unfold Main.download_sales. rewrite get_sales_data_call. cbn [bind filter_market].
  rewrite <- (filters_selected R s w (Main.market_list markets)).
  unfold filter_markets.
  destruct (Main.market_list markets) as [[|m ms]|];
    match goal with |- context [match ?l with [] => _ | _ :: _ => _ end] =>
      destruct l; reflexivity end.
Qed.

End Unknown.

(** X12. A query string of markets that is not empty always is a filter:
    it is read as at least one name.  When none of its names is a market
    (white space only, a lone comma, a misspelt name), the summary is all
    zeros, the trend is empty, and the export is an empty body without the
    attachment header. *)
Theorem unknown_markets_select_nothing (R : RandomSource) (s : rng_state R) (warm : bool)
    (w : option Z) (c : ascii) (m : string) :
  ascii_text (String c m) = true ->
  exists name names,
    Main.market_list (Some (String c m)) = Some (name :: names)
    /\ ((forall x, In x (name :: names) -> ~ In x MARKETS) ->
        Main.get_summary R w (Some (String c m)) (proc_state R s warm)
        = Ok (zero_summary, loaded R s)
        /\ Main.get_trend R w (Some (String c m)) (proc_state R s warm)
           = Ok ([], loaded R s)
        /\ Main.download_sales R w (Some (String c m)) (proc_state R s warm)
           = Ok ({| Main.dl_body := EmptyString; Main.dl_attachment := false |},
                 loaded R s)).
Proof.
  intros _.
  assert (H : exists name names,
             Main.market_list (Some (String c m)) = Some (name :: names)).
  { unfold Main.market_list.
    pose proof (split_on_not_nil "," (String c m)) as N.
    destruct (split_on "," (String c m)) as [|x xs]; [contradiction|].
    exists (strip x), (map strip xs). reflexivity. }
  destruct H as (name & names & E). exists name, names. split; [exact E|].
  intros U. pose proof (selected_markets_absent R s w name names U) as Z.
  unfold Main.get_summary, Main.get_trend.
  rewrite download_sales_call, get_summary_metrics_call, get_daily_trend_call, E, Z.
  repeat split.
Qed.

Lemma unknown_markets_select_nothing_witness :
  Main.get_summary lcg None (Some " , dallas") (proc_state lcg 42 false)
  = Ok (zero_summary, loaded lcg 42).
Proof.
  destruct (unknown_markets_select_nothing lcg 42 false None " " ", dallas")
    as (name & names & E & H); [reflexivity|].
  apply H. injection E as <- <-.
  cbn [In MARKETS]. intros x [<-|[<-|[]]]; intuition discriminate.
Defined.

(** ** The export *)












(** ** Attainments are finite *)

Lemma attainment_value (sales goal : Z) (q : float) :
  0 < sales < 2 ^ 34 -> 0 < goal < 2 ^ 34 -> py_truediv sales goal = Ok q ->
  nonneg_finite (float_round (fmul q (float_of_Z 100)) 1) = true.
Proof.
  intros Hs Hg E. destruct (py_truediv_ok sales goal Hs Hg) as (q' & E' & B).
  rewrite E in E'. injection E' as <-. apply attainment_nonneg. exact B.
Qed.

(** X14. The attainment of a summary of at least one record, and of every
    entry of a territory summary, is a float that is zero or positive and
    finite: never infinite, never not-a-number. *)
Theorem attainments_finite (R : RandomSource) (s : rng_state R) (warm : bool)
    (w : option Z) :
  (forall ms, selected R s w ms <> [] ->
     exists summary f,
       get_summary_metrics R w ms (proc_state R s warm) = Ok (summary, loaded R s)
       /\ attainment summary = PFloat f /\ nonneg_finite f = true)
  /\ (exists result,
        get_territory_summary R w (proc_state R s warm) = Ok (result, loaded R s)
        /\ Forall (fun e => exists f, tr_attainment e = PFloat f
                                      /\ nonneg_finite f = true) result).
Proof.
  split.
  - intros ms N. pose proof (selected_small R s w ms) as S.
    destruct (small_sums _ S N) as [Hs Hg].
    destruct (summarize_small _ S N) as (q & E & H).
    eexists. eexists. rewrite get_summary_metrics_call, H. cbn [bind].
    split; [reflexivity|]. split; [reflexivity|].
    exact (attainment_value _ _ q Hs Hg E).
  - pose proof (filter_week_small w _ (dataset_small R s)) as S.
    destruct (territory_of_spec (filter_week w (dataset R s)) S) as (result & E & _ & _ & F & _).
    exists result. split; [rewrite get_territory_summary_call, E; reflexivity|].
    eapply Forall_impl; [|exact F].
    intros e (H1 & H2 & Hg & q & Eq & Ha).
    exists (float_round (fmul q (float_of_Z 100)) 1). split; [exact Ha|].
    assert (N : of_market (tr_market e) (filter_week w (dataset R s)) <> []).
    { intros Z. rewrite Z in H2. cbn in H2. lia. }
    destruct (small_sums (of_market (tr_market e) (filter_week w (dataset R s)))
                (small_filter _ _ S) N) as [Bs Bg].
    rewrite <- H1 in Bs. rewrite <- H2 in Bg.
    exact (attainment_value _ _ q Bs Bg Eq).
Qed.

Lemma attainments_finite_witness :
  exists summary f,
    get_summary_metrics lcg (Some 7) (Some ["Fort Worth"]) (proc_state lcg 42 true)
    = Ok (summary, loaded lcg 42)
    /\ attainment summary = PFloat f /\ nonneg_finite f = true.
Proof.
  apply (proj1 (attainments_finite lcg 42 true (Some 7)) (Some ["Fort Worth"])).
  apply (selected_nonempty lcg 42 7 "Fort Worth"); [lia | simpl; tauto | simpl; tauto].
Defined.

(** ** The order of the generated records *)

Lemma weeks_ascend_sorted (l : list Key) :
  weeks_ascend l = true -> Sorted (fun a b => key_week a <= key_week b) l.
Proof.
  induction l as [|a l IH]; [constructor|].
  destruct l as [|b l]; [repeat constructor|].
  intros H. cbn [weeks_ascend] in H. apply andb_prop in H as [H1 H2].
  constructor; [apply IH; exact H2|]. constructor. apply Z.leb_le. exact H1.
Qed.

Lemma expected_keys_ascend : weeks_ascend expected_keys = true.
Proof. vm_compute. reflexivity. Qed.

Lemma Sorted_unmap {A B : Type} (P : B -> B -> Prop) (f : A -> B) (l : list A) :
  Sorted P (map f l) -> Sorted (fun a b => P (f a) (f b)) l.
Proof.
  induction l as [|a l IH]; intros H; [constructor|].
  cbn [map] in H. inversion H as [|? ? Hs Hh]; subst.
  constructor; [apply IH; exact Hs|].
  destruct l as [|b l]; constructor. inversion Hh; assumption.
Qed.

(** X15. The generated records come in the order of the loops: weeks 1 to
    8, in a week the markets in the order of [MARKETS], for a market the
    accounts in the order of [ACCOUNTS], for an account the seven days.  In
    particular the weeks never decrease along the list, which begins with
    week 1, Austin, Tom Thumb, 2026-01-01. *)
Theorem generated_in_loop_order (R : RandomSource) (s : rng_state R) :
  exists data st',
    _generate_sample_data R (fresh R s) = Ok (data, st')
    /\ map record_key data
       = flat_map (fun w =>
           flat_map (fun m =>
             flat_map (fun a =>
               map (fun d => (w, m, a, day_string w d)) (py_range 0 7))
             ACCOUNTS)
           MARKETS)
         (py_range 1 9)
    /\ Sorted (fun a b => a.(week) <= b.(week)) data
    /\ hd_error (map record_key data) = Some (1, "Austin", "Tom Thumb", "2026-01-01").
Proof.
  exists (dataset R s), (loaded R s).
  split; [exact (generate_proc_state R s false)|].
  destruct (generated_spec R s) as (_ & K & _).
  split; [rewrite K; reflexivity|]. split.
  - apply (Sorted_unmap (fun a b => key_week a <= key_week b) record_key).
    rewrite K. apply weeks_ascend_sorted. exact expected_keys_ascend.
  - rewrite K. vm_compute. reflexivity.
Qed.

(** ** Rounding against exact values *)

Lemma shr_1_exact (c n : Z) :
  0 <= c -> 1 <= n ->
  shr_1 {| shr_m := c * 2 ^ n; shr_r := false; shr_s := false |}
  = {| shr_m := c * 2 ^ (n - 1); shr_r := false; shr_s := false |}.
Proof.
  intros Hc Hn.
  replace (c * 2 ^ n) with (2 * (c * 2 ^ (n - 1))).
  - assert (H : 0 <= c * 2 ^ (n - 1)) by (apply Z.mul_nonneg_nonneg; [lia | apply Z.pow_nonneg; lia]).
    destruct (c * 2 ^ (n - 1)) as [|q|q]; try lia; reflexivity.
  - replace n with (1 + (n - 1)) at 2 by lia. rewrite Z.pow_add_r by lia.
    change (2 ^ 1) with 2. lia.
Qed.

Lemma iter_shr_1_exact (p : positive) : forall c n : Z,
  0 <= c -> Zpos p <= n ->
  iter_pos shr_1 p {| shr_m := c * 2 ^ n; shr_r := false; shr_s := false |}
  = {| shr_m := c * 2 ^ (n - Zpos p); shr_r := false; shr_s := false |}.
Proof.
  induction p as [p IH|p IH|]; intros c n Hc Hn; cbn [iter_pos].
  - rewrite shr_1_exact by lia. rewrite IH by lia. rewrite IH by lia.
    do 3 f_equal. lia.
  - rewrite IH by lia. rewrite IH by lia. do 3 f_equal. lia.
  - apply shr_1_exact; lia.
Qed.

Lemma shr_fexp_exact (m e : Z) :
  0 < m -> 52 <= Z.log2 m -> -1074 <= Z.log2 m - 52 + e ->
  m mod 2 ^ (Z.log2 m - 52) = 0 ->
  loc_of_shr_record (fst (shr_fexp prec emax m e loc_Exact)) = loc_Exact.
Proof.
  intros Hm Hd He Hz. unfold shr_fexp.
  rewrite Zdigits2_log2 by assumption.
  rewrite fexp_normal by lia.
  replace (Z.log2 m + 1 + e - 53 - e) with (Z.log2 m - 52) by lia.
  set (k := Z.log2 m - 52) in *.
  assert (Hk : 0 <= k) by (unfold k; lia).
  assert (Em : m = m / 2 ^ k * 2 ^ k).
  { pose proof (Z.div_mod m (2 ^ k) ltac:(apply Z.pow_nonzero; lia)). lia. }
  unfold shr. destruct k as [|p|p] eqn:Ek; try lia; [reflexivity|].
  cbn [shr_record_of_loc fst]. rewrite Em.
  rewrite iter_shr_1_exact; [reflexivity | | lia].
  apply Z.div_pos; [lia | apply Z.pow_pos_nonneg; lia].
Qed.

Lemma round_nearest_even_exact (m : Z) : round_nearest_even m loc_Exact = m.
Proof. reflexivity. Qed.

(** The rounding step, with the value of its result: the mantissa is
    truncated to 53 bits, and one unit is added only when bits were lost. *)
Lemma binary_round_aux_value (m e : Z) :
  0 < m -> 52 <= Z.log2 m ->
  -1074 <= Z.log2 m - 52 + e -> Z.log2 m - 51 + e <= 971 ->
  exists m' j, binary_round_aux prec emax false m e loc_Exact
               = S754_finite false m' (e + (Z.log2 m - 52) + j)
    /\ Z.log2 (Zpos m') = 52
    /\ 0 <= j <= 1
    /\ (Zpos m' * 2 ^ j = m / 2 ^ (Z.log2 m - 52)
        \/ (Zpos m' * 2 ^ j = m / 2 ^ (Z.log2 m - 52) + 1
            /\ m mod 2 ^ (Z.log2 m - 52) <> 0)).
Proof.
  intros Hm Hd Hlo Hhi. unfold binary_round_aux.
  pose proof (shr_fexp_normal m e loc_Exact Hm Hd Hlo) as [H1 H2].
  pose proof (shr_fexp_exact m e Hm Hd Hlo) as Hx.
  destruct (shr_fexp prec emax m e loc_Exact) as [r1 e1]. cbn [fst snd] in H1, H2, Hx.
  set (k := Z.log2 m - 52) in *.
  rewrite Z.shiftr_div_pow2 in H1 by (unfold k; lia).
  set (q := m / 2 ^ k) in *.
  assert (Hq : 2 ^ 52 <= q < 2 ^ 53).
  { apply log2_52_bounds.
    - unfold q. rewrite <- Z.shiftr_div_pow2 by (unfold k; lia).
      apply shiftr_pos_log2; unfold k; lia.
    - unfold q. rewrite <- Z.shiftr_div_pow2 by (unfold k; lia).
      rewrite Z.log2_shiftr by assumption. unfold k. lia. }
  rewrite H1.
  set (m2 := round_nearest_even q (loc_of_shr_record r1)).
  assert (Hm2 : m2 = q \/ (m2 = q + 1 /\ m mod 2 ^ k <> 0)).
  { destruct (Z.eq_dec (m mod 2 ^ k) 0) as [Z|NZ].
    - left. unfold m2. rewrite (Hx Z). reflexivity.
    - destruct (round_nearest_even_cases q (loc_of_shr_record r1)) as [E|E];
        fold m2 in E; [left|right]; auto. }
  assert (Bm2 : 2 ^ 52 <= m2 <= 2 ^ 53) by (destruct Hm2 as [->|[-> _]]; lia).
  assert (Hm2pos : 0 < m2) by lia.
  assert (Hl2 : 52 <= Z.log2 m2 <= 53).
  { split.
    - change 52 with (Z.log2 (2 ^ 52)). apply Z.log2_le_mono. lia.
    - change 53 with (Z.log2 (2 ^ 53)). apply Z.log2_le_mono. lia. }
  pose proof (shr_fexp_normal m2 e1 loc_Exact Hm2pos ltac:(lia) ltac:(lia)) as [H3 H4].
  destruct (shr_fexp prec emax m2 e1 loc_Exact) as [r2 e2]. cbn [fst snd] in H3, H4.
  set (j := Z.log2 m2 - 52) in *.
  assert (Hj : shr_m r2 * 2 ^ j = m2 /\ 2 ^ 52 <= shr_m r2 < 2 ^ 53).
  { rewrite H3. destruct (Z.eq_dec j 0) as [J|J].
    - rewrite J. rewrite Z.shiftr_0_r. change (2 ^ 0) with 1.
      assert (Z.log2 m2 = 52) by (unfold j in J; lia).
      apply log2_52_bounds in H; lia.
    - assert (J1 : j = 1) by (unfold j in *; lia). rewrite J1.
      assert (L : Z.log2 m2 = 53) by (unfold j in J1; lia).
      pose proof (Z.log2_spec m2 Hm2pos) as S. rewrite L in S.
      assert (E : m2 = 2 ^ 53) by lia. rewrite E. split; [reflexivity|].
      change (Z.shiftr (2 ^ 53) 1) with (2 ^ 52). lia. }
  destruct Hj as [Hj Br2].
  destruct (shr_m r2) as [|p|p] eqn:Er2; try lia.
  assert (Hle : (e2 <=? emax - prec) = true) by (apply Z.leb_le; unfold emax, prec; unfold j in *; lia).
  rewrite Hle. exists p, j. split; [f_equal; lia|].
  split; [apply log2_52_bounds; lia|].
  split; [unfold j; lia|].
  rewrite Hj. exact Hm2.
Qed.

Lemma pow2_pos (a : Z) : 0 <= a -> 0 < 2 ^ a.
Proof. intros H. apply Z.pow_pos_nonneg; lia. Qed.

Lemma pow2_add (a b : Z) : 0 <= a -> 0 <= b -> 2 ^ (a + b) = 2 ^ a * 2 ^ b.
Proof. intros Ha Hb. apply Z.pow_add_r; assumption. Qed.

Lemma normal_inv (x : float) :
  normal x = true ->
  exists m e, x = S754_finite false m e /\ 2 ^ 52 <= Zpos m < 2 ^ 53 /\ -1053 <= e <= 947.
Proof.
  intros H. apply in_binade_inv in H as (m & e & -> & D & B).
  exists m, e. split; [reflexivity|]. split; [apply log2_52_bounds; lia | lia].
Qed.

Lemma mul_le_cancel (a b u : Z) : 0 < u -> a * u <= b * u -> a <= b.
Proof. intros Hu H. apply Z.mul_le_mono_pos_r in H; assumption. Qed.

Lemma mul_lt_cancel (a b u : Z) : 0 < u -> a * u < b * u -> a < b.
Proof. intros Hu H. apply Z.mul_lt_mono_pos_r in H; assumption. Qed.

Lemma grid_bounds (G U q m m1 a : Z) :
  0 < G -> 0 < U -> q * G <= m < (q + 1) * G ->
  m1 = q \/ (m1 = q + 1 /\ q * G < m) ->
  (a * G * U <= m * U -> a * G * U <= m1 * G * U)
  /\ (m * U <= a * G * U -> m1 * G * U <= a * G * U).
Proof.
  intros HG HU Hq Hm1. split; intros H.
  - apply mul_le_cancel in H; [|assumption].
    assert (Ha : a < q + 1) by (apply (mul_lt_cancel _ _ G); lia).
    apply Z.mul_le_mono_nonneg_r; [lia|].
    apply Z.mul_le_mono_nonneg_r; [lia|]. destruct Hm1 as [->|[-> _]]; lia.
  - apply mul_le_cancel in H; [|assumption].
    apply Z.mul_le_mono_nonneg_r; [lia|].
    destruct Hm1 as [->|[-> Hlt]]; [lia|].
    assert (Ha : q < a) by (apply (mul_lt_cancel _ _ G); lia).
    apply Z.mul_le_mono_nonneg_r; lia.
Qed.

Lemma below_grid (G U q m m1 v : Z) :
  0 < G -> 0 < U -> q * G <= m -> q <= m1 -> 2 ^ 52 <= q ->
  v < 2 ^ 52 * G * U ->
  v <= m1 * G * U /\ ~ m * U <= v.
Proof.
  intros HG HU Hq Hm1 Hq52 Hv.
  assert (H1 : 2 ^ 52 * G * U <= q * G * U).
  { apply Z.mul_le_mono_nonneg_r; [lia|]. apply Z.mul_le_mono_nonneg_r; lia. }
  assert (H2 : q * G * U <= m1 * G * U).
  { apply Z.mul_le_mono_nonneg_r; [lia|]. apply Z.mul_le_mono_nonneg_r; lia. }
  assert (H3 : q * G * U <= m * U) by (apply Z.mul_le_mono_nonneg_r; lia).
  lia.
Qed.

(** Rounding is monotone against the floats: a float below the exact
    value is below the rounded one, a float above it is above. *)
Lemma binary_round_aux_bounds (m e : Z) :
  0 < m -> 52 <= Z.log2 m -> -1074 <= e -> Z.log2 m - 51 + e <= 971 ->
  in_binade (Z.log2 m + 1 + e) (Z.log2 m + 2 + e)
            (binary_round_aux prec emax false m e loc_Exact) = true
  /\ (forall r, normal r = true ->
        fval r <= m * 2 ^ (e + SCALE) ->
        fval r <= fval (binary_round_aux prec emax false m e loc_Exact))
  /\ (forall r, normal r = true ->
        m * 2 ^ (e + SCALE) <= fval r ->
        fval (binary_round_aux prec emax false m e loc_Exact) <= fval r).
Proof.
  intros Hm Hd Hlo Hhi.
  destruct (binary_round_aux_value m e Hm Hd ltac:(lia) Hhi) as (m' & j & E & D & Hj & V).
  rewrite E. clear E.
  set (k := Z.log2 m - 52) in *.
  assert (Hk : 0 <= k) by (unfold k; lia).
  split; [apply in_binade_intro; [assumption | unfold k; lia]|].
  set (G := 2 ^ k) in *. set (U := 2 ^ (e + SCALE)).
  assert (HG : 0 < G) by (apply pow2_pos; lia).
  assert (HU : 0 < U) by (apply pow2_pos; unfold SCALE; lia).
  pose proof (Z.div_mod m G ltac:(lia)) as DM.
  pose proof (Z.mod_pos_bound m G HG) as MB.
  set (q := m / G) in *.
  assert (Hq : q * G <= m < (q + 1) * G) by lia.
  assert (Hq52 : 2 ^ 52 <= q).
  { destruct V as [<-|[V _]].
    - apply log2_52_bounds in D; [|lia].
      destruct (Z.eq_dec j 0) as [->|]; [change (2 ^ 0) with 1; lia|].
      replace j with 1 by lia. change (2 ^ 1) with 2. lia.
    - assert (L : Z.log2 q = 52).
      { unfold q, G. rewrite <- Z.shiftr_div_pow2 by lia.
        rewrite Z.log2_shiftr by assumption. unfold k. lia. }
      apply log2_52_bounds in L; [lia|].
      unfold q, G. rewrite <- Z.shiftr_div_pow2 by lia.
      apply shiftr_pos_log2; unfold k; lia. }
  assert (Ey : fval (S754_finite false m' (e + k + j)) = Zpos m' * 2 ^ j * G * U).
  { cbn [fval]. unfold G, U.
    replace (e + k + j + SCALE) with (j + k + (e + SCALE)) by lia.
    rewrite !pow2_add by (unfold SCALE; lia). lia. }
  rewrite Ey.
  assert (V' : Zpos m' * 2 ^ j = q \/ (Zpos m' * 2 ^ j = q + 1 /\ q * G < m)).
  { destruct V as [V|[V NZ]]; [left; exact V | right; split; [exact V | lia]]. }
  assert (Hq1 : q <= Zpos m' * 2 ^ j) by (destruct V' as [->|[-> _]]; lia).
  assert (Cases : forall r, normal r = true ->
            (exists a, fval r = a * G * U) \/ fval r < 2 ^ 52 * G * U).
  { intros r Hr. apply normal_inv in Hr as (mr & er & -> & Bm & Be). cbn [fval].
    destruct (Z_le_gt_dec (e + k) er) as [Hge|Hlt].
    - left. exists (Zpos mr * 2 ^ (er - e - k)). unfold G, U.
      replace (er + SCALE) with (er - e - k + k + (e + SCALE)) by lia.
      rewrite !pow2_add by (unfold SCALE; lia). lia.
    - right.
      assert (H1 : 2 * 2 ^ (er + SCALE) <= G * U).
      { unfold G, U. rewrite <- pow2_add by (unfold SCALE; lia).
        change 2 with (2 ^ 1) at 1. rewrite <- pow2_add by (unfold SCALE; lia).
        apply pow2_le. unfold SCALE. lia. }
      assert (H2 : 0 < 2 ^ (er + SCALE)) by (apply pow2_pos; unfold SCALE; lia).
      change (2 ^ 53) with (2 ^ 52 * 2) in Bm.
      nia. }
  split; intros r Hr H.
  - destruct (Cases r Hr) as [[a Ea]|Hs].
    + rewrite Ea in *. apply (grid_bounds G U q m _ a HG HU Hq V'). exact H.
    + apply (below_grid G U q m _ _ HG HU ltac:(lia) Hq1 Hq52 Hs).
  - destruct (Cases r Hr) as [[a Ea]|Hs].
    + rewrite Ea in *. apply (grid_bounds G U q m _ a HG HU Hq V'). exact H.
    + exfalso. apply (below_grid G U q m _ _ HG HU ltac:(lia) Hq1 Hq52 Hs). exact H.
Qed.

Lemma fval_finite (m : positive) (e : Z) :
  fval (S754_finite false m e) = Zpos m * 2 ^ (e + SCALE).
Proof. reflexivity. Qed.

Lemma fmul_bounds (la ha lb hb : Z) (x y : float) :
  in_binade la ha x = true -> in_binade lb hb y = true ->
  -400 <= la -> -400 <= lb -> ha <= 400 -> hb <= 400 ->
  in_binade (la + lb - 1) (ha + hb + 1) (fmul x y) = true
  /\ (forall r, normal r = true ->
        fval r * 2 ^ SCALE <= fval x * fval y -> fval r <= fval (fmul x y))
  /\ (forall r, normal r = true ->
        fval x * fval y <= fval r * 2 ^ SCALE -> fval (fmul x y) <= fval r).
Proof.
  intros Hx Hy La Lb Ua Ub.
  split; [apply fmul_binade; try assumption; lia|].
  apply in_binade_inv in Hx as (mx & ex & -> & Dx & Bx).
  apply in_binade_inv in Hy as (my & ey & -> & Dy & By).
  unfold fmul, SFmul. rewrite Pos2Z.inj_mul. cbn [xorb].
  assert (Hb : Z.log2 (Zpos mx) + Z.log2 (Zpos my) <= Z.log2 (Zpos mx * Zpos my)
               <= Z.log2 (Zpos mx) + Z.log2 (Zpos my) + 1).
  { split; [apply Z.log2_mul_below | apply Z.log2_mul_above]; lia. }
  destruct (binary_round_aux_bounds (Zpos mx * Zpos my) (ex + ey))
    as (_ & L & U); try lia.
  assert (E : fval (S754_finite false mx ex) * fval (S754_finite false my ey)
              = Zpos mx * Zpos my * 2 ^ (ex + ey + SCALE) * 2 ^ SCALE).
  { cbn [fval].
    replace (ex + ey + SCALE) with (ex + SCALE + (ey + SCALE) - SCALE) by lia.
    assert (P : 2 ^ (ex + SCALE + (ey + SCALE) - SCALE) * 2 ^ SCALE
                = 2 ^ (ex + SCALE) * 2 ^ (ey + SCALE)).
    { rewrite <- !pow2_add by (unfold SCALE; lia). f_equal. lia. }
    rewrite <- !Z.mul_assoc. rewrite P. lia. }
  rewrite E. assert (HS : 0 < 2 ^ SCALE) by (apply pow2_pos; unfold SCALE; lia).
  split; intros r Hr H.
  - apply L; [assumption|]. apply (mul_le_cancel _ _ (2 ^ SCALE)); assumption.
  - apply U; [assumption|]. apply (mul_le_cancel _ _ (2 ^ SCALE)); assumption.
Qed.

Lemma binary_round_bounds (p : positive) (e : Z) :
  -1020 <= Z.log2 (Zpos p) + 1 + e <= 1020 -> -1074 <= e ->
  in_binade (Z.log2 (Zpos p) + 1 + e) (Z.log2 (Zpos p) + 2 + e)
            (binary_round prec emax false p e) = true
  /\ (forall r, normal r = true ->
        fval r <= Zpos p * 2 ^ (e + SCALE) ->
        fval r <= fval (binary_round prec emax false p e))
  /\ (forall r, normal r = true ->
        Zpos p * 2 ^ (e + SCALE) <= fval r ->
        fval (binary_round prec emax false p e) <= fval r).
Proof.
  intros H He. split; [apply binary_round_binade; assumption|].
  unfold binary_round.
  replace (Zpos (digits2_pos p)) with (Zdigits2 (Zpos p)) by reflexivity.
  rewrite Zdigits2_log2 by lia. rewrite fexp_normal by lia.
  unfold shl_align.
  destruct (Z.log2 (Zpos p) + 1 + e - 53 - e) as [|k|k] eqn:Ek; cbv beta iota.
  - destruct (binary_round_aux_bounds (Zpos p) e) as (_ & L & U); try lia.
    split; assumption.
  - destruct (binary_round_aux_bounds (Zpos p) e) as (_ & L & U); try lia.
    split; assumption.
  - assert (HL : Z.log2 (Zpos (Pos.iter xO p k)) = 52).
    { rewrite pos_iter_xO, log2_mul_pow2 by lia. lia. }
    destruct (binary_round_aux_bounds (Zpos (Pos.iter xO p k))
                (Z.log2 (Zpos p) + 1 + e - 53)) as (_ & L & U); try lia.
    assert (E : Zpos (Pos.iter xO p k) * 2 ^ (Z.log2 (Zpos p) + 1 + e - 53 + SCALE)
                = Zpos p * 2 ^ (e + SCALE)).
    { rewrite pos_iter_xO. rewrite <- Z.mul_assoc.
      rewrite <- pow2_add by (unfold SCALE; lia). do 2 f_equal. lia. }
    rewrite E in L, U. split; assumption.
Qed.

(** A positive integer below [2 ^ 53] is a float. *)
Lemma float_of_Z_value (n : Z) :
  0 < n < 2 ^ 53 ->
  in_binade (Z.log2 n + 1) (Z.log2 n + 2) (float_of_Z n) = true
  /\ fval (float_of_Z n) = n * 2 ^ SCALE.
Proof.
  intros Hn.
  assert (HL : 0 <= Z.log2 n < 53).
  { split; [apply Z.log2_nonneg | apply Z.log2_lt_pow2; lia]. }
  destruct n as [|p|p]; try lia.
  unfold float_of_Z, binary_normalize.
  destruct (binary_round_bounds p 0) as (B & L & U); [lia|lia|].
  split; [eapply in_binade_weaken; [exact B| |]; lia|].
  set (l := Z.log2 (Zpos p)) in *.
  set (r := S754_finite false (Z.to_pos (Zpos p * 2 ^ (52 - l))) (l - 52)).
  assert (P : 0 < Zpos p * 2 ^ (52 - l)).
  { apply Z.mul_pos_pos; [lia | apply pow2_pos; lia]. }
  assert (Nr : normal r = true).
  { apply in_binade_intro; [|lia]. rewrite Z2Pos.id by assumption.
    rewrite log2_mul_pow2 by lia. fold l. lia. }
  assert (Vr : fval r = Zpos p * 2 ^ (0 + SCALE)).
  { unfold r. cbn [fval]. rewrite Z2Pos.id by assumption.
    rewrite <- Z.mul_assoc. rewrite <- pow2_add by (unfold SCALE; lia).
    do 2 f_equal. lia. }
  pose proof (L r Nr ltac:(lia)) as H1. pose proof (U r Nr ltac:(lia)) as H2.
  change (0 + SCALE) with SCALE in Vr. lia.
Qed.

Lemma fadd_bounds (la ha lb hb : Z) (x y : float) :
  in_binade la ha x = true -> in_binade lb hb y = true ->
  -1000 <= la -> -1000 <= lb -> ha <= 1000 -> hb <= 1000 ->
  in_binade (Z.max la lb) (Z.max ha hb + 2) (fadd x y) = true
  /\ (forall r, normal r = true ->
        fval r <= fval x + fval y -> fval r <= fval (fadd x y))
  /\ (forall r, normal r = true ->
        fval x + fval y <= fval r -> fval (fadd x y) <= fval r).
Proof.
  intros Hx Hy La Lb Ua Ub.
  split; [apply fadd_binade; assumption|].
  apply in_binade_inv in Hx as (mx & ex & -> & Dx & Bx).
  apply in_binade_inv in Hy as (my & ey & -> & Dy & By).
  unfold fadd, SFadd, cond_Zopp.
  set (ez := Z.min ex ey).
  pose proof (shl_align_fst mx ex ez ltac:(unfold ez; lia)) as Ex.
  pose proof (shl_align_fst my ey ez ltac:(unfold ez; lia)) as Ey.
  destruct (scaled_bounds (Zpos mx) (ex - ez) Dx ltac:(lia) ltac:(unfold ez; lia)) as [X1 X2].
  destruct (scaled_bounds (Zpos my) (ey - ez) Dy ltac:(lia) ltac:(unfold ez; lia)) as [Y1 Y2].
  set (A := fst (shl_align mx ex ez)) in *. set (B := fst (shl_align my ey ez)) in *.
  change (Zpos A + Zpos B) with (Zpos (A + B)). unfold binary_normalize.
  assert (HS : 52 + Z.max ex ey - ez <= Z.log2 (Zpos (A + B)) < 54 + Z.max ex ey - ez).
  { rewrite Pos2Z.inj_add, Ex, Ey. split.
    - apply Z.log2_le_pow2; [lia|].
      destruct (Z.max_spec ex ey) as [[_ ->]|[_ ->]];
        [replace (52 + ey - ez) with (52 + (ey - ez)) by lia
        |replace (52 + ex - ez) with (52 + (ex - ez)) by lia]; lia.
    - apply Z.log2_lt_pow2; [lia|].
      assert (2 ^ (53 + (ex - ez)) <= 2 ^ (53 + Z.max ex ey - ez)) by (apply Z.pow_le_mono_r; lia).
      assert (2 ^ (53 + (ey - ez)) <= 2 ^ (53 + Z.max ex ey - ez)) by (apply Z.pow_le_mono_r; lia).
      replace (54 + Z.max ex ey - ez) with (1 + (53 + Z.max ex ey - ez)) by lia.
      rewrite Z.pow_add_r by (unfold ez; lia). lia. }
  destruct (binary_round_bounds (A + B) ez) as (_ & L & U); [unfold ez in *; lia|unfold ez; lia|].
  assert (E : Zpos (A + B) * 2 ^ (ez + SCALE)
              = fval (S754_finite false mx ex) + fval (S754_finite false my ey)).
  { cbn [fval]. rewrite Pos2Z.inj_add, Ex, Ey.
    rewrite Z.mul_add_distr_r. rewrite <- !Z.mul_assoc.
    rewrite <- !pow2_add by (unfold ez, SCALE; lia).
    f_equal; do 2 f_equal; lia. }
  rewrite E in L, U. split; assumption.
Qed.

(** [int(x)] is the integer part of the value. *)
Lemma py_int_value (a b : Z) (x : float) :
  in_binade a b x = true -> 1 <= a -> b <= 1000 ->
  exists k, py_int x = Ok k /\ k * 2 ^ SCALE <= fval x < (k + 1) * 2 ^ SCALE.
Proof.
  intros H Ha Hb. apply in_binade_inv in H as (m & e & -> & D & B).
  exists (Z.shiftl (Zpos m) e). split; [reflexivity|]. cbn [fval].
  destruct (Z_le_gt_dec 0 e) as [P|N].
  - rewrite Z.shiftl_mul_pow2 by lia. rewrite pow2_add by (unfold SCALE; lia).
    assert (0 < 2 ^ e) by (apply pow2_pos; lia).
    assert (0 < 2 ^ SCALE) by (apply pow2_pos; unfold SCALE; lia). nia.
  - assert (Hs : Z.shiftl (Zpos m) e = Zpos m / 2 ^ (- e)).
    { rewrite <- Z.shiftr_div_pow2 by lia. unfold Z.shiftr.
      rewrite Z.opp_involutive. reflexivity. }
    rewrite Hs.
    assert (E : 2 ^ SCALE = 2 ^ (- e) * 2 ^ (e + SCALE)).
    { rewrite <- pow2_add by (unfold SCALE; lia). f_equal. lia. }
    rewrite E.
    assert (P1 : 0 < 2 ^ (- e)) by (apply pow2_pos; lia).
    assert (P2 : 0 < 2 ^ (e + SCALE)) by (apply pow2_pos; unfold SCALE; lia).
    pose proof (Z.div_mod (Zpos m) (2 ^ (- e)) ltac:(lia)) as DM.
    pose proof (Z.mod_pos_bound (Zpos m) (2 ^ (- e)) P1) as MB.
    set (q := Zpos m / 2 ^ (- e)) in *. clearbody q.
    split.
    + rewrite Z.mul_assoc. apply Z.mul_le_mono_nonneg_r; lia.
    + rewrite Z.mul_assoc. apply Z.mul_lt_mono_pos_r; lia.
Qed.

(** The order of the floats is the order of their values. *)
Lemma SFleb_value (x y : float) :
  normal x = true -> normal y = true -> SFleb x y = true -> fval x <= fval y.
Proof.
  intros Hx Hy.
  apply normal_inv in Hx as (mx & ex & -> & Bx & Ex).
  apply normal_inv in Hy as (my & ey & -> & By & Ey).
  unfold SFleb, SFcompare. cbn [fval].
  destruct (Z.compare_spec ex ey) as [->|Hlt|Hgt].
  - intros H.
    assert (Hm : (mx <= my)%positive).
    { unfold Pos.le, Pos.compare. destruct (Pos.compare_cont Eq mx my); congruence. }
    apply Z.mul_le_mono_nonneg_r; [apply Z.pow_nonneg; lia | lia].
  - intros _.
    assert (H1 : 2 * 2 ^ (ex + SCALE) <= 2 ^ (ey + SCALE)).
    { change 2 with (2 ^ 1) at 1. rewrite <- pow2_add by (unfold SCALE; lia).
      apply pow2_le. unfold SCALE. lia. }
    assert (H2 : 0 < 2 ^ (ex + SCALE)) by (apply pow2_pos; unfold SCALE; lia).
    change (2 ^ 53) with (2 ^ 52 * 2) in Bx. nia.
  - discriminate.
Qed.

(** The dyadic number [n / 2 ^ k] is a float when [n] has at most 53 bits. *)
Lemma dyadic_float (n k : Z) :
  0 < n < 2 ^ 53 -> 0 <= k <= 100 ->
  exists r, normal r = true /\ fval r * 2 ^ k = n * 2 ^ SCALE.
Proof.
  intros Hn Hk. destruct (float_of_Z_value n Hn) as (B & V).
  assert (HL : 0 <= Z.log2 n < 53).
  { split; [apply Z.log2_nonneg | apply Z.log2_lt_pow2; lia]. }
  apply in_binade_inv in B as (m & e & E & D & Be). rewrite E in V.
  exists (S754_finite false m (e - k)). split; [apply in_binade_intro; [assumption | lia]|].
  rewrite <- V. cbn [fval]. rewrite <- Z.mul_assoc.
  rewrite <- pow2_add by (unfold SCALE; lia). do 2 f_equal. lia.
Qed.

Lemma py_float_value (n : Z) :
  0 < n < 2 ^ 53 ->
  exists f, py_float n = Ok f
    /\ in_binade (Z.log2 n + 1) (Z.log2 n + 2) f = true
    /\ fval f = n * 2 ^ SCALE.
Proof.
  intros Hn. destruct (float_of_Z_value n Hn) as (B & V).
  exists (float_of_Z n). split; [|split; assumption].
  unfold py_float. apply in_binade_inv in B as (m & e & -> & _). reflexivity.
Qed.

Lemma fval_nonneg (x : float) : 0 <= fval x.
Proof.
  destruct x as [| | |[|] m e]; cbn [fval]; lia.
Qed.

Lemma mul_le_mono (a b c d : Z) : 0 <= a <= b -> 0 <= c <= d -> a * c <= b * d.
Proof. intros H1 H2. apply Z.mul_le_mono_nonneg; lia. Qed.

Lemma half_below (r g S c : Z) :
  r * 2 = g * S -> 0 <= g -> 0 <= S -> S <= 2 * c -> r * S <= g * S * c.
Proof.
  intros E Hg HS Hc.
  assert (H : g * S * S <= g * S * (2 * c)).
  { apply Z.mul_le_mono_nonneg_l; [apply Z.mul_nonneg_nonneg; lia | lia]. }
  replace (g * S * S) with (2 * (r * S)) in H
    by (replace (2 * (r * S)) with (r * 2 * S) by ring; rewrite E; ring).
  replace (g * S * (2 * c)) with (2 * (g * S * c)) in H by ring. lia.
Qed.

Lemma half_above (r g S c : Z) :
  r * 2 = 3 * g * S -> 0 <= g -> 0 <= S -> 2 * c <= 3 * S -> g * S * c <= r * S.
Proof.
  intros E Hg HS Hc.
  assert (H : g * S * (2 * c) <= g * S * (3 * S)).
  { apply Z.mul_le_mono_nonneg_l; [apply Z.mul_nonneg_nonneg; lia | lia]. }
  replace (g * S * (3 * S)) with (2 * (r * S)) in H by (replace (2 * (r * S)) with (r * 2 * S) by ring; rewrite E; ring).
  replace (g * S * (2 * c)) with (2 * (g * S * c)) in H by ring. lia.
Qed.

Lemma lift_above (d S u c : Z) :
  0 <= d <= 4 -> 0 <= S -> 0 <= u <= c -> d * S * u <= 4 * c * S.
Proof.
  intros Hd HS Hu.
  replace (4 * c * S) with (4 * S * c) by ring.
  apply mul_le_mono; [|lia]. split; [apply Z.mul_nonneg_nonneg; lia|].
  apply Z.mul_le_mono_nonneg_r; lia.
Qed.

(** Seven fifths of the sales, with the float after 1.4 for the lift. *)
Lemma seven_fifths (sales S l up r : Z) :
  0 <= sales < 2 ^ 17 -> 0 <= S -> l <= up ->
  up * 2 ^ 52 = 6305039478318695 * S ->
  r * 8 = (8 * (7 * sales / 5) + 7) * S ->
  sales * S * l <= r * S.
Proof.
  intros Hs HS Hl Eup Er.
  pose proof (Z.div_mod (7 * sales) 5 ltac:(lia)) as DM.
  pose proof (Z.mod_pos_bound (7 * sales) 5 ltac:(lia)) as MB.
  set (N := 7 * sales / 5) in *.
  assert (A : sales * S * l <= sales * S * up).
  { apply Z.mul_le_mono_nonneg_l; [apply Z.mul_nonneg_nonneg; lia | assumption]. }
  assert (C : 8 * sales * 6305039478318695 <= (8 * N + 7) * 2 ^ 52) by lia.
  assert (P : 0 <= S * S) by (apply Z.mul_nonneg_nonneg; lia).
  assert (B : 8 * sales * 6305039478318695 * (S * S) <= (8 * N + 7) * 2 ^ 52 * (S * S)).
  { apply Z.mul_le_mono_nonneg_r; assumption. }
  replace (8 * sales * 6305039478318695 * (S * S))
    with (8 * 2 ^ 52 * (sales * S * up)) in B
    by (replace (8 * 2 ^ 52 * (sales * S * up)) with (8 * sales * S * (up * 2 ^ 52)) by ring;
        rewrite Eup; ring).
  replace ((8 * N + 7) * 2 ^ 52 * (S * S))
    with (8 * 2 ^ 52 * (r * S)) in B
    by (replace (8 * 2 ^ 52 * (r * S)) with (r * 8 * S * 2 ^ 52) by ring;
        rewrite Er; ring).
  lia.
Qed.

(** The clamped attainment ratio is between 0.5 and 1.5. *)
Lemma clamp_value (x : float) :
  is_float x = true ->
  2 ^ SCALE <= 2 * fval (py_max (decimal 5 10) (py_min (decimal 15 10) x))
            <= 3 * 2 ^ SCALE.
Proof.
  intros V.
  assert (Hlo : 2 * fval (decimal 5 10) = 2 ^ SCALE) by (vm_compute; reflexivity).
  assert (Hhi : 2 * fval (decimal 15 10) = 3 * 2 ^ SCALE) by (vm_compute; reflexivity).
  assert (Nlo : normal (decimal 5 10) = true) by reflexivity.
  assert (Nhi : normal (decimal 15 10) = true) by reflexivity.
  unfold py_min. destruct (flt x (decimal 15 10)) eqn:U.
  - unfold py_max. destruct (flt (decimal 5 10) x) eqn:L.
    + assert (Nx : normal x = true).
      { revert L U.
        change (decimal 5 10) with (S754_finite false 4503599627370496 (-53)).
        change (decimal 15 10) with (S754_finite false 6755399441055744 (-52)).
        intros L U. unfold normal.
        eapply in_binade_weaken;
          [apply (between_binade x 4503599627370496 6755399441055744 (-53) (-52) V);
             [lia | apply SFltb_leb; exact L | apply SFltb_leb; exact U] | lia | lia]. }
      pose proof (SFleb_value _ _ Nlo Nx (SFltb_leb _ _ L)).
      pose proof (SFleb_value _ _ Nx Nhi (SFltb_leb _ _ U)). lia.
    + lia.
  - unfold py_max. destruct (flt (decimal 5 10) (decimal 15 10)); lia.
Qed.

Lemma scale_cancel_le (a b : Z) : a * 2 ^ SCALE <= b * 2 ^ SCALE -> a <= b.
Proof. apply mul_le_cancel. apply pow2_pos. unfold SCALE. lia. Qed.

Lemma scale_cancel_lt (a b : Z) : a * 2 ^ SCALE < b * 2 ^ SCALE -> a < b.
Proof. apply mul_lt_cancel. apply pow2_pos. unfold SCALE. lia. Qed.

(** [int(goal * ratio)] for a ratio between 0.5 and 1.5. *)
Lemma first_sales (g : Z) (c : float) :
  2 ^ 8 <= g < 2 ^ 14 -> in_binade 0 1 c = true ->
  2 ^ SCALE <= 2 * fval c <= 3 * 2 ^ SCALE ->
  exists s1, (x <- int_mul_float g c ;; py_int x) = Ok s1
    /\ g <= 2 * s1 + 1 /\ 2 * s1 <= 3 * g.
Proof.
  intros Hg Bc Vc.
  destruct (py_float_value g ltac:(lia)) as (f & Ef & Bf & Vf).
  assert (Lg : 8 <= Z.log2 g < 14).
  { split; [apply Z.log2_le_pow2 | apply Z.log2_lt_pow2]; lia. }
  destruct (fmul_bounds _ _ _ _ f c Bf Bc) as (Bp & L & U); try lia.
  destruct (py_int_value _ _ _ Bp ltac:(lia) ltac:(lia)) as (k & Ek & Vk).
  exists k. unfold int_mul_float. rewrite Ef. cbn [bind]. split; [exact Ek|].
  destruct (dyadic_float g 1 ltac:(lia) ltac:(lia)) as (r1 & N1 & V1).
  destruct (dyadic_float (3 * g) 1 ltac:(lia) ltac:(lia)) as (r2 & N2 & V2).
  change (2 ^ 1) with 2 in V1, V2.
  set (one := 2 ^ SCALE) in *.
  assert (HS : 0 < one) by (apply pow2_pos; unfold SCALE; lia).
  pose proof (fval_nonneg c) as Pc.
  assert (H1 : fval r1 <= fval (fmul f c)).
  { apply L; [assumption|]. rewrite Vf. apply half_below; lia. }
  assert (H2 : fval (fmul f c) <= fval r2).
  { apply U; [assumption|]. rewrite Vf. apply half_above; lia. }
  split.
  - assert (H : g * one < (2 * k + 2) * one) by lia.
    apply scale_cancel_lt in H. lia.
  - apply scale_cancel_le. fold one. lia.
Qed.

(** The sales of a record with displays: between the sales before the
    lift and seven fifths of them. *)
Lemma lifted_sales_bounds (displays sales : Z) (u : float) :
  1 <= displays <= 4 -> 2 ^ 7 <= sales < 2 ^ 17 ->
  is_float u = true ->
  SFleb (decimal 5 100) u = true -> SFleb u (decimal 10 100) = true ->
  exists k, (t <- int_mul_float displays u ;;
             display_lift <- int_add_float 1 t ;;
             x <- int_mul_float sales display_lift ;;
             py_int x) = Ok k
            /\ sales <= k /\ 5 * k <= 7 * sales.
Proof.
  intros Hd Hs Vu Lu Uu.
  assert (Bu : in_binade (-4) (-3) u = true).
  { revert Lu Uu.
    change (decimal 5 100) with (S754_finite false 7205759403792794 (-57)).
    change (decimal 10 100) with (S754_finite false 7205759403792794 (-56)).
    intros Lu Uu.
    apply (between_binade _ 7205759403792794 7205759403792794 (-57) (-56) Vu);
      [lia | exact Lu | exact Uu]. }
  assert (Nu : normal u = true) by (eapply in_binade_weaken; [exact Bu| |]; lia).
  pose proof (SFleb_value u (decimal 10 100) Nu ltac:(reflexivity) Uu) as Vu1.
  destruct (py_float_value displays ltac:(lia)) as (fd & Ed & Bd & Vd).
  assert (Ld : 0 <= Z.log2 displays < 3).
  { split; [apply Z.log2_nonneg | apply Z.log2_lt_pow2; lia]. }
  destruct (fmul_bounds _ _ _ _ fd u Bd Bu) as (Bt & _ & Ut); try lia.
  destruct (py_float_value 1 ltac:(lia)) as (one & E1 & B1 & V1).
  change (Z.log2 1) with 0 in B1. 
  destruct (fadd_bounds _ _ _ _ one (fmul fd u) B1 Bt) as (Bl & Ll & Ul); try lia.
  set (lift := fadd one (fmul fd u)) in *.
  destruct (py_float_value sales ltac:(lia)) as (fs & Es & Bs & Vs).
  assert (Ls : 7 <= Z.log2 sales < 17).
  { split; [apply Z.log2_le_pow2 | apply Z.log2_lt_pow2]; lia. }
  assert (Bl' : in_binade 1 8 lift = true).
  { eapply in_binade_weaken; [exact Bl| |]; lia. }
  destruct (fmul_bounds _ _ _ _ fs lift Bs Bl') as (Bp & L & U); try lia.
  destruct (py_int_value _ _ _ Bp ltac:(lia) ltac:(lia)) as (k & Ek & Vk).
  exists k. unfold int_mul_float at 1. rewrite Ed. cbn [bind].
  unfold int_add_float. rewrite E1. cbn [bind]. fold lift.
  unfold int_mul_float. rewrite Es. cbn [bind]. split; [exact Ek|].
  set (r4 := S754_finite false 7205759403792794 (-54)).
  set (rup := S754_finite false 6305039478318695 (-52)).
  assert (V4 : fval r4 = 4 * fval (decimal 10 100)) by (vm_compute; reflexivity).
  assert (Vup : fval one + fval r4 <= fval rup).
  { rewrite V1. apply Z.leb_le. vm_compute. reflexivity. }
  assert (Vrup : fval rup * 2 ^ 52 = 6305039478318695 * 2 ^ SCALE)
    by (vm_compute; reflexivity).
  pose proof (fval_nonneg u) as Pu.
  assert (HS : 0 < 2 ^ SCALE) by (apply pow2_pos; unfold SCALE; lia).
  assert (Ht : fval (fmul fd u) <= fval r4).
  { apply Ut; [reflexivity|]. rewrite Vd, V4. apply lift_above; lia. }
  pose proof (fval_nonneg (fmul fd u)) as Pt.
  assert (Hl1 : 2 ^ SCALE <= fval lift).
  { apply Z.le_trans with (fval one); [rewrite V1; lia|].
    apply Ll; [eapply in_binade_weaken; [exact B1| |]; lia | lia]. }
  assert (Hl2 : fval lift <= fval rup).
  { apply Ul; [reflexivity | lia]. }
  clear Vup V4 Ht.
  assert (HN : 0 <= 7 * sales / 5 < 2 ^ 20).
  { split; [apply Z.div_pos; lia | apply Z.div_lt_upper_bound; lia]. }
  destruct (dyadic_float (8 * (7 * sales / 5) + 7) 3 ltac:(lia) ltac:(lia))
    as (r & Nr & Vr).
  change (2 ^ 3) with 8 in Vr.
  assert (H1 : fval fs <= fval (fmul fs lift)).
  { apply L; [eapply in_binade_weaken; [exact Bs| |]; lia|]. rewrite Vs.
    apply Z.mul_le_mono_nonneg_l; [apply Z.mul_nonneg_nonneg; lia | assumption]. }
  assert (H2 : fval (fmul fs lift) <= fval r).
  { apply U; [assumption|]. rewrite Vs.
    apply (seven_fifths sales _ _ (fval rup)); try assumption; lia. }
  pose proof (Z.div_mod (7 * sales) 5 ltac:(lia)) as DM.
  pose proof (Z.mod_pos_bound (7 * sales) 5 ltac:(lia)) as MB.
  set (N := 7 * sales / 5) in *.
  clear Vrup Hl1 Hl2.
  split.
  - rewrite Vs in H1. assert (H : sales * 2 ^ SCALE < (k + 1) * 2 ^ SCALE) by lia.
    apply scale_cancel_lt in H. lia.
  - assert (H : (8 * k) * 2 ^ SCALE < (8 * (N + 1)) * 2 ^ SCALE) by lia.
    apply scale_cancel_lt in H. lia.
Qed.

(** ** Sales against goals *)

Section Sales.

Variable R : RandomSource.

Lemma make_record_sales (w : Z) (week_start : datetime) (m : string)
    (multiplier : float) (a : string) (day_offset : Z) (s s' : rng_state R)
    (r : SalesRecord) :
  in_binade 0 1 multiplier = true ->
  make_record R w week_start m multiplier a day_offset s = Ok (r, s') ->
  record_sales r.
Proof.
  intros Hm. unfold make_record. rewrite gbind_draw.
  pose proof (randint_range R 800 1500 s ltac:(lia)) as B1.
  set (n := fst (randint R 800 1500 s)) in *.
  set (s1 := snd (randint R 800 1500 s)).
  destruct (int_of_product 10 11 0 1 n multiplier) as (g & Eg & Bg); try lia;
    [exact Hm|].
  rewrite (gbind_lift _ _ g) by exact Eg.
  rewrite gbind_draw.
  set (att := fst (gauss R (decimal 10 10) (decimal 15 100) s1)).
  set (s2 := snd (gauss R (decimal 10 10) (decimal 15 100) s1)).
  pose proof (clamp_binade att (gauss_float R _ _ s1)) as Bc.
  pose proof (clamp_value att (gauss_float R _ _ s1)) as Vc.
  change (2 ^ (10 + 0 - 2)) with (2 ^ 8) in Bg.
  change (2 ^ (11 + 1 + 2)) with (2 ^ 14) in Bg.
  destruct (first_sales g _ Bg Bc Vc) as (sales & Es & Ls & Us).
  assert (Bs : 2 ^ 7 <= sales < 2 ^ 17).
  { change (2 ^ 8) with 256 in Bg. change (2 ^ 14) with 16384 in Bg.
    change (2 ^ 7) with 128. change (2 ^ 17) with 131072. lia. }
  rewrite (gbind_lift _ _ sales) by exact Es.
  rewrite gbind_draw.
  pose proof (randint_range R 0 4 s2 ltac:(lia)) as B2.
  set (d := fst (randint R 0 4 s2)) in *.
  set (s3 := snd (randint R 0 4 s2)).
  assert (Hsales : exists sales' s4,
    (if 0 <? d
     then gbind R (draw R (uniform R (decimal 5 100) (decimal 10 100))) (fun u =>
          lift R (t <- int_mul_float d u ;;
                  display_lift <- int_add_float 1 t ;;
                  x <- int_mul_float sales display_lift ;;
                  py_int x))
     else gret R sales) s3 = Ok (sales', s4)
    /\ sales <= sales' /\ 5 * sales' <= 7 * sales /\ (d = 0 -> sales' = sales)).
  { destruct (0 <? d) eqn:Ed.
    - apply Z.ltb_lt in Ed.
      destruct (uniform_range R (decimal 5 100) (decimal 10 100) s3) as (V & L & U);
        try reflexivity.
      destruct (lifted_sales_bounds d sales _ ltac:(lia) Bs V L U)
        as (k & Ek & Lk & Uk).
      exists k. eexists. rewrite gbind_draw. unfold lift. rewrite Ek.
      split; [reflexivity|]. repeat split; try assumption. lia.
    - exists sales, s3. split; [reflexivity|]. lia. }
  destruct Hsales as (sales' & s4 & E4 & L4 & U4 & Z4).
  unfold gbind at 1. rewrite E4.
  destruct (choice_In R BRANDS
              (fun brand => gbind R (choice R REPS) (fun rep =>
                 gbind R (draw R (randint R 0 3)) (fun pods =>
                 gbind R (draw R (randint R 0 2)) (fun voids =>
                 gret R {| date := strftime_ymd (add_days week_start day_offset);
                           week := w; market := m; account := a; brand := brand;
                           rep := rep; goal := g; sales_volume := sales';
                           displays := d; pods := pods; voids := voids |}))))
              s4 ltac:(discriminate)) as (b & s5 & Hb & Eb).
  rewrite Eb. clear Eb.
  destruct (choice_In R REPS
              (fun rep =>
                 gbind R (draw R (randint R 0 3)) (fun pods =>
                 gbind R (draw R (randint R 0 2)) (fun voids =>
                 gret R {| date := strftime_ymd (add_days week_start day_offset);
                           week := w; market := m; account := a; brand := b;
                           rep := rep; goal := g; sales_volume := sales';
                           displays := d; pods := pods; voids := voids |})))
              s5 ltac:(discriminate)) as (p & s6 & Hp & Ep).
  rewrite Ep. clear Ep.
  rewrite !gbind_draw. unfold gret.
  intros E. injection E as <- _. unfold record_sales.
  cbn [goal sales_volume displays].
  split; [lia|]. split; [lia|]. intros D0. rewrite (Z4 D0). lia.
Qed.

Lemma dataset_sales (s : rng_state R) : Forall record_sales (dataset R s).
Proof.
  destruct (generated_spec R s) as (E & _ & _).
  assert (H : exists rs, dataset R s = [] ++ rs /\ Forall record_sales rs).
  { revert E. unfold generate_loops. apply for_each_forall.
    intros w. apply for_each_forall.
    intros m. apply for_each_forall.
    intros a. apply for_each_forall.
    intros d data s0 data' s' E. unfold gbind in E.
    destruct (make_record R w _ m (market_multiplier m) a d s0) as [[r s1]|e] eqn:Er;
      [|discriminate].
    injection E as <- _. exists [r]. split; [reflexivity|].
    constructor; [|constructor].
    eapply make_record_sales; [apply market_multiplier_binade | exact Er]. }
  destruct H as (rs & -> & F). exact F.
Qed.

End Sales.

(** X16. The sales volume of every generated record is at least half its
    goal (rounded down) and at most 2.1 times its goal; without displays it
    is at most 1.5 times the goal.  With the goals of X2 this puts every
    sales volume between 340 and 3780. *)
Theorem generated_sales_within_goal (R : RandomSource) (s : rng_state R) :
  exists data st',
    _generate_sample_data R (fresh R s) = Ok (data, st')
    /\ Forall (fun r =>
          r.(goal) <= 2 * r.(sales_volume) + 1
          /\ 10 * r.(sales_volume) <= 21 * r.(goal)
          /\ (r.(displays) = 0 -> 2 * r.(sales_volume) <= 3 * r.(goal))
          /\ 340 <= r.(sales_volume) <= 3780) data.
Proof.
  exists (dataset R s), (loaded R s).
  split; [exact (generate_proc_state R s false)|].
  pose proof (dataset_sales R s) as D. pose proof (dataset_draws R s) as G.
  pose proof (dataset_in_table R s) as T.
  rewrite Forall_forall in *. intros r Hr.
  destruct (D r Hr) as (H1 & H2 & H3).
  destruct (G r Hr) as ((n & Hn & Eg) & _). destruct (T r Hr) as (_ & Hm & _).
  pose proof (proj1 (forallb_forall _ _) goal_table _ Hm) as F1.
  pose proof (proj1 (forallb_forall _ _) F1 n (in_py_range 800 1501 n ltac:(lia))) as F2.
  unfold goal_in_range in F2. rewrite Eg in F2.
  apply andb_prop in F2 as [F2 F6]. apply andb_prop in F2 as [F2 F5].
  repeat split; try assumption; lia.
Qed.

Lemma sums_within_goal (l : list SalesRecord) :
  Forall record_sales l ->
  10 * py_sum (map sales_volume l) <= 21 * py_sum (map goal l)
  /\ py_sum (map goal l) <= 2 * py_sum (map sales_volume l) + Z.of_nat (List.length l).
Proof.
  induction 1 as [|r l (H1 & H2 & _) _ IH]; [cbn; lia|].
  cbn [map List.length]. rewrite !py_sum_cons. lia.
Qed.

Lemma filter_length_le {A : Type} (f : A -> bool) (l : list A) :
  (List.length (filter f l) <= List.length l)%nat.
Proof.
  induction l as [|x l IH]; [constructor|].
  cbn [filter]. destruct (f x); cbn [List.length]; lia.
Qed.

Lemma filter_filter_length {A : Type} (f g : A -> bool) (l : list A) :
  (List.length (filter f (filter g l)) <= List.length (filter f l))%nat.
Proof.
  induction l as [|x l IH]; [constructor|].
  cbn [filter]. destruct (g x); cbn [filter]; destruct (f x); cbn [List.length]; lia.
Qed.

Lemma Forall_filter {A : Type} (P : A -> Prop) (f : A -> bool) (l : list A) :
  Forall P l -> Forall P (filter f l).
Proof.
  intros H. apply Forall_forall. intros x Hx. apply filter_In in Hx as [Hx _].
  exact (proj1 (Forall_forall _ _) H x Hx).
Qed.

Lemma market_records (R : RandomSource) (s : rng_state R) (w : option Z) (m : string) :
  (List.length (of_market m (filter_week w (dataset R s))) <= 280)%nat.
Proof.
  assert (H : (List.length (of_market m (filter_week w (dataset R s)))
               <= List.length (filter (matches None (Some m)) (dataset R s)))%nat).
  { unfold of_market, filter_week, matches. destruct w as [w|].
    - apply filter_filter_length.
    - apply Nat.eq_le_incl. reflexivity. }
  rewrite matches_length in H.
  destruct (str_in m MARKETS) eqn:Em.
  - apply str_in_In in Em.
    pose proof (proj1 (forallb_forall _ _) (proj2 expected_counts) m Em) as C.
    apply Nat.eqb_eq in C. lia.
  - assert (E : filter (key_matches None (Some m)) expected_keys = []).
    { apply filter_none. apply Forall_forall. intros k Hk.
      unfold key_matches. cbn [andb].
      destruct (String.eqb (key_market k) m) eqn:E; [|reflexivity].
      apply String.eqb_eq in E.
      pose proof (proj1 (forallb_forall _ _) expected_keys_in_table k Hk) as Tk.
      destruct k as [[[kw km] ka] kd]. cbn [key_market] in E. subst km.
      unfold key_in_table in Tk.
      apply andb_prop in Tk as [Tk _]. apply andb_prop in Tk as [Tk _].
      apply andb_prop in Tk as [_ Tk]. congruence. }
    rewrite E in H. cbn [List.length] in H. lia.
Qed.

(** X17. The totals of a summary, and of every entry of a territory
    summary, keep the ratio of the records: total sales are at most 2.1
    times the total goal, and twice the total sales fall short of the total
    goal by at most one unit for each record added up (at most 280 records
    for a territory entry). *)
Theorem totals_within_goal (R : RandomSource) (s : rng_state R) (warm : bool)
    (w : option Z) :
  (forall ms, exists summary,
     get_summary_metrics R w ms (proc_state R s warm) = Ok (summary, loaded R s)
     /\ 10 * total_sales summary <= 21 * total_goal summary
     /\ total_goal summary
        <= 2 * total_sales summary + Z.of_nat (List.length (selected R s w ms)))
  /\ (exists result,
        get_territory_summary R w (proc_state R s warm) = Ok (result, loaded R s)
        /\ Forall (fun e => 10 * tr_sales e <= 21 * tr_goal e
                            /\ tr_goal e <= 2 * tr_sales e + 280) result).
Proof.
  split.
  - intros ms. exists (summary_at R s w ms). split; [apply summary_at_call|].
    destruct (summary_at_totals R s w ms) as (Hs & Hg & _).
    rewrite Hs, Hg. apply sums_within_goal.
    apply Forall_filter, dataset_sales.
  - pose proof (filter_week_small w _ (dataset_small R s)) as S.
    destruct (territory_of_spec (filter_week w (dataset R s)) S)
      as (result & E & _ & _ & F & _).
    exists result. split; [rewrite get_territory_summary_call, E; reflexivity|].
    eapply Forall_impl; [|exact F].
    intros e (H1 & H2 & _). rewrite H1, H2.
    destruct (sums_within_goal (of_market (tr_market e) (filter_week w (dataset R s))))
      as [G1 G2].
    { apply Forall_filter. destruct w; [apply Forall_filter|]; apply dataset_sales. }
    pose proof (market_records R s w (tr_market e)). lia.
Qed.

(** ** One data set for all requests *)

(** X18. Whichever function of the data module is called first generates
    the data and leaves the process loaded; called again in the loaded
    process, with the same arguments, it returns the same answer and leaves
    the process, the random generator included, unchanged.  So all
    requests of a process are answered from one data set. *)
Theorem calls_share_one_dataset (R : RandomSource) (s : rng_state R)
    (wf : option Z) (mf : option string) (ms : option (list string)) :
  (exists v, get_sales_data R wf mf (fresh R s) = Ok (v, loaded R s)
             /\ get_sales_data R wf mf (loaded R s) = Ok (v, loaded R s))
  /\ (exists v, get_summary_metrics R wf ms (fresh R s) = Ok (v, loaded R s)
                /\ get_summary_metrics R wf ms (loaded R s) = Ok (v, loaded R s))
  /\ (exists v, get_territory_summary R wf (fresh R s) = Ok (v, loaded R s)
                /\ get_territory_summary R wf (loaded R s) = Ok (v, loaded R s))
  /\ (exists v, get_daily_trend R wf ms (fresh R s) = Ok (v, loaded R s)
                /\ get_daily_trend R wf ms (loaded R s) = Ok (v, loaded R s))
  /\ (exists v, get_available_weeks R (fresh R s) = Ok (v, loaded R s)
                /\ get_available_weeks R (loaded R s) = Ok (v, loaded R s)).
Proof.
  split; [|split; [|split; [|split]]].
  - eexists. split.
    + exact (get_sales_data_call R s false wf mf).
    + exact (get_sales_data_call R s true wf mf).
  - eexists. split.
    + exact (summary_at_call R s false wf ms).
    + exact (summary_at_call R s true wf ms).
  - destruct (territory_of_spec (filter_week wf (dataset R s))) as (result & E & _);
      [apply filter_week_small, dataset_small|].
    exists result. split.
    + rewrite (get_territory_summary_call R s false), E. reflexivity.
    + rewrite (get_territory_summary_call R s true), E. reflexivity.
  - eexists. split.
    + exact (get_daily_trend_call R s false wf ms).
    + exact (get_daily_trend_call R s true wf ms).
  - eexists. split.
    + exact (get_available_weeks_call R s false).
    + exact (get_available_weeks_call R s true).
Qed.
